(** * AwesomeContext: the MCP tool handlers and the cloud start-up script

    A shallow embedding of
    - [mcp-server/src/tools/architect_consult.ts],
      [mcp-server/src/tools/skill_injector.ts] and
      [mcp-server/src/tools/compliance_verify.ts] (the three tool handlers), and
    - [scripts/cloud-start.sh] (backend launch, health polling, gateway hand-off),
    - the web application's admin, geo and logging code ([app/api/admin/...],
      [app/api/me/geo], [lib/geo.ts], [lib/logger.ts]) and three of its
      components ([GeoCapture], [AdminTabs], the log viewer's row toggle),
    together with the part of the JavaScript run-time the handlers rely on
    (strings as UTF-16 code units, [slice], [join], [Number.prototype.toFixed]
    and number-to-string conversion) and, for the routes that read a JSON
    body, JSON values with their conversions to boolean, string and number. *)

From Stdlib Require Import List NArith ZArith QArith Qround String Ascii Bool Lia.
From Stdlib Require Import DecimalString Qpower.
Import ListNotations.

Close Scope Q_scope.

(* ===================================================================== *)
(** * JavaScript strings *)
(* ===================================================================== *)

Module JS.

(** A JavaScript string is a finite sequence of UTF-16 code units; [length]
    and [slice] count code units. *)
Definition char16 := N.
Definition jsstring := list char16.

(** Source literals: every literal of the handlers but the em dash is ASCII. *)
Fixpoint u16 (s : string) : jsstring :=
  match s with
  | EmptyString => []
  | String c s' => N_of_ascii c :: u16 s'
  end.

(** U+2014 EM DASH, one code unit. *)
Definition em_dash : char16 := 8212%N.

Definition LF : char16 := 10%N.

(** [String.prototype.slice(start, end)]. *)
Definition slice (s : jsstring) (start end_ : Z) : jsstring :=
  let len := Z.of_nat (List.length s) in
  let from := if (start <? 0)%Z then Z.max (len + start) 0 else Z.min start len in
  let to := if (end_ <? 0)%Z then Z.max (len + end_) 0 else Z.min end_ len in
  if (from >=? to)%Z then []
  else firstn (Z.to_nat (to - from)) (skipn (Z.to_nat from) s).

(** [Array.prototype.join(sep)] on an array of strings. *)
Fixpoint join (sep : jsstring) (l : list jsstring) : jsstring :=
  match l with
  | [] => []
  | [x] => x
  | x :: rest => x ++ sep ++ join sep rest
  end.

(** [needle] is a prefix of [s]. *)
Fixpoint starts_with (needle s : jsstring) : bool :=
  match needle, s with
  | [], _ => true
  | _ :: _, [] => false
  | a :: needle', b :: s' => (a =? b)%N && starts_with needle' s'
  end.

(** Number of positions of [s] at which [needle] occurs. *)
Fixpoint occurrences (needle s : jsstring) : nat :=
  match s with
  | [] => 0
  | _ :: s' => (if starts_with needle s then 1 else 0) + occurrences needle s'
  end.

(** [String.prototype.includes]. *)
Fixpoint includes (s needle : jsstring) : bool :=
  starts_with needle s ||
  match s with
  | [] => false
  | _ :: s' => includes s' needle
  end.

(** The text up to the first line feed. *)
Fixpoint first_line (s : jsstring) : jsstring :=
  match s with
  | [] => []
  | c :: s' => if (c =? 10)%N then [] else c :: first_line s'
  end.

(** [a === b] on strings. *)
Fixpoint strict_eq (a b : jsstring) : bool :=
  match a, b with
  | [], [] => true
  | x :: a', y :: b' => (x =? y)%N && strict_eq a' b'
  | _, _ => false
  end.

(** [a || b] on strings: the empty string is falsy. *)
Definition or_else (a : option jsstring) (b : jsstring) : jsstring :=
  match a with
  | Some ((_ :: _) as s) => s
  | _ => b
  end.

(* --------------------------------------------------------------------- *)
(** ** JavaScript numbers *)

Local Open Scope Q_scope.

(** A Number is NaN, an infinity, or a finite value [(-1)^neg * m * 2^e]
    (so [-0] is [Finite true 0 e]).  Every IEEE-754 binary64 value has this
    shape; [is_double] recognises the representable ones. *)
Inductive number :=
| NaN
| Infinity (neg : bool)
| Finite (neg : bool) (m : N) (e : Z).

Definition of_N (n : N) : number := Finite false n 0.

Definition magnitude (m : N) (e : Z) : Q := inject_Z (Z.of_N m) * (2 ^ e).

(** Exponent of the unit in the last place of the binary64 nearest in
    magnitude to [m * 2^e] ([m > 0]). *)
Definition ulp_exp (m : N) (e : Z) : Z :=
  Z.max (Z.log2 (Z.of_N m) + e - 52) (-1074).

Definition is_double (x : number) : bool :=
  match x with
  | Finite _ m e =>
      (m =? 0)%N ||
      let q := ulp_exp m e in
      ((Z.log2 (Z.of_N m) + e <=? 1023) &&
       ((q <=? e) || (Z.of_N m mod 2 ^ (q - e) =? 0)))%Z
  | _ => true
  end.

(** Decimal digits of a natural number, most significant first. *)
Definition digits (n : N) : jsstring := u16 (NilEmpty.string_of_uint (N.to_uint n)).

Definition zeros (n : nat) : jsstring := repeat 48%N n.

Definition sign_of (neg : bool) : jsstring := if neg then u16 "-" else [].

(** *** Number::toString, radix 10 *)

(** [n] with [10^(n-1) <= x < 10^n], for [x > 0]. *)
Fixpoint decimal_exp_below (fuel : nat) (x : Q) (j : Z) : Z :=
  match fuel with
  | O => 1 - j
  | S fuel' => if Qle_bool 1 (x * 10 ^ j) then 1 - j
               else decimal_exp_below fuel' x (j + 1)
  end.

Definition decimal_exp (x : Q) : Z :=
  if Qle_bool 1 x
  then Z.of_nat (List.length (digits (Z.to_N (Qfloor x))))
  else decimal_exp_below (List.length (digits (Z.to_N (Qceiling (/ x))))) x 1.

Definition Qabs_diff (a b : Q) : Q := if Qle_bool a b then b - a else a - b.

(** The decimals that read back as the binary64 [m * 2^e]: those within
    half a unit in the last place, the end points included when the
    significand is even (round to nearest, ties to even). *)
Definition reads_back (m : N) (e : Z) (v : Q) : bool :=
  let x := magnitude m e in
  let q := ulp_exp m e in
  let M := Qfloor (x * 2 ^ (- q)) in
  let up := 2 ^ (q - 1) in
  let down := if ((M =? 2 ^ 52) && (-1074 <? q))%Z then 2 ^ (q - 2) else 2 ^ (q - 1) in
  if Z.even M
  then Qle_bool (x - down) v && Qle_bool v (x + up)
  else negb (Qle_bool v (x - down)) && negb (Qle_bool (x + up) v).

(** The shortest digit string [s] (as a number, with [k] digits) and the
    exponent [n] such that [s * 10^(n-k)] reads back as [m * 2^e]; among
    several of that length, the one nearest to the value, and of two equally
    near the even one. *)
Fixpoint shortest (fuel : nat) (m : N) (e : Z) (n0 : Z) (k : Z) : Z * Z * Z :=
  let x := magnitude m e in
  let scale := 10 ^ (n0 - k) in
  let lo := Qfloor (x / scale) in
  let v1 := inject_Z lo * scale in
  let v2 := inject_Z (lo + 1) * scale in
  let nearest :=
    if Qle_bool (Qabs_diff v1 x) (Qabs_diff v2 x)
    then if Qle_bool (Qabs_diff v2 x) (Qabs_diff v1 x)
         then (if Z.even lo then lo else lo + 1)%Z
         else lo
    else (lo + 1)%Z in
  let pick (s : Z) := if (s =? 10 ^ k)%Z then ((10 ^ (k - 1))%Z, k, (n0 + 1)%Z) else (s, k, n0) in
  match fuel with
  | O => pick nearest
  | S fuel' =>
      match reads_back m e v1, reads_back m e v2 with
      | true, true => pick nearest
      | true, false => pick lo
      | false, true => pick (lo + 1)%Z
      | false, false => shortest fuel' m e n0 (k + 1)
      end
  end.

Definition exponent_part (n : Z) : jsstring :=
  u16 "e" ++ (if (n - 1 <? 0)%Z then u16 "-" else u16 "+") ++ digits (Z.abs_N (n - 1)).

(** Number::toString of the positive finite value [m * 2^e]. *)
Definition toString_pos (m : N) (e : Z) : jsstring :=
  let '(s, k, n) := shortest 16 m e (decimal_exp (magnitude m e)) 1 in
  let ds := digits (Z.to_N s) in
  if ((k <=? n) && (n <=? 21))%Z then ds ++ zeros (Z.to_nat (n - k))
  else if ((0 <? n) && (n <=? 21))%Z then
    firstn (Z.to_nat n) ds ++ u16 "." ++ skipn (Z.to_nat n) ds
  else if ((-6 <? n) && (n <=? 0))%Z then
    u16 "0." ++ zeros (Z.to_nat (- n)) ++ ds
  else if (k =? 1)%Z then ds ++ exponent_part n
  else firstn 1 ds ++ u16 "." ++ skipn 1 ds ++ exponent_part n.

(** What a template literal [`${x}`] yields for a Number [x]. *)
Definition toString (x : number) : jsstring :=
  match x with
  | NaN => u16 "NaN"
  | Infinity neg => sign_of neg ++ u16 "Infinity"
  | Finite neg m e =>
      if (m =? 0)%N then u16 "0" else sign_of neg ++ toString_pos m e
  end.

(** *** Number.prototype.toFixed *)

(** The integer [n] nearest to [m * 2^e * 10^f], the larger one on a tie. *)
Definition round_half_up (m : N) (e : Z) (f : nat) : N :=
  let a := (Z.of_N m * 10 ^ Z.of_nat f)%Z in
  Z.to_N (if (0 <=? e)%Z then a * 2 ^ e
          else (2 * a + 2 ^ (- e)) / 2 ^ (- e + 1))%Z.

(** [x.toFixed(f)] for [0 <= f <= 100] (the handlers pass 0 and 2). *)
Definition toFixed (x : number) (f : nat) : jsstring :=
  match x with
  | NaN => u16 "NaN"
  | Infinity neg => sign_of neg ++ u16 "Infinity"
  | Finite neg m e =>
      let s := sign_of (neg && negb (m =? 0)%N) in
      if Qle_bool (10 ^ 21) (magnitude m e) then s ++ toString_pos m e
      else
        let ds := digits (round_half_up m e f) in
        match f with
        | O => s ++ ds
        | S _ =>
            let padded := zeros (S f - List.length ds) ++ ds in
            let k := List.length padded in
            s ++ firstn (k - f) padded ++ u16 "." ++ skipn (k - f) padded
        end
  end.

(** The code units a rendered Number can contain. *)
Definition is_numeric_char (c : char16) : bool :=
  existsb (N.eqb c) (u16 "0123456789+-.eInfityNa").

Definition numericb (s : jsstring) : bool := forallb is_numeric_char s.

End JS.

Import JS.

(* ===================================================================== *)
(** * Wire types of the backend protocol *)
(* ===================================================================== *)

(** Modelled from the spec: [mcp-server/src/types.ts] is not among the
    sources.  The field names are the ones the handlers read and write; an
    optional field ([?] in the spec, or a property set to [undefined]) is an
    [option]; a JavaScript [number] received from the backend is a
    [JS.number] ([top_k] is only ever the literal 5). *)
Inductive ToolName := architect_consult | skill_injector | compliance_verify.

Module LatentQuery.
Record t := mk {
    intent : option jsstring;
    skill_id : option jsstring;
    code : option jsstring;
    tool_name : ToolName;
    module_type_filter : option jsstring;
    top_k : option N;
    session_id : option jsstring
  }.
End LatentQuery.

Module MatchedModule.
Record t := mk {
    module_id : jsstring;
    name : jsstring;
    module_type : jsstring;
    score : number;
    description : jsstring
  }.
End MatchedModule.

Module Metrics.
Record t := mk {
    tokens_saved : number;
    total_time_ms : number
  }.
End Metrics.

Module LatentQueryResponse.
Record t := mk {
    matched_modules : list MatchedModule.t;
    dense_prompt : jsstring;
    metrics : Metrics.t
  }.
End LatentQueryResponse.

Module ModuleInfo.
Record t := mk {
    module_id : jsstring;
    name : jsstring;
    description : jsstring
  }.
End ModuleInfo.

Module ModuleCatalog.
Record t := mk {
    modules : list ModuleInfo.t;
    total : number
  }.
End ModuleCatalog.

(** The value every handler resolves to:
    [{ content: Array<{ type: "text"; text: string }> }]. *)
Module ToolResult.
Record item := mk_item { type : jsstring; text : jsstring }.
Record t := mk { content : list item }.
End ToolResult.

(* ===================================================================== *)
(** * Handlers as programs over the backend client *)
(* ===================================================================== *)

(** Modelled from the spec: [mcp-server/src/client.ts] is not among the
    sources.  Its two operations, [queryLatentBackend] and [listModules], are
    the only effects of a handler; a handler is a tree whose nodes are the
    awaited client calls and whose leaves are the returned values. *)
Inductive Tool (A : Type) : Type :=
| Ret (a : A)
| QueryLatentBackend (q : LatentQuery.t) (k : LatentQueryResponse.t -> Tool A)
| ListModules (moduleType : jsstring) (k : ModuleCatalog.t -> Tool A).

Arguments Ret {A} a.
Arguments QueryLatentBackend {A} q k.
Arguments ListModules {A} moduleType k.

Fixpoint bind {A B} (p : Tool A) (f : A -> Tool B) : Tool B :=
  match p with
  | Ret a => f a
  | QueryLatentBackend q k => QueryLatentBackend q (fun r => bind (k r) f)
  | ListModules t k => ListModules t (fun c => bind (k c) f)
  end.

Definition queryLatentBackend (q : LatentQuery.t) : Tool LatentQueryResponse.t :=
  QueryLatentBackend q Ret.

Definition listModules (moduleType : jsstring) : Tool ModuleCatalog.t :=
  ListModules moduleType Ret.

Declare Scope tool_scope.
Delimit Scope tool_scope with tool.
Notation "'await' x <- c ;; k" := (bind c (fun x => k))
  (at level 61, c at next level, x name, right associativity) : tool_scope.
Open Scope tool_scope.

(** ** The outside world: a backend that answers or fails *)

(** The reason a rejected client promise carries. *)
Inductive Error := Rejected (cause : jsstring).

Record Backend := {
  answer_query : LatentQuery.t -> Error + LatentQueryResponse.t;
  answer_list : jsstring -> Error + ModuleCatalog.t
}.

(** One entry per invocation of a client operation. *)
Inductive Call :=
| QueryCall (q : LatentQuery.t)
| ListCall (moduleType : jsstring).

(** Runs a handler against a backend: the calls made, in order, and the
    value the handler's promise settles to.  A rejected [await] rejects the
    handler's own promise (no handler has a [try]). *)
Fixpoint run {A} (b : Backend) (p : Tool A) : list Call * (Error + A) :=
  match p with
  | Ret a => ([], inr a)
  | QueryLatentBackend q k =>
      match answer_query b q with
      | inl err => ([QueryCall q], inl err)
      | inr r => let (calls, v) := run b (k r) in (QueryCall q :: calls, v)
      end
  | ListModules t k =>
      match answer_list b t with
      | inl err => ([ListCall t], inl err)
      | inr c => let (calls, v) := run b (k c) in (ListCall t :: calls, v)
      end
  end.

Definition is_query (c : Call) : bool :=
  match c with QueryCall _ => true | ListCall _ => false end.

Definition query_count (calls : list Call) : nat :=
  List.length (filter is_query calls).

(** ** Rendering shared by the three handlers *)

Definition text_result (text : jsstring) : ToolResult.t :=
  ToolResult.mk [ToolResult.mk_item (u16 "text") text].

(** [`**Tokens saved:** ${tokens_saved} | **Time:** ${total_time_ms.toFixed(0)}ms`] *)
Definition metrics_line (m : Metrics.t) : jsstring :=
  u16 "**Tokens saved:** " ++ toString (Metrics.tokens_saved m) ++
  u16 " | **Time:** " ++ toFixed (Metrics.total_time_ms m) 0 ++ u16 "ms".

(** The value a handler built as "one query, then render" settles to. *)
Definition settle (b : Backend) (q : LatentQuery.t) (render : LatentQueryResponse.t -> jsstring)
  : Error + ToolResult.t :=
  match answer_query b q with
  | inl err => inl err
  | inr response => inr (text_result (render response))
  end.

(** ** architect_consult *)

Module ArchitectConsultArgs.
Record t := mk { intent : jsstring; session_id : option jsstring }.
End ArchitectConsultArgs.

Definition architect_module_line (m : MatchedModule.t) : jsstring :=
  u16 "  - [" ++ toFixed (MatchedModule.score m) 2 ++ u16 "] **" ++
  MatchedModule.name m ++ u16 "** (" ++ MatchedModule.module_type m ++ u16 ")".

Definition architect_query (args : ArchitectConsultArgs.t) : LatentQuery.t :=
  {| LatentQuery.intent := Some (ArchitectConsultArgs.intent args);
     LatentQuery.skill_id := None;
     LatentQuery.code := None;
     LatentQuery.tool_name := architect_consult;
     LatentQuery.module_type_filter := None;
     LatentQuery.top_k := Some 5%N;
     LatentQuery.session_id := ArchitectConsultArgs.session_id args |}.

Definition architect_text (response : LatentQueryResponse.t) : jsstring :=
  let moduleList :=
    join [LF] (map architect_module_line (LatentQueryResponse.matched_modules response)) in
  join [LF] [
    u16 "## Architecture Guidance";
    [];
    LatentQueryResponse.dense_prompt response;
    [];
    u16 "---";
    u16 "**Matched modules:**";
    moduleList;
    metrics_line (LatentQueryResponse.metrics response)
  ].

Definition handleArchitectConsult (args : ArchitectConsultArgs.t) : Tool ToolResult.t :=
  await response <- queryLatentBackend (architect_query args) ;;
  Ret (text_result (architect_text response)).

(** ** skill_injector *)

Module SkillInjectorArgs.
Record t := mk { skill_id : jsstring; session_id : option jsstring }.
End SkillInjectorArgs.

Definition skill_list_line (m : ModuleInfo.t) : jsstring :=
  u16 "- **" ++ ModuleInfo.module_id m ++ u16 "**: " ++ ModuleInfo.name m ++
  u16 " " ++ [em_dash] ++ u16 " " ++ slice (ModuleInfo.description m) 0 100.

Definition skill_list_text (moduleList : ModuleCatalog.t) : jsstring :=
  let lines := map skill_list_line (ModuleCatalog.modules moduleList) in
  join [LF] (
    [ u16 "## Available Skills (" ++ toString (ModuleCatalog.total moduleList) ++ u16 ")";
      [] ] ++
    lines ++
    [ [];
      u16 "Use any module_id above as the skill_id parameter." ]).

Definition skill_query (args : SkillInjectorArgs.t) : LatentQuery.t :=
  {| LatentQuery.intent := None;
     LatentQuery.skill_id := Some (SkillInjectorArgs.skill_id args);
     LatentQuery.code := None;
     LatentQuery.tool_name := skill_injector;
     LatentQuery.module_type_filter := None;
     LatentQuery.top_k := None;
     LatentQuery.session_id := SkillInjectorArgs.session_id args |}.

(** [response.matched_modules[0]?.name || args.skill_id] *)
Definition matchedName (response : LatentQueryResponse.t) (args : SkillInjectorArgs.t)
  : jsstring :=
  or_else (option_map MatchedModule.name
             (nth_error (LatentQueryResponse.matched_modules response) 0))
          (SkillInjectorArgs.skill_id args).

Definition skill_text (response : LatentQueryResponse.t) (args : SkillInjectorArgs.t)
  : jsstring :=
  join [LF] [
    u16 "## Skill: " ++ matchedName response args;
    [];
    LatentQueryResponse.dense_prompt response;
    [];
    u16 "---";
    metrics_line (LatentQueryResponse.metrics response)
  ].

Definition handleSkillInjector (args : SkillInjectorArgs.t) : Tool ToolResult.t :=
  if strict_eq (SkillInjectorArgs.skill_id args) (u16 "list") then
    await moduleList <- listModules (u16 "skill") ;;
    Ret (text_result (skill_list_text moduleList))
  else
    await response <- queryLatentBackend (skill_query args) ;;
    Ret (text_result (skill_text response args)).

(** ** compliance_verify *)

Module ComplianceVerifyArgs.
Record t := mk {
    code : jsstring;
    rules_filter : option jsstring;
    session_id : option jsstring
  }.
End ComplianceVerifyArgs.

Definition compliance_rule_line (m : MatchedModule.t) : jsstring :=
  u16 "  - [" ++ toFixed (MatchedModule.score m) 2 ++ u16 "] **" ++
  MatchedModule.name m ++ u16 "**: " ++ slice (MatchedModule.description m) 0 80.

Definition compliance_query (args : ComplianceVerifyArgs.t) : LatentQuery.t :=
  {| LatentQuery.intent := None;
     LatentQuery.skill_id := None;
     LatentQuery.code := Some (ComplianceVerifyArgs.code args);
     LatentQuery.tool_name := compliance_verify;
     LatentQuery.module_type_filter :=
       Some (or_else (ComplianceVerifyArgs.rules_filter args) (u16 "rule"));
     LatentQuery.top_k := Some 5%N;
     LatentQuery.session_id := ComplianceVerifyArgs.session_id args |}.

Definition compliance_text (response : LatentQueryResponse.t) : jsstring :=
  let rulesList :=
    join [LF] (map compliance_rule_line (LatentQueryResponse.matched_modules response)) in
  join [LF] [
    u16 "## Compliance Check";
    [];
    LatentQueryResponse.dense_prompt response;
    [];
    u16 "---";
    u16 "**Rules matched:**";
    rulesList;
    metrics_line (LatentQueryResponse.metrics response)
  ].

Definition handleComplianceVerify (args : ComplianceVerifyArgs.t) : Tool ToolResult.t :=
  await response <- queryLatentBackend (compliance_query args) ;;
  Ret (text_result (compliance_text response)).

(** ** Tool registration ([server.tool] in the server entry point) *)

Inductive ToolRequest :=
| ArchitectConsult (args : ArchitectConsultArgs.t)
| SkillInjector (args : SkillInjectorArgs.t)
| ComplianceVerify (args : ComplianceVerifyArgs.t).

Definition dispatch (req : ToolRequest) : Tool ToolResult.t :=
  match req with
  | ArchitectConsult args => handleArchitectConsult args
  | SkillInjector args => handleSkillInjector args
  | ComplianceVerify args => handleComplianceVerify args
  end.

(** ** What the statements below speak about *)

(** The caller- and backend-supplied strings a rendered text embeds. *)
Definition rendered_inputs (req : ToolRequest) (response : LatentQueryResponse.t)
  : list jsstring :=
  let modules := LatentQueryResponse.matched_modules response in
  match req with
  | ArchitectConsult _ =>
      LatentQueryResponse.dense_prompt response ::
      flat_map (fun m => [MatchedModule.name m; MatchedModule.module_type m]) modules
  | SkillInjector args =>
      [matchedName response args; LatentQueryResponse.dense_prompt response]
  | ComplianceVerify _ =>
      LatentQueryResponse.dense_prompt response ::
      flat_map (fun m => [MatchedModule.name m; slice (MatchedModule.description m) 0 80])
               modules
  end.

(** The text a query-backed request renders from the backend's answer. *)
Definition rendered_text (req : ToolRequest) (response : LatentQueryResponse.t)
  : jsstring :=
  match req with
  | ArchitectConsult _ => architect_text response
  | SkillInjector args => skill_text response args
  | ComplianceVerify _ => compliance_text response
  end.

(** The query a request sends; none for the ["list"] sentinel. *)
Definition query_of (req : ToolRequest) : option LatentQuery.t :=
  match req with
  | ArchitectConsult args => Some (architect_query args)
  | SkillInjector args =>
      if strict_eq (SkillInjectorArgs.skill_id args) (u16 "list") then None
      else Some (skill_query args)
  | ComplianceVerify args => Some (compliance_query args)
  end.

(** What precedes the description in a rule line and in a listing line. *)
Definition rule_line_head (m : MatchedModule.t) : jsstring :=
  u16 "  - [" ++ toFixed (MatchedModule.score m) 2 ++ u16 "] **" ++
  MatchedModule.name m ++ u16 "**: ".

Definition list_line_head (m : ModuleInfo.t) : jsstring :=
  u16 "- **" ++ ModuleInfo.module_id m ++ u16 "**: " ++ ModuleInfo.name m ++
  u16 " " ++ [em_dash] ++ u16 " ".

(* ===================================================================== *)
(** * scripts/cloud-start.sh *)
(* ===================================================================== *)

Module CloudStart.

Local Open Scope string_scope.

(** What the script is started with: the two variables it reads, and how
    the backend answers the health probes ([health i] says whether the probe
    of iteration [i] of [for i in $(seq 1 30)] succeeds). *)
Record World := {
  PORT : option string;
  BACKEND_PORT : option string;
  health : nat -> bool
}.

(** The observable steps of the script, in the order they happen. *)
Inductive Event :=
| Echo (line : string)
| SpawnBackend (port : string)
| HealthProbe (attempt : nat) (url : string) (ok : bool)
| Sleep (seconds : nat)
| Export (name value : string)
| Cd (dir : string)
| Exec (command : string)
| Exit (status : nat).

(** [${VAR:-word}]: [word] when [VAR] is unset or empty. *)
Definition default_to (v : option string) (word : string) : string :=
  match v with
  | None | Some EmptyString => word
  | Some s => s
  end.

Definition EXTERNAL_PORT (w : World) : string := default_to (PORT w) "3000".
Definition INTERNAL_PORT (w : World) : string := default_to (BACKEND_PORT w) "8420".

Definition health_url (w : World) : string :=
  ("http://127.0.0.1:" ++ INTERNAL_PORT w ++ "/v1/health")%string.

(** The [for] loop over the values [values]: the events of the loop, and the
    exit status when the loop ends the script. *)
Fixpoint poll (w : World) (values : list nat) : list Event * option nat :=
  match values with
  | [] => ([], None)
  | i :: rest =>
      if health w i then
        ([HealthProbe i (health_url w) true; Echo "Backend ready!"], None)
      else if Nat.eqb i 30 then
        ([HealthProbe i (health_url w) false;
          Echo "ERROR: Backend failed to start within 30 seconds";
          Exit 1], Some 1)
      else
        let (events, status) := poll w rest in
        (HealthProbe i (health_url w) false :: Sleep 1 :: events, status)
  end.

Definition startup (w : World) : list Event :=
  [ Echo "=== AwesomeContext Cloud MCP Service ===";
    Echo ("External MCP port: " ++ EXTERNAL_PORT w);
    Echo ("Internal backend port: " ++ INTERNAL_PORT w);
    Echo ("Starting Python backend on port " ++ INTERNAL_PORT w ++ "...");
    SpawnBackend (INTERNAL_PORT w);
    Echo "Waiting for backend to be ready..." ].

Definition launch (w : World) : list Event :=
  [ Echo ("Starting MCP HTTP server on port " ++ EXTERNAL_PORT w ++ "...");
    Export "MCP_PORT" (EXTERNAL_PORT w);
    Export "AC_BACKEND_URL" ("http://127.0.0.1:" ++ INTERNAL_PORT w);
    Cd "/app/mcp-server";
    Exec "node dist/server-http.js" ].

(** The whole script in the complete image: every probe returns, and [echo],
    [export], [cd] and [exec] succeed (the image ships [/app/mcp-server] and
    [node]); the backend is spawned in the background, so its own fate does
    not stop the script.  [CloudRun] below runs the script without these
    assumptions. *)
Definition cloud_start (w : World) : list Event :=
  let (events, status) := poll w (seq 1 30) in
  startup w ++ events ++
  match status with
  | Some _ => []
  | None => launch w
  end.

Definition is_probe (e : Event) : bool :=
  match e with HealthProbe _ _ _ => true | _ => false end.

Definition is_sleep (e : Event) : bool :=
  match e with Sleep _ => true | _ => false end.

Definition is_exec (e : Event) : bool :=
  match e with Exec _ => true | _ => false end.

Definition attempts (t : list Event) : nat := List.length (filter is_probe t).

(** The failed probes of the iterations [l], each followed by [sleep 1]. *)
Definition failed (w : World) (l : list nat) : list Event :=
  flat_map (fun i => [HealthProbe i (health_url w) false; Sleep 1]) l.

(** Those of the iterations [1..n]. *)
Definition waiting (w : World) (n : nat) : list Event := failed w (seq 1 n).

Definition sleeps (t : list Event) : nat := List.length (filter is_sleep t).

(** How the script ends: it replaces itself by the gateway, or it exits. *)
Inductive Outcome := Launched (command : string) | Exited (status : nat) | Running.

Definition outcome (t : list Event) : Outcome :=
  match last t (Echo "") with
  | Exec c => Launched c
  | Exit s => Exited s
  | _ => Running
  end.

End CloudStart.

(* ===================================================================== *)
(** * The start-up script on a machine that can fail it *)
(* ===================================================================== *)

(** [CloudStart] runs the script where every probe returns and the image is
    complete.  Here the shell meets what the script itself leaves open: the
    probe of line 27 calls [urlopen] without a timeout, so it may never
    return; and under [set -e] (line 8) a failing [cd] (line 42) ends the
    script, as does an [exec] (line 43) that cannot start [node].  [echo],
    [export], [sleep] and [seq] are taken to succeed. *)
Module CloudRun.

Import CloudStart.
Local Open Scope string_scope.

(** What [exec node dist/server-http.js] meets: the shell is replaced by
    [node]; or [node] is not found, and the shell exits with status 127; or
    it is found and cannot be executed, and the shell exits with 126. *)
Inductive ExecResult := Replaced | NotFound | NotExecutable.

Record Machine := {
  world : World;
  (** the probe of iteration [i] never returns *)
  stuck : nat -> bool;
  (** [/app/mcp-server] can be entered *)
  cd_ok : bool;
  node : ExecResult
}.

(** How a run ends: the gateway has replaced the shell, the shell has
    exited, or the shell waits for ever on the probe of an iteration. *)
Inductive Ending :=
| Launches (command : string)
| Exits (status : nat)
| Blocks (attempt : nat).

(** The [for] loop over the values [values]: the steps it completes, and how
    it ends the run, if it does. *)
Fixpoint poll (m : Machine) (values : list nat) : list Event * option Ending :=
  match values with
  | [] => ([], None)
  | i :: rest =>
      if stuck m i then ([], Some (Blocks i))
      else if health (world m) i then
        ([HealthProbe i (health_url (world m)) true; Echo "Backend ready!"], None)
      else if Nat.eqb i 30 then
        ([HealthProbe i (health_url (world m)) false;
          Echo "ERROR: Backend failed to start within 30 seconds";
          Exit 1], Some (Exits 1))
      else
        let (events, ending) := poll m rest in
        (HealthProbe i (health_url (world m)) false :: Sleep 1 :: events, ending)
  end.

(** Lines 39 to 41, which cannot fail here. *)
Definition announce (w : World) : list Event :=
  [ Echo ("Starting MCP HTTP server on port " ++ EXTERNAL_PORT w ++ "...");
    Export "MCP_PORT" (EXTERNAL_PORT w);
    Export "AC_BACKEND_URL" ("http://127.0.0.1:" ++ INTERNAL_PORT w) ].

(** Lines 39 to 43 under [set -e]. *)
Definition launch (m : Machine) : list Event * Ending :=
  if cd_ok m then
    match node m with
    | Replaced =>
        ((announce (world m) ++ [Cd "/app/mcp-server"; Exec "node dist/server-http.js"])%list,
         Launches "node dist/server-http.js")
    | NotFound =>
        ((announce (world m) ++ [Cd "/app/mcp-server"; Exit 127])%list, Exits 127)
    | NotExecutable =>
        ((announce (world m) ++ [Cd "/app/mcp-server"; Exit 126])%list, Exits 126)
    end
  else ((announce (world m) ++ [Exit 1])%list, Exits 1).

(** The whole script: the steps completed and the ending. *)
Definition run (m : Machine) : list Event * Ending :=
  let (events, ending) := poll m (seq 1 30) in
  match ending with
  | Some e => ((startup (world m) ++ events)%list, e)
  | None =>
      let (steps, e) := launch m in
      ((startup (world m) ++ events ++ steps)%list, e)
  end.

(** The probes started: those that returned, and the one the run waits on. *)
Definition probes_started (m : Machine) : nat :=
  attempts (fst (run m)) + match snd (run m) with Blocks _ => 1 | _ => 0 end.

(** Probe [k] is made and returns: no earlier probe succeeded or got stuck. *)
Definition reached (m : Machine) (k : nat) : Prop :=
  1 <= k <= 30
  /\ forall j, 1 <= j < k -> stuck m j = false /\ health (world m) j = false.

(** The complete image: every probe returns, [cd] and [exec] succeed. *)
Definition in_image (w : World) : Machine :=
  {| world := w; stuck := fun _ => false; cd_ok := true; node := Replaced |}.

End CloudRun.

(* ===================================================================== *)
(** * Sample data *)
(* ===================================================================== *)

Module Sample.

(** The binary64 nearest to 0.93 and to 42.7. *)
Definition score_0_93 : number := Finite false 8376695306909123 (-53).
Definition time_42_7 : number := Finite false 3004745376386253 (-46).

Definition security_review : MatchedModule.t :=
  {| MatchedModule.module_id := u16 "m1";
     MatchedModule.name := u16 "Security Review";
     MatchedModule.module_type := u16 "skill";
     MatchedModule.score := score_0_93;
     MatchedModule.description := u16 "Review code for..." |}.

Definition response : LatentQueryResponse.t :=
  {| LatentQueryResponse.matched_modules := [security_review];
     LatentQueryResponse.dense_prompt := u16 "Check for injection flaws.";
     LatentQueryResponse.metrics :=
       {| Metrics.tokens_saved := of_N 1200; Metrics.total_time_ms := time_42_7 |} |}.

Definition catalog : ModuleCatalog.t :=
  {| ModuleCatalog.modules :=
       [ {| ModuleInfo.module_id := u16 "skills/tdd-workflow";
            ModuleInfo.name := u16 "TDD Workflow";
            ModuleInfo.description := u16 "Write the test first." |} ];
     ModuleCatalog.total := of_N 1 |}.

(** A backend that answers every query with [r] and every listing with
    [catalog]. *)
Definition answering (r : LatentQueryResponse.t) : Backend :=
  {| answer_query := fun _ => inr r; answer_list := fun _ => inr catalog |}.

(** A match whose [name] is the empty string. *)
Definition unnamed_response : LatentQueryResponse.t :=
  {| LatentQueryResponse.matched_modules :=
       [ {| MatchedModule.module_id := u16 "m1";
            MatchedModule.name := [];
            MatchedModule.module_type := u16 "skill";
            MatchedModule.score := of_N 1;
            MatchedModule.description := u16 "Review code for..." |} ];
     LatentQueryResponse.dense_prompt := u16 "Check for injection flaws.";
     LatentQueryResponse.metrics :=
       {| Metrics.tokens_saved := of_N 1200; Metrics.total_time_ms := of_N 43 |} |}.

(** A backend that is down. *)
Definition unreachable : Backend :=
  {| answer_query := fun _ => inl (Rejected (u16 "fetch failed"));
     answer_list := fun _ => inl (Rejected (u16 "fetch failed")) |}.

(** A backend answer without matches. *)
Definition no_match_response : LatentQueryResponse.t :=
  {| LatentQueryResponse.matched_modules := [];
     LatentQueryResponse.dense_prompt := u16 "No guidance found.";
     LatentQueryResponse.metrics :=
       {| Metrics.tokens_saved := of_N 0; Metrics.total_time_ms := of_N 7 |} |}.

(** Worlds used to try the statements: the backend answers from the fifth
    probe on; the backend never answers. *)
Definition ready_at_fifth : CloudStart.World :=
  {| CloudStart.PORT := Some "10000"%string; CloudStart.BACKEND_PORT := None;
     CloudStart.health := fun i => Nat.leb 5 i |}.

Definition never_ready : CloudStart.World :=
  {| CloudStart.PORT := None; CloudStart.BACKEND_PORT := None;
     CloudStart.health := fun _ => false |}.

(** Machines used to try the statements: one whose first probe never
    returns and whose backend never becomes healthy; one whose backend is
    healthy at once and where [/app/mcp-server] is missing; one whose backend
    answers from the fifth probe on and where [node] is not installed. *)
Definition blocked_at_first : CloudRun.Machine :=
  {| CloudRun.world := never_ready;
     CloudRun.stuck := fun i => Nat.eqb i 1;
     CloudRun.cd_ok := true;
     CloudRun.node := CloudRun.Replaced |}.

Definition no_directory : CloudRun.Machine :=
  {| CloudRun.world :=
       {| CloudStart.PORT := None; CloudStart.BACKEND_PORT := None;
          CloudStart.health := fun _ => true |};
     CloudRun.stuck := fun _ => false;
     CloudRun.cd_ok := false;
     CloudRun.node := CloudRun.Replaced |}.

Definition no_node : CloudRun.Machine :=
  {| CloudRun.world := ready_at_fifth;
     CloudRun.stuck := fun _ => false;
     CloudRun.cd_ok := true;
     CloudRun.node := CloudRun.NotFound |}.

End Sample.

(* ===================================================================== *)
(** * More of the JavaScript run-time *)
(* ===================================================================== *)

Module JSMore.

(** A decimal digit. *)
Definition is_digit (c : char16) : bool := ((48 <=? c) && (c <=? 57))%N.

(** [0 <= x <= 1] for a Number ([-0] included, NaN excluded). *)
Definition in_unit_interval (x : number) : bool :=
  match x with
  | Finite neg m e =>
      (m =? 0)%N ||
      (negb neg &&
       (if (0 <=? e)%Z then (Z.of_N m * 2 ^ e <=? 1)%Z else (Z.of_N m <=? 2 ^ (- e))%Z))
  | _ => false
  end.

(** The three-digit shape of a number of hundredths up to 100. *)
Definition hundredths_shape (n : N) : bool :=
  match zeros (3 - List.length (digits n)) ++ digits n with
  | [a; b; c] =>
      is_digit a && is_digit b && is_digit c &&
      ((a =? 48) || ((a =? 49) && (b =? 48) && (c =? 48)))%N
  | _ => false
  end.

(** [WhiteSpace] and [LineTerminator] code points, which [trim] strips. *)
Definition is_white_space (c : char16) : bool :=
  existsb (N.eqb c)
    [ 9; 10; 11; 12; 13; 32; 160; 5760;
      8192; 8193; 8194; 8195; 8196; 8197; 8198; 8199; 8200; 8201; 8202;
      8232; 8233; 8239; 8287; 12288; 65279 ]%N.

Fixpoint trimStart (s : jsstring) : jsstring :=
  match s with
  | [] => []
  | c :: s' => if is_white_space c then trimStart s' else s
  end.

Definition trimEnd (s : jsstring) : jsstring := rev (trimStart (rev s)).

(** [String.prototype.trim]. *)
Definition trim (s : jsstring) : jsstring := trimEnd (trimStart s).

(** [s.split(sep)] for a one-code-unit separator: never an empty array. *)
Fixpoint split (sep : char16) (s : jsstring) : list jsstring :=
  match s with
  | [] => [[]]
  | c :: s' =>
      if (c =? sep)%N then [] :: split sep s'
      else match split sep s' with
           | piece :: pieces => (c :: piece) :: pieces
           | [] => [[c]]
           end
  end.

(** Truthiness of a string, and of a possibly absent one. *)
Definition truthy (s : jsstring) : bool :=
  match s with [] => false | _ :: _ => true end.

Definition truthy_opt (s : option jsstring) : bool :=
  match s with Some s => truthy s | None => false end.

(** [a ?? d]. *)
Definition nullish_or {A : Type} (a : option A) (d : A) : A :=
  match a with Some x => x | None => d end.

(** [a || null] on a string. *)
Definition or_null (s : jsstring) : option jsstring :=
  if truthy s then Some s else None.

(** [list.includes(x)] on an array of strings. *)
Definition array_includes (l : list jsstring) (x : jsstring) : bool :=
  existsb (strict_eq x) l.

(** Truthiness of a Number: NaN, [0] and [-0] are falsy. *)
Definition number_truthy (x : number) : bool :=
  match x with
  | NaN => false
  | Infinity _ => true
  | Finite _ m _ => negb (m =? 0)%N
  end.

(** [x <= 0]. *)
Definition le_zero (x : number) : bool :=
  match x with
  | NaN => false
  | Infinity neg => neg
  | Finite neg m _ => (m =? 0)%N || neg
  end.

(** [x > 0]. *)
Definition positive (x : number) : bool :=
  match x with
  | NaN => false
  | Infinity neg => negb neg
  | Finite neg m _ => negb neg && negb (m =? 0)%N
  end.

(** [Math.round]: the nearest integer, the one closer to +Infinity on a
    tie; a negative argument that rounds to zero gives [-0]. *)
Definition Math_round (x : number) : number :=
  match x with
  | Finite false m e => Finite false (round_half_up m e 0) 0
  | Finite true m e =>
      Finite true
        (Z.to_N (if (0 <=? e)%Z then Z.of_N m * 2 ^ e
                 else (2 * Z.of_N m + 2 ^ (- e) - 1) / 2 ^ (- e + 1))%Z) 0
  | _ => x
  end.

(** The value of a digit in the given radix (10 or 16 here). *)
Definition digit_value (radix : N) (c : char16) : option N :=
  let value :=
    if ((48 <=? c) && (c <=? 57))%N then Some (c - 48)%N
    else if ((97 <=? c) && (c <=? 122))%N then Some (c - 87)%N
    else if ((65 <=? c) && (c <=? 90))%N then Some (c - 55)%N
    else None in
  match value with
  | Some d => if (d <? radix)%N then Some d else None
  | None => None
  end.

(** The number written by the longest prefix of digits; none when there is
    no digit in front. *)
Fixpoint parse_digits (radix : N) (s : jsstring) (acc : N) (seen : bool) : option N :=
  match s with
  | [] => if seen then Some acc else None
  | c :: s' =>
      match digit_value radix c with
      | Some d => parse_digits radix s' (acc * radix + d)%N true
      | None => if seen then Some acc else None
      end
  end.

(** The binary64 nearest to the integer [(-1)^neg * n] (ties to even). *)
Definition to_double (neg : bool) (n : N) : number :=
  let bits := N.size n in
  if (bits <=? 53)%N then Finite neg n 0
  else
    let shift := (bits - 53)%N in
    let q := N.shiftr n shift in
    let r := (n mod 2 ^ shift)%N in
    let half := (2 ^ (shift - 1))%N in
    let q' := if ((half <? r) || ((r =? half) && N.odd q))%N then (q + 1)%N else q in
    if (1024 <? N.size (q' * 2 ^ shift))%N then Infinity neg
    else Finite neg q' (Z.of_N shift).

(** [parseInt(s)] with no radix given. *)
Definition parseInt (s : jsstring) : number :=
  let s1 := trimStart s in
  let neg := match s1 with c :: _ => (c =? 45)%N | [] => false end in
  let s2 := match s1 with
            | c :: r => if ((c =? 43) || (c =? 45))%N then r else s1
            | [] => s1
            end in
  let hex := match s2 with
             | c :: x :: _ => ((c =? 48) && ((x =? 120) || (x =? 88)))%N
             | _ => false
             end in
  let radix := if hex then 16%N else 10%N in
  let s3 := if hex then skipn 2 s2 else s2 in
  match parse_digits radix s3 0 false with
  | None => NaN
  | Some n => to_double neg n
  end.

(** The value of a finite Number. *)
Definition signed (neg : bool) (m : N) (e : Z) : Q :=
  if neg then Qopp (magnitude m e) else magnitude m e.

(** [a < b]; false when either is NaN. *)
Definition number_lt (a b : number) : bool :=
  match a, b with
  | NaN, _ | _, NaN => false
  | Infinity na, Infinity nb => na && negb nb
  | Infinity na, Finite _ _ _ => na
  | Finite _ _ _, Infinity nb => negb nb
  | Finite na ma ea, Finite nb mb eb =>
      negb (Qle_bool (signed nb mb eb) (signed na ma ea))
  end.

Definition sign_bit (x : number) : bool :=
  match x with
  | NaN => false
  | Infinity neg => neg
  | Finite neg _ _ => neg
  end.

(** [Math.min(a, b)]: NaN when either is NaN; [-0] counts as less than [0]. *)
Definition Math_min (a b : number) : number :=
  match a, b with
  | NaN, _ | _, NaN => NaN
  | _, _ =>
      if number_lt b a then b
      else if number_lt a b then a
      else if sign_bit b && negb (sign_bit a) then b
      else a
  end.

End JSMore.

Import JSMore.

(* ===================================================================== *)
(** * JSON values and their conversions *)
(* ===================================================================== *)

(** What [await req.json()] gives, and the conversions JavaScript applies to
    such a value where the routes use one unchecked ([!x], [x <= 0],
    [Math.round(x)], [x ?? d]). *)
Module JSValue.

Local Open Scope Q_scope.

(** The binary64 nearest to [(-1)^neg * x] for a rational [x >= 0] (ties to
    even; a magnitude too large gives an infinity, one too small a zero). *)
Definition nearest_double (neg : bool) (x : Q) : number :=
  if Qle_bool x 0 then Finite neg 0 0
  else
    let l := (Z.log2 (Qnum x) - Z.log2 (Zpos (Qden x)))%Z in
    let b := if Qle_bool (2 ^ l) x then l else (l - 1)%Z in
    let q := Z.max (b - 52) (-1074) in
    let s := x * 2 ^ (- q) in
    let n := Qfloor s in
    let r := s - inject_Z n in
    let n' :=
      if Qle_bool r (1 # 2)
      then if Qle_bool (1 # 2) r then (if Z.even n then n else n + 1)%Z else n
      else (n + 1)%Z in
    if (n' =? 0)%Z then Finite neg 0 0
    else if (1023 <? Z.log2 n' + q)%Z then Infinity neg
    else Finite neg (Z.to_N n') q.

Local Close Scope Q_scope.

(** The digits in front of [s], read in the given radix after [acc]: the
    value, the number of digits read, and what follows them. *)
Fixpoint leading_digits (radix : N) (s : jsstring) (acc : N) (count : nat)
    : N * nat * jsstring :=
  match s with
  | [] => (acc, count, [])
  | c :: s' =>
      match digit_value radix c with
      | Some d => leading_digits radix s' (acc * radix + d)%N (S count)
      | None => (acc, count, s)
      end
  end.

(** A leading [+] or [-], and the rest. *)
Definition take_sign (s : jsstring) : bool * jsstring :=
  match s with
  | c :: r => if (c =? 45)%N then (true, r) else if (c =? 43)%N then (false, r) else (false, s)
  | [] => (false, s)
  end.

(** [SignedInteger] up to the end of the text. *)
Definition exponent_value (s : jsstring) : option Z :=
  let (neg, r) := take_sign s in
  match leading_digits 10 r 0 0 with
  | (v, S _, []) => Some (if neg then (- Z.of_N v)%Z else Z.of_N v)
  | _ => None
  end.

(** [StrUnsignedDecimalLiteral] other than [Infinity]: digits with an
    optional fraction and an optional exponent, as [M * 10^E]. *)
Definition unsigned_decimal (s : jsstring) : option (N * Z) :=
  let '(i, ni, r1) := leading_digits 10 s 0 0 in
  let '(M, nf, r2) :=
    match r1 with
    | c :: r => if (c =? 46)%N then leading_digits 10 r i 0 else (i, 0, r1)
    | [] => (i, 0, r1)
    end in
  match ni + nf with
  | O => None
  | S _ =>
      match r2 with
      | [] => Some (M, (- Z.of_nat nf)%Z)
      | c :: r3 =>
          if ((c =? 101) || (c =? 69))%N then
            match exponent_value r3 with
            | Some x => Some (M, (x - Z.of_nat nf)%Z)
            | None => None
            end
          else None
      end
  end.

(** [NonDecimalIntegerLiteral]: [0x], [0o] or [0b] and digits of that radix. *)
Definition non_decimal (s : jsstring) : option N :=
  match s with
  | 48%N :: x :: r =>
      let radix :=
        if ((x =? 120) || (x =? 88))%N then Some 16%N
        else if ((x =? 111) || (x =? 79))%N then Some 8%N
        else if ((x =? 98) || (x =? 66))%N then Some 2%N
        else None in
      match radix with
      | Some base =>
          match leading_digits base r 0 0 with
          | (v, S _, []) => Some v
          | _ => None
          end
      | None => None
      end
  | _ => None
  end.

(** [StringToNumber]: the Number a string converts to; white space around
    the literal is skipped, the empty text is [0], and a text that is no
    numeric literal is NaN.  (A decimal literal is rounded from its exact
    value, as V8 does.) *)
Definition StringToNumber (s : jsstring) : number :=
  match trim s with
  | [] => Finite false 0 0
  | t =>
      match non_decimal t with
      | Some n => to_double false n
      | None =>
          let (neg, r) := take_sign t in
          if strict_eq r (u16 "Infinity") then Infinity neg
          else
            match unsigned_decimal r with
            | Some (M, E) => nearest_double neg (inject_Z (Z.of_N M) * 10 ^ E)%Q
            | None => NaN
            end
      end
  end.

(** A JSON value; an object lists its members as the text names them. *)
#[warnings="-register-all"] Inductive Json :=
| JNull
| JBool (b : bool)
| JNumber (n : number)
| JString (s : jsstring)
| JArray (items : list Json)
| JObject (members : list (jsstring * Json)).

(** [o[key]] on the members of a parsed object: [JSON.parse] keeps the last
    of the members that share a name. *)
Fixpoint member (key : jsstring) (members : list (jsstring * Json)) : option Json :=
  match members with
  | [] => None
  | (k, v) :: rest =>
      match member key rest with
      | Some later => Some later
      | None => if strict_eq k key then Some v else None
      end
  end.

(** [v.key] for a value that is not [null]: [undefined] unless [v] is an
    object with that member (no key read by the routes is a property of a
    string, a number, a boolean or an array). *)
Definition property (v : Json) (key : jsstring) : option Json :=
  match v with
  | JObject members => member key members
  | _ => None
  end.

(** Truthiness; an absent value is [undefined]. *)
Definition json_truthy (v : Json) : bool :=
  match v with
  | JNull => false
  | JBool b => b
  | JNumber n => number_truthy n
  | JString s => truthy s
  | JArray _ | JObject _ => true
  end.

Definition truthy_value (v : option Json) : bool :=
  match v with Some x => json_truthy x | None => false end.

(** [v ?? d]: [d] when [v] is [undefined] or [null]. *)
Definition nullish (v : option Json) (d : Json) : Json :=
  match v with
  | None | Some JNull => d
  | Some x => x
  end.

Definition not_primitive : Error :=
  Rejected (u16 "TypeError: Cannot convert object to primitive value").

(** [ToString].  An array joins the texts of its items with commas, [null]
    items giving the empty text.  A parsed object has no callable [toString]
    or [valueOf] of its own: it is "[object Object]" by the inherited
    [toString], unless a member named [toString] hides that one, and then
    the conversion throws. *)
Fixpoint ToString (v : Json) : Error + jsstring :=
  match v with
  | JNull => inr (u16 "null")
  | JBool b => inr (if b then u16 "true" else u16 "false")
  | JNumber n => inr (toString n)
  | JString s => inr s
  | JArray items =>
      let pieces :=
        (fix pieces (l : list Json) : Error + list jsstring :=
           match l with
           | [] => inr []
           | x :: rest =>
               match (match x with JNull => inr [] | _ => ToString x end) with
               | inl e => inl e
               | inr piece =>
                   match pieces rest with
                   | inl e => inl e
                   | inr more => inr (piece :: more)
                   end
               end
           end) items in
      match pieces with
      | inl e => inl e
      | inr texts => inr (join (u16 ",") texts)
      end
  | JObject members =>
      match member (u16 "toString") members with
      | Some _ => inl not_primitive
      | None => inr (u16 "[object Object]")
      end
  end.

(** [ToNumber]; an array or an object converts through its text. *)
Definition ToNumber (v : Json) : Error + number :=
  match v with
  | JNull => inr (Finite false 0 0)
  | JBool b => inr (if b then of_N 1 else Finite false 0 0)
  | JNumber n => inr n
  | JString s => inr (StringToNumber s)
  | JArray _ | JObject _ =>
      match ToString v with
      | inl e => inl e
      | inr text => inr (StringToNumber text)
      end
  end.

End JSValue.

Import JSValue.

(* ===================================================================== *)
(** * Reading traces of the start-up script *)
(* ===================================================================== *)

Module Trace.

Import CloudStart.

(** The steps that configure and start the gateway. *)
Definition is_gateway_step (e : Event) : bool :=
  match e with Export _ _ | Cd _ | Exec _ => true | _ => false end.

Definition is_spawn (e : Event) : bool :=
  match e with SpawnBackend _ => true | _ => false end.

(** The iteration numbers of the probes, in the order they were made. *)
Definition probe_numbers (t : list Event) : list nat :=
  flat_map (fun e => match e with HealthProbe i _ _ => [i] | _ => [] end) t.

End Trace.

(* ===================================================================== *)
(** * The web application's routes *)
(* ===================================================================== *)

Module Web.

(** ** Sessions, responses, database operations *)

(** [req.auth]: the session, its optional [user], and the user's optional
    [id] and [role]. *)
Record SessionUser := { id : option jsstring; role : option jsstring }.
Record Session := { user : option SessionUser }.

(** A record as the database hands it back; the routes pass it on unread. *)
Inductive Row := row (json : jsstring).

(** The JSON bodies the routes answer with. *)
Inductive Body :=
| error_body (error : jsstring)
| user_body (user : Row)
| payment_body (payment : Row)
| payments_body (payments : list Row)
| success_body (success : bool)
| status_body (status : jsstring)
| geo_body (country city : option jsstring)
| logs_body (logs : list Row) (total : number).

(** [NextResponse.json(body, { status })]; the status is 200 when omitted. *)
Record Response := json { body : Body; status : nat }.

(** The [data] of [prisma.user.update]. *)
Inductive UserData :=
| user_fields (source role : option Json)
| user_geo (country : jsstring) (city : option jsstring).

(** The [data] of [prisma.payment.create]: the fields as the route hands
    them over, unchecked but for [amount], which is a Number. *)
Record PaymentData := {
  pd_userId : Json;
  pd_amount : number;
  pd_currency : Json;
  pd_method : Json;
  pd_note : Json
}.

Record PaymentPatch := { pp_status : option jsstring; pp_note : option jsstring }.

Inductive LogLevel := info | warn | error.
Inductive LogSource := auth_source | api | mcp | system.

Record AppLogData := {
  al_level : LogLevel;
  al_source : LogSource;
  al_message : jsstring;
  al_meta : option jsstring;
  al_userId : option jsstring
}.

(** The [where] of the log queries; a date bound holds the text given to
    [new Date]. *)
Record DateRange := { gte : option jsstring; lte : option jsstring }.

Record LogWhere := {
  w_level : option jsstring;
  w_source : option jsstring;
  w_message_contains : option jsstring;
  w_createdAt : option DateRange
}.

(** What [geoip.lookup] finds. *)
Record Geo := { geo_country : jsstring; geo_city : jsstring }.

(** The calls a route makes to the outside, with the type of what each
    gives back. *)
Inductive Op : Type -> Type :=
| user_findUnique_country (id : jsstring) : Op (option (option jsstring))
| user_update (id : jsstring) (data : UserData) : Op Row
| payment_findMany (take : nat) : Op (list Row)
| payment_create (data : PaymentData) : Op Row
| payment_update (id : jsstring) (data : PaymentPatch) : Op Row
| payment_delete (id : jsstring) : Op Row
| appLog_create (data : AppLogData) : Op Row
| appLog_findMany (criteria : LogWhere) (take skip : number) : Op (list Row)
| appLog_count (criteria : LogWhere) : Op number
| geoip_lookup (ip : jsstring) : Op (option Geo).

(** An asynchronous function: it returns, throws, awaits a call (and is
    rejected with it), awaits two calls started together with [Promise.all],
    awaits a call inside [try]/[catch], or writes a line with
    [console.error] and goes on. *)
Inductive Route (A : Type) : Type :=
| Done (a : A)
| Throw (e : Error)
| Await {R : Type} (op : Op R) (k : R -> Route A)
| AwaitAll {R1 R2 : Type} (op1 : Op R1) (op2 : Op R2) (k : R1 -> R2 -> Route A)
| TryAwait {R : Type} (op : Op R) (k : R -> Route A) (catch : Route A)
| ConsoleError (line : jsstring) (k : Route A).

Arguments Done {A} a.
Arguments Throw {A} e.
Arguments Await {A R} op k.
Arguments AwaitAll {A R1 R2} op1 op2 k.
Arguments TryAwait {A R} op k catch.
Arguments ConsoleError {A} line k.

Fixpoint bindR {A B : Type} (p : Route A) (f : A -> Route B) : Route B :=
  match p with
  | Done a => f a
  | Throw e => Throw e
  | Await op k => Await op (fun r => bindR (k r) f)
  | AwaitAll op1 op2 k => AwaitAll op1 op2 (fun r1 r2 => bindR (k r1 r2) f)
  | TryAwait op k catch => TryAwait op (fun r => bindR (k r) f) (bindR catch f)
  | ConsoleError line k => ConsoleError line (bindR k f)
  end.

(** How the outside answers each call. *)
Definition Outside := forall R : Type, Op R -> Error + R.

(** What a run leaves behind. *)
Inductive Step :=
| called {R : Type} (op : Op R)
| printed (line : jsstring).

Fixpoint exec {A : Type} (o : Outside) (p : Route A) : list Step * (Error + A) :=
  match p with
  | Done a => ([], inr a)
  | Throw e => ([], inl e)
  | Await op k =>
      match o _ op with
      | inl e => ([called op], inl e)
      | inr r => let (steps, v) := exec o (k r) in (called op :: steps, v)
      end
  | AwaitAll op1 op2 k =>
      match o _ op1, o _ op2 with
      | inr r1, inr r2 =>
          let (steps, v) := exec o (k r1 r2) in (called op1 :: called op2 :: steps, v)
      | inl e, _ => ([called op1; called op2], inl e)
      | _, inl e => ([called op1; called op2], inl e)
      end
  | TryAwait op k catch =>
      match o _ op with
      | inl _ => let (steps, v) := exec o catch in (called op :: steps, v)
      | inr r => let (steps, v) := exec o (k r) in (called op :: steps, v)
      end
  | ConsoleError line k =>
      let (steps, v) := exec o k in (printed line :: steps, v)
  end.

Definition is_call (s : Step) : bool :=
  match s with called _ => true | printed _ => false end.

(** ** The admin gate *)

(** [!req.auth?.user?.id || req.auth.user.role !== "admin"] *)
Definition not_admin (auth : option Session) : bool :=
  match auth with
  | Some {| user := Some u |} =>
      negb (truthy_opt (id u)) ||
      negb (match role u with Some r => strict_eq r (u16 "admin") | None => false end)
  | _ => true
  end.

Definition forbidden : Response := json (error_body (u16 "Forbidden")) 403.

(** ** Reading a body *)

Definition is_null (v : Json) : bool :=
  match v with JNull => true | _ => false end.

(** What [const { key, ... } = body] throws when [body] is [null]. *)
Definition null_body (key : jsstring) : Error :=
  Rejected (u16 "TypeError: Cannot destructure property '" ++ key ++
            u16 "' of 'body' as it is null.").

(** ** PATCH /api/admin/users/[id] *)

Module AdminUsersId.

(** The request: the session, the [id] of the path, and what
    [await req.json()] gives (or the error it throws).  The route casts the
    body to its declared type and checks nothing but what is written out
    below. *)
Record request := { auth : option Session; id : jsstring; json_body : Error + Json }.

(** [role !== undefined && ["user", "admin"].includes(role)] *)
Definition role_allowed (role : option Json) : bool :=
  match role with
  | Some (JString r) => array_includes [u16 "user"; u16 "admin"] r
  | _ => false
  end.

Definition PATCH (req : request) : Route Response :=
  if not_admin (auth req) then Done forbidden
  else
    match json_body req with
    | inl e => Throw e
    | inr b =>
        if is_null b then Throw (null_body (u16 "source"))
        else
          let source := property b (u16 "source") in
          let role := property b (u16 "role") in
          let data_source := source in
          let data_role := if role_allowed role then role else None in
          match data_source, data_role with
          | None, None => Done (json (error_body (u16 "No valid fields")) 400)
          | _, _ =>
              Await (user_update (id req) (user_fields data_source data_role))
                    (fun user => Done (json (user_body user) 200))
          end
    end.

End AdminUsersId.

(** ** PATCH and DELETE /api/admin/payments/[id] *)

Module AdminPaymentsId.

Record body := { status : option jsstring; note : option jsstring }.

Record request := { auth : option Session; id : jsstring; json_body : Error + body }.

Definition PATCH (req : request) : Route Response :=
  if not_admin (auth req) then Done forbidden
  else
    match json_body req with
    | inl e => Throw e
    | inr b =>
        let data_status :=
          match status b with
          | Some s =>
              if truthy s &&
                 array_includes [u16 "completed"; u16 "pending"; u16 "refunded"] s
              then Some s else None
          | None => None
          end in
        Await (payment_update (id req) {| pp_status := data_status; pp_note := note b |})
              (fun payment => Done (json (payment_body payment) 200))
    end.

Record delete_request := { d_auth : option Session; d_id : jsstring }.

Definition DELETE (req : delete_request) : Route Response :=
  if not_admin (d_auth req) then Done forbidden
  else
    Await (payment_delete (d_id req))
          (fun _ => Done (json (success_body true) 200)).

End AdminPaymentsId.

(** ** GET and POST /api/admin/payments *)

Module AdminPayments.

Definition GET (auth : option Session) : Route Response :=
  if not_admin auth then Done forbidden
  else
    Await (payment_findMany 100)
          (fun payments => Done (json (payments_body payments) 200)).

(** The request: the session and what [await req.json()] gives (or the
    error it throws).  The route casts the body to its declared type; what
    it checks is the condition below. *)
Record request := { auth : option Session; json_body : Error + Json }.

Definition bad_request : Response :=
  json (error_body (u16 "userId and amount are required")) 400.

Definition POST (req : request) : Route Response :=
  if not_admin (auth req) then Done forbidden
  else
    match json_body req with
    | inl e => Throw e
    | inr b =>
        if is_null b then Throw (null_body (u16 "userId"))
        else
          let userId := property b (u16 "userId") in
          let amount := property b (u16 "amount") in
          let currency := property b (u16 "currency") in
          let method := property b (u16 "method") in
          let note := property b (u16 "note") in
          (* [!userId || !amount || amount <= 0] *)
          match userId, amount with
          | Some u, Some a =>
              if negb (json_truthy u) || negb (json_truthy a) then Done bad_request
              else
                match ToNumber a with
                | inl e => Throw e
                | inr n =>
                    if le_zero n then Done bad_request
                    else
                      Await (payment_create
                               {| pd_userId := u;
                                  pd_amount := Math_round n;
                                  pd_currency := nullish currency (JString (u16 "USD"));
                                  pd_method := nullish method (JString (u16 "manual"));
                                  pd_note := nullish note JNull |})
                            (fun payment => Done (json (payment_body payment) 201))
                end
          | _, _ => Done bad_request
          end
    end.

End AdminPayments.

(** ** GET /api/admin/logs *)

Module AdminLogs.

(** The request: the session and what [url.searchParams.get] gives for each
    parameter (absent when it gives [null]). *)
Record request := {
  auth : option Session;
  level : option jsstring;
  source : option jsstring;
  search : option jsstring;
  limit : option jsstring;
  offset : option jsstring;
  from : option jsstring;
  to : option jsstring
}.

(** [x || undefined] *)
Definition filled (x : option jsstring) : option jsstring :=
  if truthy_opt x then x else None.

(** [Math.min(parseInt(url.searchParams.get("limit") ?? "50"), 200)] *)
Definition page_size (req : request) : number :=
  Math_min (parseInt (nullish_or (limit req) (u16 "50"))) (of_N 200).

Definition where_of (req : request) : LogWhere :=
  {| w_level := filled (level req);
     w_source := filled (source req);
     w_message_contains := filled (search req);
     w_createdAt :=
       if truthy_opt (from req) || truthy_opt (to req)
       then Some {| gte := filled (from req); lte := filled (to req) |}
       else None |}.

Definition GET (req : request) : Route Response :=
  if not_admin (auth req) then Done forbidden
  else
    let limit := page_size req in
    let offset := parseInt (nullish_or (offset req) (u16 "0")) in
    let criteria := where_of req in
    AwaitAll (appLog_findMany criteria limit offset) (appLog_count criteria)
             (fun logs total => Done (json (logs_body logs total) 200)).

End AdminLogs.

(** ** lib/geo.ts and POST /api/me/geo *)

Module MeGeo.

Definition lookupGeo (ip : jsstring) : Route (option jsstring * option jsstring) :=
  if negb (truthy ip) || strict_eq ip (u16 "127.0.0.1") || strict_eq ip (u16 "::1")
  then Done (None, None)
  else
    Await (geoip_lookup ip)
          (fun geo =>
             match geo with
             | None => Done (None, None)
             | Some g => Done (or_null (geo_country g), or_null (geo_city g))
             end).

Record request := {
  auth : option Session;
  x_forwarded_for : option jsstring;
  x_real_ip : option jsstring
}.

(** [req.auth?.user?.id] *)
Definition session_user_id (auth : option Session) : option jsstring :=
  match auth with
  | Some {| user := Some u |} => id u
  | _ => None
  end.

(** [forwarded?.split(",")[0]?.trim() || req.headers.get("x-real-ip") || ""] *)
Definition client_ip (req : request) : jsstring :=
  let first :=
    match x_forwarded_for req with
    | Some forwarded => option_map trim (nth_error (split 44%N forwarded) 0)
    | None => None
    end in
  if truthy_opt first then nullish_or first []
  else if truthy_opt (x_real_ip req) then nullish_or (x_real_ip req) []
  else [].

Definition POST (req : request) : Route Response :=
  match session_user_id (auth req) with
  | Some ((_ :: _) as uid) =>
      Await (user_findUnique_country uid)
        (fun found =>
           if truthy_opt (match found with Some country => country | None => None end)
           then Done (json (status_body (u16 "already_set")) 200)
           else
             bindR (lookupGeo (client_ip req))
               (fun '(country, city) =>
                  match country with
                  | Some c =>
                      Await (user_update uid (user_geo c city))
                            (fun _ => Done (json (geo_body country city) 200))
                  | None => Done (json (geo_body country city) 200)
                  end))
  | _ => Done (json (error_body (u16 "Unauthorized")) 401)
  end.

End MeGeo.

(** ** lib/logger.ts *)

Module Logger.

Definition level_name (l : LogLevel) : jsstring :=
  match l with info => u16 "info" | warn => u16 "warn" | error => u16 "error" end.

Definition source_name (s : LogSource) : jsstring :=
  match s with
  | auth_source => u16 "auth" | api => u16 "api" | mcp => u16 "mcp" | system => u16 "system"
  end.

(** [meta] is given with what [JSON.stringify(meta)] yields for it: a
    string, or the exception it throws. *)
Definition appLog (level : LogLevel) (source : LogSource) (message : jsstring)
    (meta : option (Error + jsstring)) (userId : option jsstring) : Route unit :=
  let complain :=
    ConsoleError (u16 "[AppLog:" ++ level_name level ++ u16 "] " ++
                  source_name source ++ u16 ": " ++ message)
                 (Done tt) in
  let create (meta_json : option jsstring) :=
    TryAwait (appLog_create
                {| al_level := level;
                   al_source := source;
                   al_message := message;
                   al_meta := meta_json;
                   al_userId := if truthy_opt userId then userId else None |})
             (fun _ => Done tt)
             complain in
  match meta with
  | None => create None
  | Some (inr text) => create (Some text)
  | Some (inl _) => complain
  end.

End Logger.

(** ** The routes behind the admin gate, taken together *)

Inductive AdminRequest :=
| users_id_PATCH (req : AdminUsersId.request)
| logs_GET (req : AdminLogs.request)
| payments_GET (auth : option Session)
| payments_POST (req : AdminPayments.request)
| payments_id_PATCH (req : AdminPaymentsId.request)
| payments_id_DELETE (req : AdminPaymentsId.delete_request).

Definition admin_route (r : AdminRequest) : Route Response :=
  match r with
  | users_id_PATCH req => AdminUsersId.PATCH req
  | logs_GET req => AdminLogs.GET req
  | payments_GET auth => AdminPayments.GET auth
  | payments_POST req => AdminPayments.POST req
  | payments_id_PATCH req => AdminPaymentsId.PATCH req
  | payments_id_DELETE req => AdminPaymentsId.DELETE req
  end.

Definition admin_auth (r : AdminRequest) : option Session :=
  match r with
  | users_id_PATCH req => AdminUsersId.auth req
  | logs_GET req => AdminLogs.auth req
  | payments_GET auth => auth
  | payments_POST req => AdminPayments.auth req
  | payments_id_PATCH req => AdminPaymentsId.auth req
  | payments_id_DELETE req => AdminPaymentsId.d_auth req
  end.

(** ** Reading what a run did *)

Definition log_pages (steps : list Step) : list (LogWhere * number * number) :=
  flat_map (fun s => match s with
                     | called (appLog_findMany criteria take skip) => [(criteria, take, skip)]
                     | _ => []
                     end) steps.

Definition user_updates (steps : list Step) : list (jsstring * UserData) :=
  flat_map (fun s => match s with
                     | called (user_update id data) => [(id, data)]
                     | _ => []
                     end) steps.

Definition geo_lookups (steps : list Step) : list jsstring :=
  flat_map (fun s => match s with
                     | called (geoip_lookup ip) => [ip]
                     | _ => []
                     end) steps.

Definition printed_lines (steps : list Step) : list jsstring :=
  flat_map (fun s => match s with printed line => [line] | _ => [] end) steps.

(** ** components/dashboard/GeoCapture.tsx *)

Module GeoCapture.

Definition key : jsstring := u16 "geo_captured".

(** [sessionStorage], as the list of its entries. *)
Definition Storage := list (jsstring * jsstring).

Fixpoint getItem (s : Storage) (k : jsstring) : option jsstring :=
  match s with
  | [] => None
  | (k', v) :: s' => if strict_eq k' k then Some v else getItem s' k
  end.

Fixpoint setItem (s : Storage) (k v : jsstring) : Storage :=
  match s with
  | [] => [(k, v)]
  | (k', v') :: s' =>
      if strict_eq k' k then (k, v) :: s' else (k', v') :: setItem s' k v
  end.

(** The tab: its session storage and the requests it has sent (method and
    URL).  A failed request changes nothing else ([.catch(() => {})]). *)
Record Browser := { sessionStorage : Storage; fetched : list (jsstring * jsstring) }.

(** The effect that runs when the component mounts. *)
Definition effect (b : Browser) : Browser :=
  if truthy_opt (getItem (sessionStorage b) key) then b
  else
    {| sessionStorage := setItem (sessionStorage b) key (u16 "1");
       fetched := fetched b ++ [(u16 "POST", u16 "/api/me/geo")] |}.

(** [n] mounts in a row. *)
Fixpoint mounts (n : nat) (b : Browser) : Browser :=
  match n with
  | O => b
  | S n' => mounts n' (effect b)
  end.

End GeoCapture.

(** ** components/admin/AdminTabs.tsx *)

Module AdminTabs.

Record Tab := { href : jsstring; label : jsstring; exact : bool }.

Definition tabs : list Tab :=
  [ {| href := u16 "/admin"; label := u16 "Overview"; exact := true |};
    {| href := u16 "/admin/users"; label := u16 "Users"; exact := false |};
    {| href := u16 "/admin/payments"; label := u16 "Payments"; exact := false |};
    {| href := u16 "/admin/logs"; label := u16 "Logs"; exact := false |} ].

(** [tab.exact ? pathname === tab.href : pathname.startsWith(tab.href)] *)
Definition active (pathname : jsstring) (tab : Tab) : bool :=
  if exact tab then strict_eq pathname (href tab)
  else starts_with (href tab) pathname.

End AdminTabs.

(** ** The expanded rows of the log viewer *)

Module LogViewer.

(** A [Set] of strings: its elements in insertion order, each once. *)
Definition has (s : list jsstring) (x : jsstring) : bool := existsb (strict_eq x) s.

Definition delete (s : list jsstring) (x : jsstring) : list jsstring :=
  filter (fun y => negb (strict_eq y x)) s.

Definition add (s : list jsstring) (x : jsstring) : list jsstring :=
  if has s x then s else s ++ [x].

(** [toggleExpand(id)], as the update it applies to [expanded]. *)
Definition toggleExpand (id : jsstring) (prev : list jsstring) : list jsstring :=
  let next := prev in
  if has next id then delete next id else add next id.

End LogViewer.

End Web.

(* ===================================================================== *)
(** * Sample requests *)
(* ===================================================================== *)

Module WebSample.

Import Web.

Definition admin_session : option Session :=
  Some {| user := Some {| id := Some (u16 "u1"); role := Some (u16 "admin") |} |}.

Definition member_session : option Session :=
  Some {| user := Some {| id := Some (u16 "u2"); role := Some (u16 "user") |} |}.

(** An outside where every call succeeds: updates, creations and deletions
    hand back a record, the user has no country yet, and the address is
    found in Lisbon. *)
Definition obliging : Outside :=
  fun R op =>
    match op in Op R return Error + R with
    | user_findUnique_country _ => inr (Some None)
    | user_update _ _ => inr (row (u16 "{user}"))
    | payment_findMany _ => inr []
    | payment_create _ => inr (row (u16 "{payment}"))
    | payment_update _ _ => inr (row (u16 "{payment}"))
    | payment_delete _ => inr (row (u16 "{payment}"))
    | appLog_create _ => inr (row (u16 "{log}"))
    | appLog_findMany _ _ _ => inr []
    | appLog_count _ => inr (of_N 0)
    | geoip_lookup _ => inr (Some {| geo_country := u16 "PT"; geo_city := u16 "Lisbon" |})
    end.

(** An outside where every call fails. *)
Definition broken : Outside := fun R op => inl (Rejected (u16 "connection refused")).

Definition admin_user_patch (b : Json) : AdminUsersId.request :=
  {| AdminUsersId.auth := admin_session;
     AdminUsersId.id := u16 "u7";
     AdminUsersId.json_body := inr b |}.


Definition admin_payment_post (b : Json) : AdminPayments.request :=
  {| AdminPayments.auth := admin_session; AdminPayments.json_body := inr b |}.

Definition geo_request (forwarded real : option jsstring) : MeGeo.request :=
  {| MeGeo.auth := member_session;
     MeGeo.x_forwarded_for := forwarded;
     MeGeo.x_real_ip := real |}.

Definition logs_request (limit : option jsstring) : AdminLogs.request :=
  {| AdminLogs.auth := admin_session;
     AdminLogs.level := Some (u16 "error");
     AdminLogs.source := Some [];
     AdminLogs.search := None;
     AdminLogs.limit := limit;
     AdminLogs.offset := None;
     AdminLogs.from := None;
     AdminLogs.to := None |}.

(** 0.4, as a binary64. *)
Definition amount_0_4 : number := Finite false 3602879701896397 (-53).

(** Bodies: a source with a role that is not one of the two; a payment whose
    amount is the text "5"; one whose amount is [true]; one whose amount is
    a number below one half. *)
Definition patch_source_and_root : Json :=
  JObject [ (u16 "source", JString (u16 "github")); (u16 "role", JString (u16 "root")) ].

Definition payment_of (amount : Json) : Json :=
  JObject [ (u16 "userId", JString (u16 "u7")); (u16 "amount", amount) ].

End WebSample.

(* ===================================================================== *)
(** * Facts about the JavaScript run-time model *)
(* ===================================================================== *)

(** The number model on values whose rendering is well known. *)

Example toFixed_known :
  map (fun x => toFixed x 2)
    [ of_N 0; of_N 1; Finite true 0 0;
      Finite false 1 (-1);                     (* 0.5 *)
      Finite false 1131529406376837 (-50);     (* 1.005 *)
      Finite true 8687443681197687 (-46);      (* -123.456 *)
      Finite true 2913700119930571 (-71);      (* -0.000001234 *)
      Finite false 476837158203125 21;         (* 1e21 *)
      NaN; Infinity true ]
  = map u16 [ "0.00"; "1.00"; "0.00"; "0.50"; "1.00"; "-123.46"; "-0.00"; "1e+21";
              "NaN"; "-Infinity" ]%string
  /\ map (fun x => toFixed x 0)
       [ Finite false 1 (-1); Finite false 3 (-1); Finite false 5 (-1) ]  (* 0.5, 1.5, 2.5 *)
     = map u16 [ "1"; "2"; "3" ]%string.
Proof. split; vm_compute; reflexivity. Qed.

Example toString_known :
  map toString
    [ of_N 0; of_N 1200; of_N 9007199254740992;
      Finite false 3602879701896397 (-55);     (* 0.1 *)
      Finite false 1351079888211149 (-52);     (* 0.1 + 0.2 *)
      Finite false 4722366482869645 (-72);     (* 0.000001 *)
      Finite false 944473296573929 (-73);      (* 0.0000001 *)
      Finite false 476837158203125 21;         (* 10^21 *)
      Finite false 2980232238769531 25;        (* the binary64 nearest to 10^23 *)
      Finite false 1 (-1074);                  (* the least positive value *)
      Finite false 9007199254740991 971;       (* the greatest finite value *)
      Finite true 5 (-1); Infinity false ]
  = map u16 [ "0"; "1200"; "9007199254740992"; "0.1"; "0.30000000000000004";
              "0.000001"; "1e-7"; "1e+21"; "1e+23"; "5e-324";
              "1.7976931348623157e+308"; "-2.5"; "Infinity" ]%string.
Proof. vm_compute. reflexivity. Qed.

(** The sample score and time are the binary64 values that the literals
    [0.93] and [42.7] denote. *)
Example sample_numbers :
  is_double Sample.score_0_93 = true
  /\ reads_back 8376695306909123 (-53) (93 # 100)%Q = true
  /\ toString Sample.score_0_93 = u16 "0.93"
  /\ is_double Sample.time_42_7 = true
  /\ reads_back 3004745376386253 (-46) (427 # 10)%Q = true
  /\ toString Sample.time_42_7 = u16 "42.7".
Proof. repeat split; vm_compute; reflexivity. Qed.

Section StringFacts.

Lemma strict_eq_spec (a b : jsstring) : strict_eq a b = true <-> a = b.
Proof.
  revert b; induction a as [|x a IH]; intros [|y b]; simpl; split;
    try congruence; try reflexivity.
  - rewrite andb_true_iff, N.eqb_eq, IH. intros [-> ->]; reflexivity.
  - intros E; injection E as -> ->. rewrite N.eqb_refl, (proj2 (IH b) eq_refl).
    reflexivity.
Qed.

Lemma strict_eq_refl (a : jsstring) : strict_eq a a = true.
Proof. apply strict_eq_spec; reflexivity. Qed.

Lemma strict_eq_neq (a b : jsstring) : a <> b -> strict_eq a b = false.
Proof.
  intros H. destruct (strict_eq a b) eqn:E; [|reflexivity].
  apply strict_eq_spec in E. contradiction.
Qed.

(** [s.slice(0, n)] keeps the first [n] code units and nothing else. *)
Lemma slice_0 (s : jsstring) (n : nat) : slice s 0 (Z.of_nat n) = firstn n s.
Proof.
  unfold slice.
  change (0 <? 0)%Z with false. cbv iota.
  destruct (Z.of_nat n <? 0)%Z eqn:En; [apply Z.ltb_lt in En; lia|].
  rewrite Z.min_l by lia.
  destruct (0 >=? Z.min (Z.of_nat n) (Z.of_nat (List.length s)))%Z eqn:E.
  - rewrite Z.geb_le in E.
    assert (n = 0%nat \/ List.length s = 0%nat) as [->| L] by lia.
    + reflexivity.
    + destruct s; [|discriminate]. now rewrite firstn_nil.
  - rewrite Z.sub_0_r. change (Z.to_nat 0) with 0%nat. cbn [skipn].
    destruct (Z.min_spec (Z.of_nat n) (Z.of_nat (List.length s))) as [[L ->]|[L ->]].
    + now rewrite Nat2Z.id.
    + rewrite Nat2Z.id, firstn_all. symmetry. apply firstn_all2. lia.
Qed.

End StringFacts.

(** ** Counting occurrences across concatenation *)

Section Occurrences.

Variable needle : jsstring.

Lemma starts_with_app_sep (x y : jsstring) (sep : char16) :
  ~ In sep needle ->
  starts_with needle (x ++ sep :: y) = starts_with needle x.
Proof.
  revert x. induction needle as [|a n IH]; intros x Hsep.
  - destruct x; reflexivity.
  - assert (a <> sep) as Ha by (intros ->; apply Hsep; left; reflexivity).
    assert (~ In sep n) as Hn by (intros C; apply Hsep; right; exact C).
    destruct x as [|c x]; cbn.
    + apply N.eqb_neq in Ha. rewrite Ha. reflexivity.
    + rewrite (IH x Hn). reflexivity.
Qed.

Hypothesis needle_nonempty : needle <> [].

Lemma starts_with_nil : starts_with needle [] = false.
Proof. destruct needle; [contradiction|reflexivity]. Qed.

(** No occurrence can run over a code unit that the needle lacks. *)
Lemma occurrences_app_sep (x y : jsstring) (sep : char16) :
  ~ In sep needle ->
  occurrences needle (x ++ sep :: y) = occurrences needle x + occurrences needle y.
Proof.
  intros Hsep. induction x as [|c x IH].
  - pose proof (starts_with_app_sep [] y sep Hsep) as E.
    cbn [app] in E. cbn [app occurrences]. rewrite E, starts_with_nil. reflexivity.
  - change ((c :: x) ++ sep :: y) with (c :: (x ++ sep :: y)).
    cbn [occurrences]. rewrite IH.
    change (c :: (x ++ sep :: y)) with ((c :: x) ++ sep :: y).
    rewrite (starts_with_app_sep (c :: x) y sep Hsep). lia.
Qed.

Lemma occurrences_sep_cons (y : jsstring) (sep : char16) :
  ~ In sep needle -> occurrences needle (sep :: y) = occurrences needle y.
Proof. intros H. apply (occurrences_app_sep [] y sep H). Qed.

(** Splitting where the left part ends with a code unit foreign to the
    needle. *)
Lemma occurrences_app_after (x y : jsstring) (sep : char16) :
  ~ In sep needle ->
  occurrences needle ((x ++ [sep]) ++ y)
  = occurrences needle (x ++ [sep]) + occurrences needle y.
Proof.
  intros H. rewrite <- app_assoc. cbn [app].
  rewrite !occurrences_app_sep by exact H. cbn. lia.
Qed.

Lemma occurrences_join (sep : char16) (l : list jsstring) :
  ~ In sep needle ->
  occurrences needle (join [sep] l) = list_sum (map (occurrences needle) l).
Proof.
  intros H. induction l as [|x [|y l] IH].
  - reflexivity.
  - cbn. lia.
  - change (join [sep] (x :: y :: l)) with (x ++ sep :: join [sep] (y :: l)).
    rewrite occurrences_app_sep by exact H. rewrite IH. reflexivity.
Qed.

Variable first : char16.
Variable others : jsstring.
Hypothesis needle_head : needle = first :: others.

Lemma starts_with_other_head (c : char16) (s : jsstring) :
  c <> first -> starts_with needle (c :: s) = false.
Proof.
  intros H. rewrite needle_head. cbn.
  assert (first <> c) as H' by congruence.
  apply N.eqb_neq in H'. rewrite H'. reflexivity.
Qed.

(** A text without the needle's first code unit in front adds nothing. *)
Lemma occurrences_skip (x y : jsstring) :
  ~ In first x -> occurrences needle (x ++ y) = occurrences needle y.
Proof.
  induction x as [|c x IH]; intros H; [reflexivity|].
  cbn [app occurrences]. rewrite starts_with_other_head.
  - apply IH. intros C. apply H. right. exact C.
  - intros ->. apply H. left. reflexivity.
Qed.

Lemma occurrences_none (x : jsstring) :
  ~ In first x -> occurrences needle x = 0.
Proof.
  intros H. rewrite <- (app_nil_r x). rewrite (occurrences_skip x [] H). reflexivity.
Qed.

End Occurrences.

(** ** Rendered numbers *)

Section NumericText.

Lemma numericb_app (a b : jsstring) : numericb (a ++ b) = numericb a && numericb b.
Proof. apply forallb_app. Qed.

Lemma numericb_firstn (n : nat) (s : jsstring) :
  numericb s = true -> numericb (firstn n s) = true.
Proof.
  revert n; induction s as [|c s IH]; intros [|n]; cbn; try reflexivity.
  rewrite !andb_true_iff. intros [H1 H2]. split; [exact H1|apply IH, H2].
Qed.

Lemma numericb_skipn (n : nat) (s : jsstring) :
  numericb s = true -> numericb (skipn n s) = true.
Proof.
  revert n; induction s as [|c s IH]; intros [|n]; cbn; try reflexivity.
  - intros H; exact H.
  - rewrite andb_true_iff. intros [_ H2]. apply IH, H2.
Qed.

Lemma numericb_zeros (n : nat) : numericb (zeros n) = true.
Proof. induction n; [reflexivity|]. cbn. exact IHn. Qed.

Lemma numericb_digits (n : N) : numericb (digits n) = true.
Proof.
  unfold digits. induction (N.to_uint n) as [|d IH|d IH|d IH|d IH|d IH|d IH|d IH|d IH|d IH|d IH];
    [reflexivity|..]; cbn [NilEmpty.string_of_uint u16 numericb forallb];
    apply andb_true_iff; (split; [vm_compute; reflexivity|exact IH]).
Qed.

Lemma numericb_sign (neg : bool) : numericb (sign_of neg) = true.
Proof. destruct neg; reflexivity. Qed.

Lemma numericb_exponent_part (n : Z) : numericb (exponent_part n) = true.
Proof.
  unfold exponent_part. rewrite !numericb_app, numericb_digits.
  destruct (n - 1 <? 0)%Z; reflexivity.
Qed.

Lemma numericb_toString_pos (m : N) (e : Z) : numericb (toString_pos m e) = true.
Proof.
  unfold toString_pos.
  destruct (shortest 16 m e (decimal_exp (magnitude m e)) 1) as [[s k] n].
  pose proof (numericb_digits (Z.to_N s)) as D.
  repeat match goal with |- context [if ?c then _ else _] => destruct c end;
    rewrite ?numericb_app, ?numericb_zeros, ?numericb_exponent_part,
            ?numericb_firstn, ?numericb_skipn, ?D by exact D;
    reflexivity.
Qed.

Lemma numericb_toString (x : number) : numericb (toString x) = true.
Proof.
  destruct x as [|neg|neg m e]; cbn [toString].
  - reflexivity.
  - destruct neg; reflexivity.
  - destruct (m =? 0)%N; [reflexivity|].
    rewrite numericb_app, numericb_sign, numericb_toString_pos. reflexivity.
Qed.

Lemma numericb_toFixed (x : number) (f : nat) : numericb (toFixed x f) = true.
Proof.
  destruct x as [|neg|neg m e]; cbn [toFixed].
  - reflexivity.
  - destruct neg; reflexivity.
  - destruct (Qle_bool _ _).
    + rewrite numericb_app, numericb_sign, numericb_toString_pos. reflexivity.
    + pose proof (numericb_digits (round_half_up m e f)) as D.
      destruct f as [|f].
      * rewrite numericb_app, numericb_sign, D. reflexivity.
      * assert (numericb (zeros (S (S f) - List.length (digits (round_half_up m e (S f))))
                          ++ digits (round_half_up m e (S f))) = true) as P.
        { rewrite numericb_app, numericb_zeros, D. reflexivity. }
        rewrite !numericb_app, numericb_sign, numericb_firstn, numericb_skipn by exact P.
        reflexivity.
Qed.

(** In particular a rendered Number has no capital [T] (code unit 84). *)
Lemma numeric_has_no_T (s : jsstring) : numericb s = true -> ~ In 84%N s.
Proof.
  unfold numericb. rewrite forallb_forall. intros H C.
  specialize (H _ C). vm_compute in H. discriminate.
Qed.

End NumericText.

(* ===================================================================== *)
(** * What each handler does with the backend *)
(* ===================================================================== *)

Section HandlerRuns.

Variable b : Backend.

Lemma run_architect (args : ArchitectConsultArgs.t) :
  run b (handleArchitectConsult args)
  = ([QueryCall (architect_query args)], settle b (architect_query args) architect_text).
Proof.
  unfold handleArchitectConsult, settle; simpl.
  destruct (answer_query b (architect_query args)); reflexivity.
Qed.

Lemma run_compliance (args : ComplianceVerifyArgs.t) :
  run b (handleComplianceVerify args)
  = ([QueryCall (compliance_query args)], settle b (compliance_query args) compliance_text).
Proof.
  unfold handleComplianceVerify, settle; simpl.
  destruct (answer_query b (compliance_query args)); reflexivity.
Qed.

Lemma run_skill_list (sid : option jsstring) :
  run b (handleSkillInjector (SkillInjectorArgs.mk (u16 "list") sid))
  = ([ListCall (u16 "skill")],
     match answer_list b (u16 "skill") with
     | inl err => inl err
     | inr moduleList => inr (text_result (skill_list_text moduleList))
     end).
Proof.
  unfold handleSkillInjector; simpl.
  destruct (answer_list b _); reflexivity.
Qed.

Lemma run_skill_query (args : SkillInjectorArgs.t) :
  SkillInjectorArgs.skill_id args <> u16 "list" ->
  run b (handleSkillInjector args)
  = ([QueryCall (skill_query args)],
     settle b (skill_query args) (fun response => skill_text response args)).
Proof.
  intros H. unfold handleSkillInjector, settle.
  rewrite (strict_eq_neq _ _ H); simpl.
  destruct (answer_query b (skill_query args)); reflexivity.
Qed.

End HandlerRuns.

(* --------------------------------------------------------------------- *)
(** ** Empty arguments (C1) *)

(** C1, as the code has it: an empty [intent] (or [code]) is not rejected.
    On an answering backend, [architect_consult] with the empty intent and
    [compliance_verify] with the empty code each invoke the query operation
    once and resolve to a rendered text; nothing fails and the invocation
    count is 1, not 0. *)
Lemma empty_argument_is_queried :
  let b := Sample.answering Sample.response in
  let a := ArchitectConsultArgs.mk [] None in
  let c := ComplianceVerifyArgs.mk [] None None in
  run b (handleArchitectConsult a)
    = ([QueryCall (architect_query a)], inr (text_result (architect_text Sample.response)))
  /\ query_count (fst (run b (handleArchitectConsult a))) = 1
  /\ run b (handleComplianceVerify c)
    = ([QueryCall (compliance_query c)], inr (text_result (compliance_text Sample.response)))
  /\ query_count (fst (run b (handleComplianceVerify c))) = 1.
Proof. repeat split. Qed.

(** C1 (amended): for every backend and session, [architect_consult] with the
    empty intent and [compliance_verify] with the empty code invoke the
    backend query operation exactly once, passing the empty string on, and
    settle to whatever that query gives: the rendered text when the backend
    answers, the backend's own rejection otherwise.  The handler raises no
    error of its own. *)
Theorem empty_argument_forwarded (b : Backend) (sid rules : option jsstring) :
  let a := ArchitectConsultArgs.mk [] sid in
  let c := ComplianceVerifyArgs.mk [] rules sid in
  (fst (run b (handleArchitectConsult a)) = [QueryCall (architect_query a)]
   /\ LatentQuery.intent (architect_query a) = Some []
   /\ query_count (fst (run b (handleArchitectConsult a))) = 1
   /\ snd (run b (handleArchitectConsult a)) = settle b (architect_query a) architect_text)
  /\
  (fst (run b (handleComplianceVerify c)) = [QueryCall (compliance_query c)]
   /\ LatentQuery.code (compliance_query c) = Some []
   /\ query_count (fst (run b (handleComplianceVerify c))) = 1
   /\ snd (run b (handleComplianceVerify c)) = settle b (compliance_query c) compliance_text).
Proof.
  intros a c. rewrite run_architect, run_compliance. repeat split.
Qed.

(* --------------------------------------------------------------------- *)
(** ** The "list" sentinel (C2) *)

(** C2: [skill_injector("list")], for every session and every backend
    (answering or not), makes exactly one client call, the catalog listing
    with module type ["skill"]; the query operation is never invoked. *)
Theorem list_never_queries (b : Backend) (sid : option jsstring) :
  let calls := fst (run b (handleSkillInjector (SkillInjectorArgs.mk (u16 "list") sid))) in
  calls = [ListCall (u16 "skill")] /\ query_count calls = 0.
Proof.
  intros calls. unfold calls. rewrite run_skill_list. split; reflexivity.
Qed.

(* --------------------------------------------------------------------- *)
(** ** The query of skill_injector (C6) *)

(** C6, as the code has it: the query sent for [skill_id = "skills/tdd-workflow"]
    carries no [module_type_filter] at all. *)
Lemma skill_query_has_no_filter :
  let args := SkillInjectorArgs.mk (u16 "skills/tdd-workflow") None in
  exists q,
    fst (run (Sample.answering Sample.response) (handleSkillInjector args)) = [QueryCall q]
    /\ LatentQuery.module_type_filter q = None
    /\ LatentQuery.module_type_filter q <> Some (u16 "skill").
Proof.
  eexists. split; [reflexivity|]. split; [reflexivity|discriminate].
Qed.

(** C6 (amended): for every [skill_id] other than ["list"], the handler sends
    exactly one query; it carries the requested [skill_id], the tool name
    [skill_injector] and the caller's [session_id] unchanged, and leaves
    [module_type_filter], [top_k], [intent] and [code] absent. *)
Theorem skill_query_fields (b : Backend) (args : SkillInjectorArgs.t) :
  SkillInjectorArgs.skill_id args <> u16 "list" ->
  exists q,
    fst (run b (handleSkillInjector args)) = [QueryCall q]
    /\ LatentQuery.skill_id q = Some (SkillInjectorArgs.skill_id args)
    /\ LatentQuery.tool_name q = skill_injector
    /\ LatentQuery.session_id q = SkillInjectorArgs.session_id args
    /\ LatentQuery.module_type_filter q = None
    /\ LatentQuery.top_k q = None
    /\ LatentQuery.intent q = None
    /\ LatentQuery.code q = None.
Proof.
  intros H. exists (skill_query args). rewrite (run_skill_query b args H).
  repeat split.
Qed.

Lemma skill_query_fields_witness :
  exists q,
    fst (run Sample.unreachable
           (handleSkillInjector (SkillInjectorArgs.mk (u16 "skills/tdd-workflow") (Some (u16 "s1")))))
      = [QueryCall q]
    /\ LatentQuery.skill_id q = Some (u16 "skills/tdd-workflow")
    /\ LatentQuery.tool_name q = skill_injector
    /\ LatentQuery.session_id q = Some (u16 "s1")
    /\ LatentQuery.module_type_filter q = None
    /\ LatentQuery.top_k q = None
    /\ LatentQuery.intent q = None
    /\ LatentQuery.code q = None.
Proof.
  apply (skill_query_fields Sample.unreachable
           (SkillInjectorArgs.mk (u16 "skills/tdd-workflow") (Some (u16 "s1")))).
  simpl. discriminate.
Defined.

(* --------------------------------------------------------------------- *)
(** ** The heading of skill_injector (C9) *)

(** C9, as the code has it: a first match whose [name] is the empty string
    makes the heading fall back to the requested [skill_id], although
    [matched_modules] is not empty. *)
Lemma unnamed_match_falls_back :
  let args := SkillInjectorArgs.mk (u16 "tdd") None in
  let text := skill_text Sample.unnamed_response args in
  snd (run (Sample.answering Sample.unnamed_response) (handleSkillInjector args))
    = inr (text_result text)
  /\ LatentQueryResponse.matched_modules Sample.unnamed_response <> []
  /\ first_line text = u16 "## Skill: tdd"
  /\ first_line text
     <> u16 "## Skill: " ++
        match LatentQueryResponse.matched_modules Sample.unnamed_response with
        | [] => SkillInjectorArgs.skill_id args
        | m :: _ => MatchedModule.name m
        end.
Proof. repeat split; discriminate. Qed.

(** C9 (amended): for every [skill_id] other than ["list"] and every answer
    of the backend, the rendered text starts with ["## Skill: "], the heading
    name and a line feed; the heading name is the first matched module's
    [name] when there is a first match and its name is not empty, and the
    requested [skill_id] exactly when [matched_modules] is empty or the first
    match has the empty name. *)
Theorem skill_heading (b : Backend) (args : SkillInjectorArgs.t)
    (response : LatentQueryResponse.t) :
  SkillInjectorArgs.skill_id args <> u16 "list" ->
  answer_query b (skill_query args) = inr response ->
  exists heading rest,
    snd (run b (handleSkillInjector args))
      = inr (text_result (u16 "## Skill: " ++ heading ++ LF :: rest))
    /\ match LatentQueryResponse.matched_modules response with
       | [] => heading = SkillInjectorArgs.skill_id args
       | m :: _ =>
           match MatchedModule.name m with
           | [] => heading = SkillInjectorArgs.skill_id args
           | _ :: _ => heading = MatchedModule.name m
           end
       end.
Proof.
  intros Hid Hans.
  rewrite (run_skill_query b args Hid). unfold settle. rewrite Hans. cbn [snd].
  exists (matchedName response args). eexists. split.
  - unfold skill_text. cbn [join]. rewrite <- !app_assoc. reflexivity.
  - unfold matchedName.
    destruct (LatentQueryResponse.matched_modules response) as [|m ms]; cbn.
    + reflexivity.
    + destruct (MatchedModule.name m); reflexivity.
Qed.

Lemma skill_heading_witness :
  exists heading rest,
    snd (run (Sample.answering Sample.response)
           (handleSkillInjector (SkillInjectorArgs.mk (u16 "security") None)))
      = inr (text_result (u16 "## Skill: " ++ heading ++ LF :: rest))
    /\ heading = u16 "Security Review".
Proof.
  apply (skill_heading (Sample.answering Sample.response)
           (SkillInjectorArgs.mk (u16 "security") None) Sample.response).
  - simpl. discriminate.
  - reflexivity.
Defined.

(* --------------------------------------------------------------------- *)
(** ** Shape of the result (C10) *)

(** C10: whatever the tool, its arguments and the backend, a handler that
    resolves does so with a [content] array of exactly one element, and that
    element has [type] ["text"].  (Both branches of [skill_injector] are
    covered by [SkillInjector].) *)
Theorem content_is_one_text_item (b : Backend) (req : ToolRequest) (r : ToolResult.t) :
  snd (run b (dispatch req)) = inr r ->
  List.length (ToolResult.content r) = 1
  /\ exists text, ToolResult.content r = [ToolResult.mk_item (u16 "text") text].
Proof.
  assert (Hsettle : forall q render, settle b q render = inr r ->
            exists text, r = text_result text).
  { intros q render. unfold settle. destruct (answer_query b q); [discriminate|].
    intros E; injection E as <-. eauto. }
  intros H.
  assert (exists text, r = text_result text) as [text ->].
  { destruct req as [args|args|args]; cbn [dispatch] in H.
    - rewrite run_architect in H. eauto.
    - destruct (strict_eq (SkillInjectorArgs.skill_id args) (u16 "list")) eqn:E.
      + apply strict_eq_spec in E. destruct args as [sk sid]; cbn in E; subst sk.
        rewrite run_skill_list in H. cbn [snd] in H.
        destruct (answer_list b (u16 "skill")); [discriminate|].
        injection H as <-. eauto.
      + assert (SkillInjectorArgs.skill_id args <> u16 "list") as Hne.
        { intros C. rewrite C, strict_eq_refl in E. discriminate. }
        rewrite (run_skill_query b args Hne) in H. eauto.
    - rewrite run_compliance in H. eauto. }
  split; [reflexivity|]. exists text. reflexivity.
Qed.

Lemma content_is_one_text_item_witness :
  List.length (ToolResult.content (text_result (skill_list_text Sample.catalog))) = 1
  /\ exists text,
       ToolResult.content (text_result (skill_list_text Sample.catalog))
       = [ToolResult.mk_item (u16 "text") text].
Proof.
  apply (content_is_one_text_item (Sample.answering Sample.response)
           (SkillInjector (SkillInjectorArgs.mk (u16 "list") None))).
  reflexivity.
Defined.

(* --------------------------------------------------------------------- *)
(** ** The end-to-end example (C7) *)

(** C7: when the backend answers the query of
    [architect_consult("design a login flow")] with the sample response
    (one match "Security Review" of type "skill" and score 0.93, dense prompt
    "Check for injection flaws.", 1200 tokens saved, 42.7 ms), the handler
    resolves to a text that contains ["[0.93] **Security Review** (skill)"],
    ["1200"] and ["43ms"]. *)
Theorem login_flow_example (b : Backend) (sid : option jsstring) :
  let args := ArchitectConsultArgs.mk (u16 "design a login flow") sid in
  answer_query b (architect_query args) = inr Sample.response ->
  exists text,
    snd (run b (handleArchitectConsult args)) = inr (text_result text)
    /\ includes text (u16 "[0.93] **Security Review** (skill)") = true
    /\ includes text (u16 "1200") = true
    /\ includes text (u16 "43ms") = true.
Proof.
  intros args H. rewrite run_architect. unfold settle. rewrite H. cbn [snd].
  eexists. split; [reflexivity|]. repeat split; vm_compute; reflexivity.
Qed.

Lemma login_flow_example_witness :
  exists text,
    snd (run (Sample.answering Sample.response)
           (handleArchitectConsult (ArchitectConsultArgs.mk (u16 "design a login flow") None)))
      = inr (text_result text)
    /\ includes text (u16 "[0.93] **Security Review** (skill)") = true
    /\ includes text (u16 "1200") = true
    /\ includes text (u16 "43ms") = true.
Proof.
  apply (login_flow_example (Sample.answering Sample.response) None).
  reflexivity.
Defined.

(* --------------------------------------------------------------------- *)
(** ** The metrics line (C5) *)

Section MetricsLiterals.

(** A needle that starts with [T] and has no asterisk, line feed or closing
    parenthesis, and that the two labels of the metrics line contain once
    between them: both ["Tokens saved:"] and ["Time:"] are such. *)
Variable needle others : jsstring.
Hypothesis needle_head : needle = 84%N :: others.
Hypothesis no_star : ~ In 42%N needle.
Hypothesis no_LF : ~ In LF needle.
Hypothesis no_paren : ~ In 41%N needle.
Hypothesis labels_once :
  occurrences needle (u16 "**Tokens saved:**") + occurrences needle (u16 "Time:**") = 1.

Lemma needle_is_nonempty : needle <> [].
Proof. rewrite needle_head. discriminate. Qed.

Local Notation "'nonempty'" := needle_is_nonempty.
Local Notation "'skip'" := (occurrences_skip needle 84%N others needle_head).
Local Notation "'none'" := (occurrences_none needle 84%N others needle_head).
Local Notation "'over'" := (occurrences_app_sep needle needle_is_nonempty).

Ltac no_T :=
  repeat (let C := fresh in
          intros C; apply in_app_or in C; destruct C as [C|C]; revert C);
  first [ apply numeric_has_no_T; first [apply numericb_toFixed|apply numericb_toString]
        | cbn; intuition discriminate ].

Lemma occurrences_metrics_line (m : Metrics.t) :
  occurrences needle (metrics_line m) = 1.
Proof.
  unfold metrics_line.
  change (u16 "**Tokens saved:** " ++ ?r)
    with ((u16 "**Tokens saved:*" ++ [42%N]) ++ ([32%N] ++ r)).
  rewrite (occurrences_app_after needle nonempty) by exact no_star.
  rewrite (skip [32%N]) by no_T.
  rewrite (skip (toString _)) by no_T.
  change (u16 " | **Time:** " ++ ?r)
    with (u16 " | **" ++ ((u16 "Time:*" ++ [42%N]) ++ ([32%N] ++ r))).
  rewrite (skip (u16 " | **")) by no_T.
  rewrite (occurrences_app_after needle nonempty) by exact no_star.
  rewrite (none ([32%N] ++ _)) by no_T.
  change (u16 "**Tokens saved:*" ++ [42%N]) with (u16 "**Tokens saved:**").
  change (u16 "Time:*" ++ [42%N]) with (u16 "Time:**").
  pose proof labels_once. lia.
Qed.

Lemma occurrences_architect_line (m : MatchedModule.t) :
  occurrences needle (architect_module_line m)
  = occurrences needle (MatchedModule.name m)
    + occurrences needle (MatchedModule.module_type m).
Proof.
  unfold architect_module_line.
  rewrite (skip (u16 "  - [")) by no_T.
  rewrite (skip (toFixed _ _)) by no_T.
  rewrite (skip (u16 "] **")) by no_T.
  change (u16 "** (" ++ ?r) with (42%N :: (u16 "* (" ++ r)).
  rewrite over by exact no_star.
  rewrite (skip (u16 "* (")) by no_T.
  change (u16 ")") with [41%N].
  rewrite over by exact no_paren.
  cbn [occurrences]. lia.
Qed.

Lemma occurrences_compliance_line (m : MatchedModule.t) :
  occurrences needle (compliance_rule_line m)
  = occurrences needle (MatchedModule.name m)
    + occurrences needle (slice (MatchedModule.description m) 0 80).
Proof.
  unfold compliance_rule_line.
  rewrite (skip (u16 "  - [")) by no_T.
  rewrite (skip (toFixed _ _)) by no_T.
  rewrite (skip (u16 "] **")) by no_T.
  change (u16 "**: " ++ ?r) with (42%N :: (u16 "*: " ++ r)).
  rewrite over by exact no_star.
  rewrite (skip (u16 "*: ")) by no_T.
  reflexivity.
Qed.

Lemma occurrences_lines (line : MatchedModule.t -> jsstring)
    (parts : MatchedModule.t -> list jsstring) (modules : list MatchedModule.t) :
  (forall m, occurrences needle (line m) = list_sum (map (occurrences needle) (parts m))) ->
  occurrences needle (join [LF] (map line modules))
  = list_sum (map (occurrences needle) (flat_map parts modules)).
Proof.
  intros H. rewrite (occurrences_join needle nonempty) by exact no_LF.
  induction modules as [|m ms IH]; [reflexivity|].
  cbn [map flat_map]. rewrite map_app, list_sum_app, <- IH, <- H. reflexivity.
Qed.

Lemma occurrences_rendered_text (req : ToolRequest) (response : LatentQueryResponse.t) :
  occurrences needle (rendered_text req response)
  = 1 + list_sum (map (occurrences needle) (rendered_inputs req response)).
Proof.
  destruct req as [args|args|args]; cbn [rendered_text rendered_inputs].
  - unfold architect_text.
    rewrite (occurrences_join needle nonempty) by exact no_LF.
    cbn [map].
    rewrite (occurrences_lines architect_module_line
               (fun m => [MatchedModule.name m; MatchedModule.module_type m])).
    2:{ intros m. rewrite occurrences_architect_line. cbn. lia. }
    rewrite occurrences_metrics_line.
    rewrite !(none (u16 _)) by no_T. unfold list_sum. cbn [occurrences fold_right]. lia.
  - unfold skill_text.
    rewrite (occurrences_join needle nonempty) by exact no_LF.
    cbn [map].
    rewrite (skip (u16 "## Skill: ")) by no_T.
    rewrite occurrences_metrics_line.
    rewrite !(none (u16 _)) by no_T. unfold list_sum. cbn [occurrences fold_right]. lia.
  - unfold compliance_text.
    rewrite (occurrences_join needle nonempty) by exact no_LF.
    cbn [map].
    rewrite (occurrences_lines compliance_rule_line
               (fun m => [MatchedModule.name m; slice (MatchedModule.description m) 0 80])).
    2:{ intros m. rewrite occurrences_compliance_line. cbn. lia. }
    rewrite occurrences_metrics_line.
    rewrite !(none (u16 _)) by no_T. unfold list_sum. cbn [occurrences fold_right]. lia.
Qed.

End MetricsLiterals.

Lemma list_sum_zero (f : jsstring -> nat) (l : list jsstring) :
  Forall (fun s => f s = 0) l -> list_sum (map f l) = 0.
Proof.
  induction 1 as [|s l Hs _ IH]; [reflexivity|].
  cbn [map]. change (list_sum (f s :: map f l)) with (f s + list_sum (map f l)).
  rewrite Hs, IH. reflexivity.
Qed.

Lemma run_query_backed (b : Backend) (req : ToolRequest) (q : LatentQuery.t)
    (response : LatentQueryResponse.t) :
  query_of req = Some q ->
  answer_query b q = inr response ->
  run b (dispatch req) = ([QueryCall q], inr (text_result (rendered_text req response))).
Proof.
  intros Hq Hans. destruct req as [args|args|args]; cbn [dispatch query_of rendered_text] in *.
  - injection Hq as <-. rewrite run_architect. unfold settle. rewrite Hans. reflexivity.
  - destruct (strict_eq (SkillInjectorArgs.skill_id args) (u16 "list")) eqn:E; [discriminate|].
    injection Hq as <-.
    assert (SkillInjectorArgs.skill_id args <> u16 "list") as Hne.
    { intros C. rewrite C, strict_eq_refl in E. discriminate. }
    rewrite (run_skill_query b args Hne). unfold settle. rewrite Hans. reflexivity.
  - injection Hq as <-. rewrite run_compliance. unfold settle. rewrite Hans. reflexivity.
Qed.

(** C5, as the code has it: the listing that [skill_injector("list")] renders
    has no metrics line, so it contains neither literal; and a [skill_id] that
    itself reads "Tokens saved:" is echoed in the heading, so that literal
    occurs twice. *)
Lemma metrics_literals_not_always_once :
  (let args := SkillInjectorArgs.mk (u16 "list") None in
   let text := skill_list_text Sample.catalog in
   snd (run (Sample.answering Sample.response) (handleSkillInjector args))
     = inr (text_result text)
   /\ occurrences (u16 "Tokens saved:") text = 0
   /\ occurrences (u16 "Time:") text = 0)
  /\
  (let args := SkillInjectorArgs.mk (u16 "Tokens saved:") None in
   let text := skill_text Sample.no_match_response args in
   snd (run (Sample.answering Sample.no_match_response) (handleSkillInjector args))
     = inr (text_result text)
   /\ occurrences (u16 "Tokens saved:") text = 2).
Proof. repeat split. Qed.

(** C5 (amended): for every intent, every code and every [skill_id] other
    than ["list"], when the backend answers the query, the rendered text
    contains each of the literals ["Tokens saved:"] and ["Time:"] once for
    the metrics line plus once for every occurrence inside the caller- and
    backend-supplied strings it embeds (the dense prompt; the names and
    module types for architect_consult; the names and truncated descriptions
    for compliance_verify; the heading name for skill_injector).  So each
    literal occurs at least once, and exactly once whenever none of those
    strings contains it. *)
Theorem metrics_literals_count (b : Backend) (req : ToolRequest) (q : LatentQuery.t)
    (response : LatentQueryResponse.t) (needle : jsstring) :
  query_of req = Some q ->
  answer_query b q = inr response ->
  needle = u16 "Tokens saved:" \/ needle = u16 "Time:" ->
  exists text,
    run b (dispatch req) = ([QueryCall q], inr (text_result text))
    /\ occurrences needle text
       = 1 + list_sum (map (occurrences needle) (rendered_inputs req response))
    /\ 1 <= occurrences needle text
    /\ (Forall (fun s => occurrences needle s = 0) (rendered_inputs req response) ->
        occurrences needle text = 1).
Proof.
  intros Hq Hans Hneedle.
  exists (rendered_text req response).
  split; [exact (run_query_backed b req q response Hq Hans)|].
  assert (occurrences needle (rendered_text req response)
          = 1 + list_sum (map (occurrences needle) (rendered_inputs req response))) as E.
  { destruct Hneedle as [->| ->].
    - apply (occurrences_rendered_text (u16 "Tokens saved:") (u16 "okens saved:"));
        try reflexivity; cbn; intuition discriminate.
    - apply (occurrences_rendered_text (u16 "Time:") (u16 "ime:"));
        try reflexivity; cbn; intuition discriminate. }
  split; [exact E|]. split; [lia|].
  intros Hnone. rewrite E, (list_sum_zero _ _ Hnone). reflexivity.
Qed.

Lemma metrics_literals_count_witness :
  exists text,
    run (Sample.answering Sample.response)
        (dispatch (ComplianceVerify (ComplianceVerifyArgs.mk (u16 "eval(x)") None None)))
      = ([QueryCall (compliance_query (ComplianceVerifyArgs.mk (u16 "eval(x)") None None))],
         inr (text_result text))
    /\ occurrences (u16 "Time:") text
       = 1 + list_sum (map (occurrences (u16 "Time:"))
                         (rendered_inputs
                            (ComplianceVerify (ComplianceVerifyArgs.mk (u16 "eval(x)") None None))
                            Sample.response))
    /\ 1 <= occurrences (u16 "Time:") text
    /\ (Forall (fun s => occurrences (u16 "Time:") s = 0)
          (rendered_inputs
             (ComplianceVerify (ComplianceVerifyArgs.mk (u16 "eval(x)") None None))
             Sample.response) ->
        occurrences (u16 "Time:") text = 1).
Proof.
  apply (metrics_literals_count (Sample.answering Sample.response)
           (ComplianceVerify (ComplianceVerifyArgs.mk (u16 "eval(x)") None None))
           (compliance_query (ComplianceVerifyArgs.mk (u16 "eval(x)") None None))
           Sample.response (u16 "Time:")).
  - reflexivity.
  - reflexivity.
  - right. reflexivity.
Defined.

(* --------------------------------------------------------------------- *)
(** ** Truncated descriptions (C8) *)

(** C8: every rule line of compliance_verify is its head followed by exactly
    the first 80 code units of the module's description (the whole
    description when it is shorter), and every line of the skill listing is
    its head followed by exactly the first 100 code units of the entry's
    description; the line ends there, nothing (no ellipsis) is appended.  The
    rendered texts are made of these lines. *)
Theorem description_truncation_exact :
  (forall m : MatchedModule.t,
     let kept := firstn 80 (MatchedModule.description m) in
     compliance_rule_line m = rule_line_head m ++ kept
     /\ List.length kept = Nat.min 80 (List.length (MatchedModule.description m))
     /\ List.length (compliance_rule_line m) <= List.length (rule_line_head m) + 80)
  /\
  (forall m : ModuleInfo.t,
     let kept := firstn 100 (ModuleInfo.description m) in
     skill_list_line m = list_line_head m ++ kept
     /\ List.length kept = Nat.min 100 (List.length (ModuleInfo.description m))
     /\ List.length (skill_list_line m) <= List.length (list_line_head m) + 100)
  /\
  (forall response : LatentQueryResponse.t,
     compliance_text response
     = join [LF]
         [ u16 "## Compliance Check"; [];
           LatentQueryResponse.dense_prompt response; [];
           u16 "---"; u16 "**Rules matched:**";
           join [LF]
             (map (fun m => rule_line_head m ++ firstn 80 (MatchedModule.description m))
                  (LatentQueryResponse.matched_modules response));
           metrics_line (LatentQueryResponse.metrics response) ])
  /\
  (forall moduleList : ModuleCatalog.t,
     skill_list_text moduleList
     = join [LF]
         ([ u16 "## Available Skills (" ++ toString (ModuleCatalog.total moduleList) ++ u16 ")";
            [] ] ++
          map (fun m => list_line_head m ++ firstn 100 (ModuleInfo.description m))
              (ModuleCatalog.modules moduleList) ++
          [ []; u16 "Use any module_id above as the skill_id parameter." ])).
Proof.
  assert (R : forall m, compliance_rule_line m
                        = rule_line_head m ++ firstn 80 (MatchedModule.description m)).
  { intros m. unfold compliance_rule_line, rule_line_head.
    rewrite (slice_0 _ 80). rewrite <- !app_assoc. reflexivity. }
  assert (L : forall m, skill_list_line m
                        = list_line_head m ++ firstn 100 (ModuleInfo.description m)).
  { intros m. unfold skill_list_line, list_line_head.
    rewrite (slice_0 _ 100). rewrite <- !app_assoc. reflexivity. }
  split; [|split; [|split]].
  - intros m kept. split; [apply R|]. split; [apply length_firstn|].
    rewrite R, length_app, length_firstn. lia.
  - intros m kept. split; [apply L|]. split; [apply length_firstn|].
    rewrite L, length_app, length_firstn. lia.
  - intros response. unfold compliance_text.
    rewrite (map_ext _ _ R). reflexivity.
  - intros moduleList. unfold skill_list_text.
    rewrite (map_ext _ _ L). reflexivity.
Qed.

(* ===================================================================== *)
(** * The start-up script: readiness gating and bounded polling *)
(* ===================================================================== *)

Module StartupFacts.

Import CloudStart.
Local Open Scope string_scope.

Section Polling.

Variable w : World.

Lemma poll_until_healthy (before after : list nat) (k : nat) :
  (forall j, In j before -> health w j = false /\ j <> 30) ->
  health w k = true ->
  poll w (before ++ k :: after)
  = ((failed w before ++ [HealthProbe k (health_url w) true; Echo "Backend ready!"])%list, None).
Proof.
  intros Hbefore Hk. induction before as [|i l IH].
  - cbn. rewrite Hk. reflexivity.
  - destruct (Hbefore i (or_introl eq_refl)) as [Hi Hi30].
    apply Nat.eqb_neq in Hi30.
    cbn [app poll]. rewrite Hi, Hi30, IH.
    + reflexivity.
    + intros j Hj. apply Hbefore. right. exact Hj.
Qed.

Lemma poll_exhausted (before after : list nat) :
  (forall j, In j before -> health w j = false /\ j <> 30) ->
  health w 30 = false ->
  poll w (before ++ 30 :: after)
  = ((failed w before ++
      [HealthProbe 30 (health_url w) false;
       Echo "ERROR: Backend failed to start within 30 seconds";
       Exit 1])%list, Some 1).
Proof.
  intros Hbefore H30. induction before as [|i l IH].
  - cbn. rewrite H30. reflexivity.
  - destruct (Hbefore i (or_introl eq_refl)) as [Hi Hi30].
    apply Nat.eqb_neq in Hi30.
    cbn [app poll]. rewrite Hi, Hi30, IH.
    + reflexivity.
    + intros j Hj. apply Hbefore. right. exact Hj.
Qed.

(** Either no probe of [1..n] succeeds, or there is a first one that does. *)
Lemma first_healthy (n : nat) :
  (forall j, 1 <= j <= n -> health w j = false)
  \/ (exists k, 1 <= k <= n /\ health w k = true
                /\ forall j, 1 <= j < k -> health w j = false).
Proof.
  induction n as [|n [IH|[k [Hk [Hh Hf]]]]].
  - left. intros j Hj. lia.
  - destruct (health w (S n)) eqn:E.
    + right. exists (S n). repeat split; try lia; [exact E|].
      intros j Hj. apply IH. lia.
    + left. intros j Hj. destruct (Nat.eq_dec j (S n)) as [->|Hne]; [exact E|].
      apply IH. lia.
  - right. exists k. repeat split; try lia; assumption.
Qed.

(** The script when probe [k] is the first to succeed. *)
Lemma cloud_start_ready (k : nat) :
  1 <= k <= 30 ->
  health w k = true ->
  (forall j, 1 <= j < k -> health w j = false) ->
  cloud_start w
  = (startup w ++ waiting w (k - 1) ++
     [HealthProbe k (health_url w) true; Echo "Backend ready!"] ++ launch w)%list.
Proof.
  intros Hk Hh Hf. unfold cloud_start.
  replace (seq 1 30) with (seq 1 (k - 1) ++ k :: seq (S k) (30 - k))%list.
  - rewrite poll_until_healthy.
    + rewrite <- app_assoc. reflexivity.
    + intros j Hj. apply in_seq in Hj. split; [apply Hf|]; lia.
    + exact Hh.
  - transitivity (seq 1 ((k - 1) + S (30 - k))); [|f_equal; lia].
    rewrite seq_app. cbn [seq]. replace (1 + (k - 1)) with k by lia. reflexivity.
Qed.

(** The script when none of the thirty probes succeeds. *)
Lemma cloud_start_failed :
  (forall j, 1 <= j <= 30 -> health w j = false) ->
  cloud_start w
  = (startup w ++ waiting w 29 ++
     [HealthProbe 30 (health_url w) false;
      Echo "ERROR: Backend failed to start within 30 seconds";
      Exit 1])%list.
Proof.
  intros Hf. unfold cloud_start.
  change (seq 1 30) with (seq 1 29 ++ 30 :: [])%list.
  rewrite poll_exhausted.
  - rewrite app_nil_r. reflexivity.
  - intros j Hj. apply in_seq in Hj. split; [apply Hf|]; lia.
  - apply Hf. lia.
Qed.

Lemma attempts_app (a b : list Event) : attempts (a ++ b) = attempts a + attempts b.
Proof. unfold attempts. rewrite filter_app, length_app. reflexivity. Qed.

Lemma sleeps_app (a b : list Event) : sleeps (a ++ b) = sleeps a + sleeps b.
Proof. unfold sleeps. rewrite filter_app, length_app. reflexivity. Qed.

Lemma failed_counts (l : list nat) :
  attempts (failed w l) = List.length l /\ sleeps (failed w l) = List.length l.
Proof.
  induction l as [|i l [A S]]; [split; reflexivity|].
  unfold failed in *. cbn [flat_map].
  rewrite attempts_app, sleeps_app, A, S. split; reflexivity.
Qed.

Lemma waiting_counts (n : nat) :
  attempts (waiting w n) = n /\ sleeps (waiting w n) = n.
Proof.
  pose proof (failed_counts (seq 1 n)) as H. rewrite length_seq in H. exact H.
Qed.

Lemma failed_plain (l : list nat) :
  Forall (fun e => is_exec e = false /\ forall s, e = Sleep s -> s = 1) (failed w l).
Proof.
  induction l as [|i l IH]; [constructor|].
  unfold failed in *. cbn [flat_map app]. repeat constructor; try discriminate.
  - intros s E. injection E as <-. reflexivity.
  - exact IH.
Qed.

Lemma waiting_plain (n : nat) :
  Forall (fun e => is_exec e = false /\ forall s, e = Sleep s -> s = 1) (waiting w n).
Proof. apply failed_plain. Qed.

End Polling.


Lemma outcome_app (t u : list Event) : u <> [] -> outcome (t ++ u) = outcome u.
Proof.
  intros Hu. unfold outcome. f_equal.
  induction t as [|a t IH]; [reflexivity|].
  cbn [app]. destruct (t ++ u)%list eqn:E.
  - destruct t; [contradiction|discriminate].
  - exact IH.
Qed.

Lemma startup_plain (w : World) :
  Forall (fun e => is_exec e = false /\ forall s, e = Sleep s -> s = 1) (startup w).
Proof. repeat constructor; discriminate. Qed.

(* --------------------------------------------------------------------- *)
(** ** Readiness gating (C3) *)



End StartupFacts.

(* ===================================================================== *)
(** * Further properties of the handlers *)
(* ===================================================================== *)

Section HandlerCalls.

Variable b : Backend.

Lemma query_of_none (req : ToolRequest) :
  query_of req = None <->
  exists sid, req = SkillInjector (SkillInjectorArgs.mk (u16 "list") sid).
Proof.
  split.
  - destruct req as [args|[sk sid]|args]; cbn [query_of SkillInjectorArgs.skill_id];
      intros H; try discriminate H.
    destruct (strict_eq sk (u16 "list")) eqn:E; [|discriminate H].
    apply strict_eq_spec in E. subst sk. exists sid. reflexivity.
  - intros [sid ->]. reflexivity.
Qed.

Lemma calls_of_request (req : ToolRequest) :
  match query_of req with
  | Some q => fst (run b (dispatch req)) = [QueryCall q]
  | None => fst (run b (dispatch req)) = [ListCall (u16 "skill")]
  end.
Proof.
  destruct req as [args|args|args]; cbn [query_of dispatch].
  - rewrite run_architect. reflexivity.
  - destruct (strict_eq (SkillInjectorArgs.skill_id args) (u16 "list")) eqn:E.
    + apply strict_eq_spec in E. destruct args as [sk sid]; cbn in E; subst sk.
      rewrite run_skill_list. reflexivity.
    + rewrite run_skill_query; [reflexivity|].
      intros C. rewrite C, strict_eq_refl in E. discriminate.
  - rewrite run_compliance. reflexivity.
Qed.

Lemma one_call (req : ToolRequest) : List.length (fst (run b (dispatch req))) = 1.
Proof.
  pose proof (calls_of_request req) as H.
  destruct (query_of req); rewrite H; reflexivity.
Qed.

(** X1: whatever the tool, its arguments and the backend (answering or
    not), a handler invokes the client exactly once: the catalog listing for
    module type ["skill"] when the request is [skill_injector] with
    [skill_id] exactly ["list"], one query otherwise.  Nothing is retried and
    nothing else is called. *)
Theorem one_call_per_request (req : ToolRequest) :
  match query_of req with
  | Some q => fst (run b (dispatch req)) = [QueryCall q]
  | None => fst (run b (dispatch req)) = [ListCall (u16 "skill")]
  end
  /\ List.length (fst (run b (dispatch req))) = 1
  /\ (query_of req = None <->
      exists sid, req = SkillInjector (SkillInjectorArgs.mk (u16 "list") sid)).
Proof.
  split; [apply calls_of_request|]. split; [apply one_call|apply query_of_none].
Qed.

(** X2: when the backend rejects the one call a handler makes, the handler
    rejects with that very error; it renders nothing and does not call
    again. *)
Theorem backend_failure_propagates (req : ToolRequest) (err : Error) :
  match query_of req with
  | Some q => answer_query b q = inl err
  | None => answer_list b (u16 "skill") = inl err
  end ->
  snd (run b (dispatch req)) = inl err
  /\ List.length (fst (run b (dispatch req))) = 1.
Proof.
  intros H. split; [|apply one_call].
  destruct req as [args|args|args]; cbn [query_of dispatch] in *.
  - rewrite run_architect. unfold settle. rewrite H. reflexivity.
  - destruct (strict_eq (SkillInjectorArgs.skill_id args) (u16 "list")) eqn:E.
    + apply strict_eq_spec in E. destruct args as [sk sid]; cbn in E; subst sk.
      rewrite run_skill_list. cbn [snd]. rewrite H. reflexivity.
    + rewrite run_skill_query.
      * unfold settle. rewrite H. reflexivity.
      * intros C. rewrite C, strict_eq_refl in E. discriminate.
  - rewrite run_compliance. unfold settle. rewrite H. reflexivity.
Qed.

End HandlerCalls.

Lemma backend_failure_propagates_witness :
  snd (run Sample.unreachable
         (dispatch (ArchitectConsult (ArchitectConsultArgs.mk (u16 "design a login flow") None))))
    = inl (Rejected (u16 "fetch failed"))
  /\ List.length
       (fst (run Sample.unreachable
               (dispatch (ArchitectConsult
                            (ArchitectConsultArgs.mk (u16 "design a login flow") None)))))
     = 1.
Proof.
  apply (backend_failure_propagates Sample.unreachable
           (ArchitectConsult (ArchitectConsultArgs.mk (u16 "design a login flow") None))
           (Rejected (u16 "fetch failed"))).
  reflexivity.
Defined.

(** X3: the query of [compliance_verify] always carries a non-empty
    [module_type_filter]: the caller's [rules_filter] when that is a
    non-empty string, and ["rule"] when it is absent or the empty string. *)
Theorem compliance_filter_default (args : ComplianceVerifyArgs.t) :
  exists f,
    LatentQuery.module_type_filter (compliance_query args) = Some f
    /\ f <> []
    /\ match ComplianceVerifyArgs.rules_filter args with
       | Some (c :: rest) => f = c :: rest
       | Some [] | None => f = u16 "rule"
       end.
Proof.
  destruct args as [code [[|c rest]|] sid]; cbn; eexists; repeat split; discriminate.
Qed.

(* --------------------------------------------------------------------- *)
(** ** Scores are rendered with two decimals *)

Section ScoreFormat.

Local Open Scope Q_scope.

Lemma magnitude_in_unit (neg : bool) (m : N) (e : Z) :
  in_unit_interval (Finite neg m e) = true -> magnitude m e <= 1.
Proof.
  unfold in_unit_interval, magnitude.
  destruct (N.eqb_spec m 0) as [->|Hm]; cbn [orb].
  - intros _. rewrite Qmult_0_l. discriminate.
  - rewrite andb_true_iff. intros [_ H].
    destruct (Z.leb_spec 0 e) as [He|He].
    + apply Z.leb_le in H.
      rewrite <- (Zpower_Qpower 2 e He), <- inject_Z_mult.
      rewrite Zle_Qle in H. exact H.
    + apply Z.leb_le in H.
      replace e with (- (- e))%Z by lia.
      rewrite Qpower_opp, <- (Zpower_Qpower 2 (- e)) by lia.
      apply Qle_shift_div_r.
      * change 0 with (inject_Z 0). rewrite <- Zlt_Qlt. apply Z.pow_pos_nonneg; lia.
      * rewrite Qmult_1_l, <- Zle_Qle. exact H.
Qed.

Lemma unit_below_exponent_form (neg : bool) (m : N) (e : Z) :
  in_unit_interval (Finite neg m e) = true ->
  Qle_bool (10 ^ 21) (magnitude m e) = false.
Proof.
  intros H. apply magnitude_in_unit in H.
  destruct (Qle_bool (10 ^ 21) (magnitude m e)) eqn:E; [|reflexivity].
  apply Qle_bool_iff in E. exfalso.
  assert (10 ^ 21 <= 1) as C by (eapply Qle_trans; eassumption).
  revert C. vm_compute. intros C. apply C. reflexivity.
Qed.

Lemma unit_rounds_to_hundredths (neg : bool) (m : N) (e : Z) :
  in_unit_interval (Finite neg m e) = true ->
  (round_half_up m e 2 <= 100)%N.
Proof.
  unfold in_unit_interval, round_half_up.
  change (Z.of_nat 2) with 2%Z. change (10 ^ 2)%Z with 100%Z.
  destruct (N.eqb_spec m 0) as [->|Hm]; cbn [orb].
  - intros _. destruct (0 <=? e)%Z eqn:He; [cbn; lia|].
    apply Z.leb_gt in He.
    assert (0 < 2 ^ (- e))%Z as D by (apply Z.pow_pos_nonneg; lia).
    replace (- e + 1)%Z with (Z.succ (- e)) by lia.
    rewrite Z.pow_succ_r by lia.
    rewrite Z.div_small by lia. cbn. lia.
  - rewrite andb_true_iff. intros [_ H].
    destruct (Z.leb_spec 0 e) as [He|He]; apply Z.leb_le in H.
    + assert (0 < 2 ^ e)%Z by (apply Z.pow_pos_nonneg; lia). nia.
    + assert (0 < 2 ^ (- e))%Z as D by (apply Z.pow_pos_nonneg; lia).
      replace (- e + 1)%Z with (Z.succ (- e)) by lia.
      rewrite Z.pow_succ_r by lia.
      assert ((2 * (Z.of_N m * 100) + 2 ^ (- e)) / (2 * 2 ^ (- e)) < 101)%Z.
      { apply Z.div_lt_upper_bound; lia. }
      assert (0 <= (2 * (Z.of_N m * 100) + 2 ^ (- e)) / (2 * 2 ^ (- e)))%Z.
      { apply Z.div_pos; lia. }
      lia.
Qed.

End ScoreFormat.

Lemma hundredths_shape_ok (n : N) : (n <= 100)%N -> hundredths_shape n = true.
Proof.
  intros H.
  assert (forallb hundredths_shape (map N.of_nat (seq 0 101)) = true) as A
    by (vm_compute; reflexivity).
  rewrite forallb_forall in A. apply A.
  apply in_map_iff. exists (N.to_nat n). split; [apply N2Nat.id|].
  apply in_seq. lia.
Qed.

(** X4: a score between 0 and 1 is always rendered by [toFixed(2)] as one
    digit, a point and two digits (["0.00"] to ["1.00"], never an exponent
    form or a sign), so the lines of architect_consult and compliance_verify
    open with ["  - [d.dd] **"]. *)
Theorem score_two_decimals (m : MatchedModule.t) :
  in_unit_interval (MatchedModule.score m) = true ->
  exists d0 d1 d2,
    toFixed (MatchedModule.score m) 2 = [d0; 46%N; d1; d2]
    /\ is_digit d0 = true /\ is_digit d1 = true /\ is_digit d2 = true
    /\ (d0 = 48%N \/ (d0 = 49%N /\ d1 = 48%N /\ d2 = 48%N))
    /\ architect_module_line m
       = u16 "  - [" ++ [d0; 46%N; d1; d2] ++ u16 "] **" ++ MatchedModule.name m ++
         u16 "** (" ++ MatchedModule.module_type m ++ u16 ")"
    /\ compliance_rule_line m
       = u16 "  - [" ++ [d0; 46%N; d1; d2] ++ u16 "] **" ++ MatchedModule.name m ++
         u16 "**: " ++ slice (MatchedModule.description m) 0 80.
Proof.
  unfold architect_module_line, compliance_rule_line.
  destruct (MatchedModule.score m) as [| |neg n e] eqn:Es; try discriminate.
  intros H.
  pose proof (hundredths_shape_ok _ (unit_rounds_to_hundredths neg n e H)) as S.
  assert (sign_of (neg && negb (n =? 0)%N) = []) as Hsign.
  { unfold in_unit_interval in H. destruct (n =? 0)%N; cbn in *.
    - rewrite andb_false_r. reflexivity.
    - destruct neg; [discriminate|reflexivity]. }
  cbn [toFixed]. rewrite (unit_below_exponent_form neg n e H), Hsign.
  unfold hundredths_shape in S.
  destruct (zeros (3 - List.length (digits (round_half_up n e 2)))
            ++ digits (round_half_up n e 2)) as [|a [|b0 [|c [|]]]]; try discriminate.
  rewrite !andb_true_iff in S. destruct S as [[[Ha Hb] Hc] Hor].
  exists a, b0, c. cbn [List.length Nat.sub firstn skipn app].
  repeat split; try assumption.
  apply orb_true_iff in Hor. destruct Hor as [Hor|Hor].
  - left. apply N.eqb_eq. exact Hor.
  - right. rewrite !andb_true_iff in Hor. destruct Hor as [[A B] C].
    repeat split; apply N.eqb_eq; assumption.
Qed.

Lemma score_two_decimals_witness :
  exists d0 d1 d2,
    toFixed Sample.score_0_93 2 = [d0; 46%N; d1; d2]
    /\ is_digit d0 = true /\ is_digit d1 = true /\ is_digit d2 = true
    /\ (d0 = 48%N \/ (d0 = 49%N /\ d1 = 48%N /\ d2 = 48%N))
    /\ architect_module_line Sample.security_review
       = u16 "  - [" ++ [d0; 46%N; d1; d2] ++ u16 "] **" ++ u16 "Security Review" ++
         u16 "** (" ++ u16 "skill" ++ u16 ")"
    /\ compliance_rule_line Sample.security_review
       = u16 "  - [" ++ [d0; 46%N; d1; d2] ++ u16 "] **" ++ u16 "Security Review" ++
         u16 "**: " ++ slice (u16 "Review code for...") 0 80.
Proof.
  apply (score_two_decimals Sample.security_review). reflexivity.
Defined.

(* ===================================================================== *)
(** * Further properties of the start-up script *)
(* ===================================================================== *)

Module StartupMore.

Import CloudStart StartupFacts Trace.
Local Open Scope string_scope.

Section Script.

Variable w : World.

(** The two shapes a run can have. *)
Lemma cloud_start_shapes :
  (exists k, 1 <= k <= 30 /\ health w k = true
             /\ (forall j, 1 <= j < k -> health w j = false)
             /\ cloud_start w
                = (startup w ++ waiting w (k - 1) ++
                   [HealthProbe k (health_url w) true; Echo "Backend ready!"] ++
                   launch w)%list)
  \/ ((forall j, 1 <= j <= 30 -> health w j = false)
      /\ cloud_start w
         = (startup w ++ waiting w 29 ++
            [HealthProbe 30 (health_url w) false;
             Echo "ERROR: Backend failed to start within 30 seconds";
             Exit 1])%list).
Proof.
  destruct (first_healthy w 30) as [Hnever|(k & Hk & Hh & Hf)].
  - right. split; [exact Hnever|]. apply cloud_start_failed. exact Hnever.
  - left. exists k. repeat split; try assumption; try lia.
    apply cloud_start_ready; assumption.
Qed.

Lemma failed_events (l : list nat) (e : Event) :
  In e (failed w l) ->
  e = Sleep 1 \/ exists i, In i l /\ e = HealthProbe i (health_url w) false.
Proof.
  unfold failed. rewrite in_flat_map. intros (i & Hi & [<-|[<-|[]]]).
  - right. exists i. split; [exact Hi|reflexivity].
  - left. reflexivity.
Qed.

Lemma probe_numbers_app (a c : list Event) :
  probe_numbers (a ++ c) = (probe_numbers a ++ probe_numbers c)%list.
Proof. unfold probe_numbers. apply flat_map_app. Qed.

Lemma probe_numbers_failed (l : list nat) : probe_numbers (failed w l) = l.
Proof.
  induction l as [|i l IH]; [reflexivity|].
  unfold failed in *. cbn [flat_map]. rewrite probe_numbers_app, IH. reflexivity.
Qed.

Lemma waiting_no_spawn (n : nat) : filter is_spawn (waiting w n) = [].
Proof.
  unfold waiting. induction (seq 1 n) as [|i l IH]; [reflexivity|].
  unfold failed in *. cbn [flat_map app filter is_spawn]. exact IH.
Qed.

Lemma spawned_once : filter is_spawn (cloud_start w) = [SpawnBackend (INTERNAL_PORT w)].
Proof.
  destruct cloud_start_shapes as [(k & Hk & Hh & Hf & ->)|[Hnever ->]];
    rewrite !filter_app, waiting_no_spawn; reflexivity.
Qed.


(** X6: the backend is spawned exactly once, on the internal port, before
    the first probe; every probe goes to the health URL of that port; and the
    probes are numbered 1, 2, ... without gap or repetition. *)
Theorem one_backend_then_probes :
  let t := cloud_start w in
  (exists rest, t = (startup w ++ rest)%list
                /\ filter is_spawn rest = []
                /\ filter is_probe (startup w) = [])
  /\ filter is_spawn t = [SpawnBackend (INTERNAL_PORT w)]
  /\ (forall i url ok, In (HealthProbe i url ok) t ->
        url = ("http://127.0.0.1:" ++ INTERNAL_PORT w ++ "/v1/health"))
  /\ probe_numbers t = seq 1 (attempts t).
Proof.
  intros t. unfold t.
  pose proof waiting_no_spawn as Hspawn.
  assert (Hurl : forall n i url ok, In (HealthProbe i url ok) (waiting w n) ->
                   url = health_url w).
  { intros n i url ok H. apply failed_events in H.
    destruct H as [H|(j & _ & H)]; [discriminate|]. injection H as _ <- _. reflexivity. }
  destruct cloud_start_shapes as [(k & Hk & Hh & Hf & ->)|[Hnever ->]].
  - split; [|split; [|split]].
    + eexists. split; [reflexivity|]. split; [|reflexivity].
      rewrite !filter_app, Hspawn. reflexivity.
    + rewrite !filter_app, Hspawn. reflexivity.
    + intros i url ok H. apply in_app_or in H. destruct H as [H|H].
      { cbn in H. intuition discriminate. }
      apply in_app_or in H. destruct H as [H|H]; [exact (Hurl _ _ _ _ H)|].
      cbn in H.
      destruct H as [H|[H|[H|[H|[H|[H|[H|[]]]]]]]]; try discriminate.
      injection H as _ <- _. reflexivity.
    + rewrite !probe_numbers_app, !attempts_app.
      destruct (waiting_counts w (k - 1)) as [-> _].
      unfold waiting. rewrite probe_numbers_failed.
      cbn [probe_numbers flat_map app attempts filter is_probe startup launch List.length].
      replace (0 + (k - 1 + (1 + 0))) with ((k - 1) + 1) by lia.
      rewrite seq_app. cbn [seq]. repeat f_equal. lia.
  - split; [|split; [|split]].
    + eexists. split; [reflexivity|]. split; [|reflexivity].
      rewrite !filter_app, Hspawn. reflexivity.
    + rewrite !filter_app, Hspawn. reflexivity.
    + intros i url ok H. apply in_app_or in H. destruct H as [H|H].
      { cbn in H. intuition discriminate. }
      apply in_app_or in H. destruct H as [H|H]; [exact (Hurl _ _ _ _ H)|].
      cbn in H. destruct H as [H|[H|[H|[]]]]; try discriminate.
      injection H as _ <- _. reflexivity.
    + rewrite !probe_numbers_app, !attempts_app.
      destruct (waiting_counts w 29) as [-> _].
      unfold waiting. rewrite probe_numbers_failed. reflexivity.
Qed.

(** X7: the ports handed on are never empty: an unset or empty [PORT]
    means 3000 and an unset or empty [BACKEND_PORT] means 8420, any other
    value is taken as it is; so neither the backend nor the gateway is ever
    given an empty port. *)
Theorem ports_default_when_empty :
  (match PORT w with
   | None | Some "" => EXTERNAL_PORT w = "3000"
   | Some p => EXTERNAL_PORT w = p
   end)
  /\ (match BACKEND_PORT w with
      | None | Some "" => INTERNAL_PORT w = "8420"
      | Some p => INTERNAL_PORT w = p
      end)
  /\ (forall p, In (SpawnBackend p) (cloud_start w) -> p <> "")
  /\ (forall v, In (Export "MCP_PORT" v) (cloud_start w) -> v <> "").
Proof.
  assert (E : EXTERNAL_PORT w <> "").
  { unfold EXTERNAL_PORT, default_to. destruct (PORT w) as [[|c s]|]; discriminate. }
  assert (I : INTERNAL_PORT w <> "").
  { unfold INTERNAL_PORT, default_to. destruct (BACKEND_PORT w) as [[|c s]|]; discriminate. }
  split; [|split; [|split]].
  - unfold EXTERNAL_PORT, default_to. destruct (PORT w) as [[|c s]|]; reflexivity.
  - unfold INTERNAL_PORT, default_to. destruct (BACKEND_PORT w) as [[|c s]|]; reflexivity.
  - intros p H.
    assert (In (SpawnBackend p) (filter is_spawn (cloud_start w))) as F
      by (apply filter_In; split; [exact H|reflexivity]).
    rewrite spawned_once in F.
    destruct F as [F|[]]. injection F as <-. exact I.
  - intros v H.
    destruct cloud_start_shapes as [(k & Hk & Hh & Hf & T)|[Hnever T]]; rewrite T in H.
    + apply in_app_or in H. destruct H as [H|H]; [cbn in H; intuition discriminate|].
      apply in_app_or in H. destruct H as [H|H].
      { apply failed_events in H. destruct H as [H|(i & _ & H)]; discriminate. }
      cbn in H.
      destruct H as [H|[H|[H|[H|[H|[H|[H|[]]]]]]]]; try discriminate.
      injection H as <-. exact E.
    + apply in_app_or in H. destruct H as [H|H]; [cbn in H; intuition discriminate|].
      apply in_app_or in H. destruct H as [H|H].
      { apply failed_events in H. destruct H as [H|(i & _ & H)]; discriminate. }
      cbn in H. intuition discriminate.
Qed.


End Script.


Lemma one_backend_then_probes_witness :
  "http://127.0.0.1:8420/v1/health"
  = "http://127.0.0.1:" ++ INTERNAL_PORT Sample.never_ready ++ "/v1/health".
Proof.
  apply (proj1 (proj2 (proj2 (one_backend_then_probes Sample.never_ready)))
           1 "http://127.0.0.1:8420/v1/health" false).
  do 6 right. left. reflexivity.
Defined.

Lemma ports_default_when_empty_witness : "10000" <> "".
Proof.
  apply (proj2 (proj2 (proj2 (ports_default_when_empty Sample.ready_at_fifth)))).
  unfold cloud_start. cbn. do 17 right. left. reflexivity.
Defined.

End StartupMore.

(* ===================================================================== *)
(** * The web application's routes: authorization and validation *)
(* ===================================================================== *)

Module WebFacts.

Import Web.

Lemma not_admin_spec (auth : option Session) :
  not_admin auth = false <->
  exists uid rest,
    auth = Some {| user := Some {| id := Some (uid :: rest); role := Some (u16 "admin") |} |}.
Proof.
  split.
  - unfold not_admin.
    destruct auth as [[[[[[|c uid]|] [r|]]|]]|];
      cbn [truthy_opt truthy negb orb id role user]; intros H; try discriminate H.
    destruct (strict_eq r (u16 "admin")) eqn:E; [|discriminate H].
    apply strict_eq_spec in E. subst r. exists c, uid. reflexivity.
  - intros (uid & rest & ->). reflexivity.
Qed.

Lemma array_includes_spec (l : list jsstring) (x : jsstring) :
  array_includes l x = true <-> In x l.
Proof.
  unfold array_includes. rewrite existsb_exists. split.
  - intros (y & Hy & E). apply strict_eq_spec in E. subst y. exact Hy.
  - intros H. exists x. split; [exact H|apply strict_eq_refl].
Qed.

Lemma exec_await_done {R A : Type} (o : Outside) (op : Op R) (f : R -> A) :
  exec o (Await op (fun r => Done (f r)))
  = ([called op], match o R op with inl e => inl e | inr r => inr (f r) end).
Proof. cbn [exec]. destruct (o R op); reflexivity. Qed.

(** X8: every admin route (PATCH users/[id]; GET logs; GET and POST
    payments; PATCH and DELETE payments/[id]) answers 403 "Forbidden" to a caller who is not
    an admin, before reading the body and without any database call.  Being
    an admin means a session whose user has a non-empty [id] and the [role]
    exactly ["admin"]; for such a caller no answer of these routes is a
    403. *)
Theorem admin_gate (o : Outside) (r : AdminRequest) :
  (not_admin (admin_auth r) = true ->
     exec o (admin_route r) = ([], inr forbidden))
  /\ (not_admin (admin_auth r) = false ->
      forall resp, snd (exec o (admin_route r)) = inr resp -> status resp <> 403)
  /\ (not_admin (admin_auth r) = false <->
      exists uid rest,
        admin_auth r
        = Some {| user := Some {| id := Some (uid :: rest); role := Some (u16 "admin") |} |}).
Proof.
  split; [|split; [|apply not_admin_spec]].
  - destruct r as [req|req|auth|req|req|req]; cbn [admin_auth admin_route];
      intros H;
      unfold AdminUsersId.PATCH, AdminLogs.GET, AdminPayments.GET, AdminPayments.POST,
             AdminPaymentsId.PATCH, AdminPaymentsId.DELETE;
      rewrite H; reflexivity.
  - destruct r as [req|req|auth|req|req|req]; cbn [admin_auth admin_route];
      intros H resp;
      unfold AdminUsersId.PATCH, AdminLogs.GET, AdminPayments.GET, AdminPayments.POST,
             AdminPaymentsId.PATCH, AdminPaymentsId.DELETE;
      rewrite H.
    + destruct (AdminUsersId.json_body req) as [e|b]; [discriminate|].
      destruct (is_null b); [discriminate|].
      destruct (property b (u16 "source")),
               (if AdminUsersId.role_allowed (property b (u16 "role"))
                then property b (u16 "role") else None);
        cbn [exec]; try destruct (o _ _); cbn; intros E; try discriminate E;
        injection E as <-; discriminate.
    + cbn [exec]. destruct (o _ (appLog_findMany _ _ _));
        [|destruct (o _ (appLog_count _))]; cbn; intros E; try discriminate E.
      injection E as <-. discriminate.
    + cbn [exec]. destruct (o _ _); cbn; intros E; [discriminate E|].
      injection E as <-. discriminate.
    + destruct (AdminPayments.json_body req) as [e|b]; [discriminate|].
      destruct (is_null b); [discriminate|].
      destruct (property b (u16 "userId")) as [u|], (property b (u16 "amount")) as [a|];
        try (cbn; intros E; injection E as <-; discriminate).
      destruct (negb (json_truthy u) || negb (json_truthy a));
        [cbn; intros E; injection E as <-; discriminate|].
      destruct (ToNumber a) as [e|n]; [discriminate|].
      destruct (le_zero n); [cbn; intros E; injection E as <-; discriminate|].
      cbn [exec]. destruct (o _ _); cbn; intros E; [discriminate E|].
      injection E as <-. discriminate.
    + destruct (AdminPaymentsId.json_body req) as [e|b]; [discriminate|].
      cbn [exec]. destruct (o _ _); cbn; intros E; [discriminate E|].
      injection E as <-. discriminate.
    + cbn [exec]. destruct (o _ _); cbn; intros E; [discriminate E|].
      injection E as <-. discriminate.
Qed.

Lemma admin_gate_witness :
  exec WebSample.obliging
       (admin_route (payments_id_DELETE
                       {| AdminPaymentsId.d_auth := WebSample.member_session;
                          AdminPaymentsId.d_id := u16 "p1" |}))
  = ([], inr forbidden).
Proof.
  apply (proj1 (admin_gate WebSample.obliging
                  (payments_id_DELETE
                     {| AdminPaymentsId.d_auth := WebSample.member_session;
                        AdminPaymentsId.d_id := u16 "p1" |}))).
  reflexivity.
Defined.

Lemma role_allowed_spec (role : option Json) :
  AdminUsersId.role_allowed role = true
  <-> role = Some (JString (u16 "user")) \/ role = Some (JString (u16 "admin")).
Proof.
  unfold AdminUsersId.role_allowed. split.
  - destruct role as [[| | |r| |]|]; try discriminate.
    intros H. apply array_includes_spec in H.
    destruct H as [<-|[<-|[]]]; [left|right]; reflexivity.
  - intros [->| ->]; reflexivity.
Qed.

Lemma is_null_spec (v : Json) : is_null v = false <-> v <> JNull.
Proof. destruct v; cbn; split; try congruence; intros H; reflexivity || discriminate. Qed.

(** X9: PATCH /api/admin/users/[id], for an admin and a readable body that
    is not [null], makes at most one change, to the user named in the path,
    and writes exactly this: the [source] as the body gives it, whenever the
    body has one, and the [role] exactly when it is the string ["user"] or
    ["admin"].  Any other role (another string, or a value that is no
    string) is left out of the change, without an error, while a given
    [source] is still written; and when the body has no [source] and no such
    role the route answers 400 "No valid fields" without touching the
    database.  A [null] body makes the route throw before any call. *)
Theorem users_patch_validation (o : Outside) (req : AdminUsersId.request) (b : Json) :
  not_admin (AdminUsersId.auth req) = false ->
  AdminUsersId.json_body req = inr b ->
  let source := property b (u16 "source") in
  let role := property b (u16 "role") in
  (b = JNull ->
   exec o (AdminUsersId.PATCH req) = ([], inl (null_body (u16 "source"))))
  /\ (b <> JNull ->
      exists written,
        (role = Some (JString (u16 "user")) \/ role = Some (JString (u16 "admin")) ->
         written = role)
        /\ (role <> Some (JString (u16 "user")) -> role <> Some (JString (u16 "admin")) ->
            written = None)
        /\ exec o (AdminUsersId.PATCH req)
           = match source, written with
             | None, None => ([], inr (json (error_body (u16 "No valid fields")) 400))
             | _, _ =>
                 ([called (user_update (AdminUsersId.id req) (user_fields source written))],
                  match o _ (user_update (AdminUsersId.id req) (user_fields source written)) with
                  | inl e => inl e
                  | inr u => inr (json (user_body u) 200)
                  end)
             end).
Proof.
  intros Hadmin Hbody source role. split.
  - intros ->. unfold AdminUsersId.PATCH. rewrite Hadmin, Hbody. reflexivity.
  - intros Hb. apply is_null_spec in Hb.
    exists (if AdminUsersId.role_allowed role then role else None).
    split; [|split].
    + intros H. apply role_allowed_spec in H. rewrite H. reflexivity.
    + intros Hu Ha. destruct (AdminUsersId.role_allowed role) eqn:E; [|reflexivity].
      apply role_allowed_spec in E. tauto.
    + unfold AdminUsersId.PATCH. rewrite Hadmin, Hbody, Hb. fold source role.
      destruct source, (if AdminUsersId.role_allowed role then role else None);
        try reflexivity; apply exec_await_done.
Qed.

Lemma users_patch_validation_witness :
  exec WebSample.obliging
       (AdminUsersId.PATCH (WebSample.admin_user_patch WebSample.patch_source_and_root))
  = ([called (user_update (u16 "u7")
                (user_fields (Some (JString (u16 "github"))) None))],
     inr (json (user_body (row (u16 "{user}"))) 200)).
Proof.
  destruct (proj2 (users_patch_validation WebSample.obliging
                     (WebSample.admin_user_patch WebSample.patch_source_and_root)
                     WebSample.patch_source_and_root eq_refl eq_refl)
                  ltac:(discriminate))
    as (written & _ & Hdropped & Hexec).
  rewrite (Hdropped ltac:(discriminate) ltac:(discriminate)) in Hexec.
  exact Hexec.
Defined.



(** The conversions on values whose result is well known. *)
Example StringToNumber_known :
  map (fun s => toString (StringToNumber (u16 s)))
    [ "0.1"; "5"; " 12 "; ""; "1e21"; "5e-324"; "2.4e-324"; "1e309"; "0x1f"; "-0x1f";
      "0b101"; ".5"; "5."; "."; "1e"; "1e+2"; "-Infinity"; "infinity"; "12px"; "abc";
      "9007199254740993"; "0.30000000000000004" ]%string
  = map u16
    [ "0.1"; "5"; "12"; "0"; "1e+21"; "5e-324"; "0"; "Infinity"; "31"; "NaN";
      "5"; "0.5"; "5"; "NaN"; "NaN"; "100"; "-Infinity"; "NaN"; "NaN"; "NaN";
      "9007199254740992"; "0.30000000000000004" ]%string.
Proof. vm_compute. reflexivity. Qed.

Example ToNumber_known :
  map (fun v => match ToNumber v with inr n => Some (toString n) | inl _ => None end)
    [ JNull; JBool true; JBool false; JString (u16 "-5"); JArray [];
      JArray [JNumber (of_N 5)]; JArray [JNumber (of_N 1); JNumber (of_N 2)];
      JObject []; JObject [(u16 "valueOf", JNumber (of_N 1))];
      JObject [(u16 "toString", JNull)] ]
  = [ Some (u16 "0"); Some (u16 "1"); Some (u16 "0"); Some (u16 "-5"); Some (u16 "0");
      Some (u16 "5"); Some (u16 "NaN");
      Some (u16 "NaN"); Some (u16 "NaN");
      None ].
Proof. vm_compute. reflexivity. Qed.

Example ToString_known :
  ToString (JArray [ JNull; JBool true; JString (u16 "a");
                     JArray [JNumber (of_N 1); JNumber (of_N 2)]; JObject [] ])
  = inr (u16 ",true,a,1,2,[object Object]").
Proof. vm_compute. reflexivity. Qed.

(** 562949953421312.75 lies midway between the two nearest decimals of 16
    digits; the even one is written. *)
Example toString_tie_is_even :
  toString (Finite false 2251799813685251 (-2)) = u16 "562949953421312.8".
Proof. vm_compute. reflexivity. Qed.

Lemma not_le_zero (n : number) :
  le_zero n = false ->
  Math_round n = NaN \/ Math_round n = Infinity false
  \/ exists k, Math_round n = Finite false k 0.
Proof.
  destruct n as [|neg|neg m e]; cbn [le_zero Math_round].
  - left. reflexivity.
  - intros ->. right; left. reflexivity.
  - intros H. apply orb_false_iff in H. destruct H as [_ ->].
    right; right. eexists. reflexivity.
Qed.

Lemma positive_spec (a : number) :
  positive a = true <-> number_truthy a = true /\ le_zero a = false.
Proof.
  destruct a as [|neg|neg m e]; cbn.
  - split; [discriminate|intros [H _]; discriminate H].
  - destruct neg; cbn; split; try discriminate; try tauto. intros [_ H]. discriminate H.
  - destruct (m =? 0)%N, neg; cbn; split; try discriminate; try tauto;
      intros [H1 H2]; discriminate.
Qed.

(** X11: POST /api/admin/payments, for an admin and a readable body.  The
    route checks truthiness and sign, not types.  It answers 400 without a
    database call when [userId] or [amount] is missing or falsy ([null],
    [false], [0], [-0], the empty string), or when [amount] converts to a
    number that is zero or negative.  Otherwise it creates exactly one
    payment: [userId] as given, the currency "USD" and the method "manual"
    when these are absent or [null], and as amount [Math.round] of the
    number [amount] converts to, which is a whole number that is not
    negative, [Infinity], or NaN (for an amount such as the text "abc").
    For a body of the declared types this means: a payment is created exactly
    when [userId] is a non-empty string and [amount] a number greater than
    zero.  An amount that is no number is not refused for that: [true] is
    stored as 1.  A [null] body, and an amount that cannot be converted (an
    object with a member named [toString]), make the route throw before any
    call. *)
Theorem payments_post_validation (o : Outside) (req : AdminPayments.request) (b : Json) :
  not_admin (AdminPayments.auth req) = false ->
  AdminPayments.json_body req = inr b ->
  let userId := property b (u16 "userId") in
  let amount := property b (u16 "amount") in
  let result := exec o (AdminPayments.POST req) in
  let created (u : Json) (n : number) :=
    {| pd_userId := u;
       pd_amount := Math_round n;
       pd_currency := nullish (property b (u16 "currency")) (JString (u16 "USD"));
       pd_method := nullish (property b (u16 "method")) (JString (u16 "manual"));
       pd_note := nullish (property b (u16 "note")) JNull |} in
  (b = JNull -> result = ([], inl (null_body (u16 "userId"))))
  /\ (b <> JNull -> truthy_value userId = false \/ truthy_value amount = false ->
      result = ([], inr AdminPayments.bad_request))
  /\ (b <> JNull ->
      forall u a, userId = Some u -> amount = Some a ->
      json_truthy u = true -> json_truthy a = true ->
      match ToNumber a with
      | inl e => result = ([], inl e)
      | inr n =>
          if le_zero n then result = ([], inr AdminPayments.bad_request)
          else
            result
            = ([called (payment_create (created u n))],
               match o _ (payment_create (created u n)) with
               | inl e => inl e
               | inr payment => inr (json (payment_body payment) 201)
               end)
            /\ (pd_amount (created u n) = NaN
                \/ pd_amount (created u n) = Infinity false
                \/ exists k, pd_amount (created u n) = Finite false k 0)
      end)
  /\ (b <> JNull ->
      forall u a, userId = Some (JString u) -> amount = Some (JNumber a) ->
      (u <> [] /\ positive a = true)
      <-> exists data, fst result = [called (payment_create data)])
  /\ (b <> JNull ->
      forall u, userId = Some u -> json_truthy u = true -> amount = Some (JBool true) ->
      fst result = [called (payment_create (created u (of_N 1)))]
      /\ pd_amount (created u (of_N 1)) = of_N 1).
Proof.
  intros Hadmin Hbody userId amount result created.
  assert (Hnull : b = JNull -> result = ([], inl (null_body (u16 "userId")))).
  { intros ->. unfold result, AdminPayments.POST. rewrite Hadmin, Hbody. reflexivity. }
  assert (Hexec : b <> JNull ->
            result
            = match userId, amount with
              | Some u, Some a =>
                  if negb (json_truthy u) || negb (json_truthy a)
                  then ([], inr AdminPayments.bad_request)
                  else
                    match ToNumber a with
                    | inl e => ([], inl e)
                    | inr n =>
                        if le_zero n then ([], inr AdminPayments.bad_request)
                        else
                          ([called (payment_create (created u n))],
                           match o _ (payment_create (created u n)) with
                           | inl e => inl e
                           | inr payment => inr (json (payment_body payment) 201)
                           end)
                    end
              | _, _ => ([], inr AdminPayments.bad_request)
              end).
  { intros Hb. apply is_null_spec in Hb.
    unfold result, AdminPayments.POST. rewrite Hadmin, Hbody, Hb. fold userId amount.
    destruct userId as [u|], amount as [a|]; try reflexivity.
    destruct (negb (json_truthy u) || negb (json_truthy a)); [reflexivity|].
    destruct (ToNumber a) as [e|n]; [reflexivity|].
    destruct (le_zero n); [reflexivity|]. apply exec_await_done. }
  assert (Hstep : b <> JNull ->
            forall u a, userId = Some u -> amount = Some a ->
            json_truthy u = true -> json_truthy a = true ->
            match ToNumber a with
            | inl e => result = ([], inl e)
            | inr n =>
                if le_zero n then result = ([], inr AdminPayments.bad_request)
                else
                  result
                  = ([called (payment_create (created u n))],
                     match o _ (payment_create (created u n)) with
                     | inl e => inl e
                     | inr payment => inr (json (payment_body payment) 201)
                     end)
                  /\ (pd_amount (created u n) = NaN
                      \/ pd_amount (created u n) = Infinity false
                      \/ exists k, pd_amount (created u n) = Finite false k 0)
            end).
  { intros Hb u a Hu Ha Tu Ta. rewrite (Hexec Hb), Hu, Ha, Tu, Ta. cbn [negb orb].
    destruct (ToNumber a) as [e|n]; [reflexivity|].
    destruct (le_zero n) eqn:L; [reflexivity|].
    split; [reflexivity|]. apply not_le_zero. exact L. }
  split; [exact Hnull|]. split; [|split; [exact Hstep|split]].
  - intros Hb H. rewrite (Hexec Hb).
    destruct userId as [u|], amount as [a|]; try reflexivity.
    cbn [truthy_value] in H. destruct H as [-> | ->]; cbn [negb orb];
      [reflexivity|]. rewrite orb_true_r. reflexivity.
  - intros Hb u a Hu Ha. rewrite (Hexec Hb), Hu, Ha.
    cbn [json_truthy ToNumber]. split.
    + intros [Hne Hpos]. apply positive_spec in Hpos. destruct Hpos as [T L].
      destruct u as [|c u]; [contradiction|]. cbn [truthy negb orb]. rewrite T, L.
      cbn [negb]. eexists. reflexivity.
    + intros [data Hd]. destruct u as [|c u]; [discriminate Hd|].
      split; [discriminate|]. apply positive_spec.
      cbn [truthy negb orb] in Hd. destruct (number_truthy a); [|discriminate Hd].
      cbn [negb] in Hd. destruct (le_zero a); [discriminate Hd|]. split; reflexivity.
  - intros Hb u Hu Tu Ha.
    pose proof (Hstep Hb u (JBool true) Hu Ha Tu eq_refl) as H.
    cbn in H. destruct H as [-> _]. split; reflexivity.
Qed.

Lemma payments_post_validation_witness :
  fst (exec WebSample.obliging
         (AdminPayments.POST
            (WebSample.admin_payment_post (WebSample.payment_of (JString (u16 "5"))))))
  = [called (payment_create
               {| pd_userId := JString (u16 "u7");
                  pd_amount := of_N 5;
                  pd_currency := JString (u16 "USD");
                  pd_method := JString (u16 "manual");
                  pd_note := JNull |})]
  /\ (fst (exec WebSample.obliging
             (AdminPayments.POST
                (WebSample.admin_payment_post
                   (WebSample.payment_of (JNumber WebSample.amount_0_4)))))
      = [called (payment_create
                   {| pd_userId := JString (u16 "u7");
                      pd_amount := of_N 0;
                      pd_currency := JString (u16 "USD");
                      pd_method := JString (u16 "manual");
                      pd_note := JNull |})]).
Proof.
  split.
  - pose proof (proj1 (proj2 (proj2
             (payments_post_validation WebSample.obliging
                (WebSample.admin_payment_post (WebSample.payment_of (JString (u16 "5"))))
                (WebSample.payment_of (JString (u16 "5"))) eq_refl eq_refl)))
             ltac:(discriminate) (JString (u16 "u7")) (JString (u16 "5"))
             eq_refl eq_refl eq_refl eq_refl) as H.
    assert (ToNumber (JString (u16 "5")) = inr (Finite false 5629499534213120 (-50))) as E
      by (vm_compute; reflexivity).
    rewrite E in H. cbn [le_zero N.eqb orb] in H. destruct H as [H _].
    rewrite H. vm_compute. reflexivity.
  - pose proof (proj1 (proj2 (proj2
             (payments_post_validation WebSample.obliging
                (WebSample.admin_payment_post
                   (WebSample.payment_of (JNumber WebSample.amount_0_4)))
                (WebSample.payment_of (JNumber WebSample.amount_0_4)) eq_refl eq_refl)))
             ltac:(discriminate) (JString (u16 "u7")) (JNumber WebSample.amount_0_4)
             eq_refl eq_refl eq_refl eq_refl) as H.
    cbn [ToNumber WebSample.amount_0_4 le_zero N.eqb orb] in H. destruct H as [H _].
    rewrite H. vm_compute. reflexivity.
Defined.

(* --------------------------------------------------------------------- *)
(** ** POST /api/me/geo *)

Lemma or_null_some (s c : jsstring) : or_null s = Some c -> s = c /\ c <> [].
Proof.
  unfold or_null. destruct s; cbn; intros E; [discriminate E|].
  injection E as <-. split; [reflexivity|discriminate].
Qed.

(** X12: POST /api/me/geo answers 401 without any call when the session has
    no user id.  Otherwise it writes a location at most once per request,
    only for the session's own user, only when that user has no country yet
    (a country once set is never overwritten), and only with a non-empty
    country that the address lookup returned; and the lookup is never asked
    about an empty address or the loopback addresses 127.0.0.1 and ::1. *)
Theorem geo_route_guards (o : Outside) (req : MeGeo.request) :
  let steps := fst (exec o (MeGeo.POST req)) in
  (truthy_opt (MeGeo.session_user_id (MeGeo.auth req)) = false ->
     exec o (MeGeo.POST req) = ([], inr (json (error_body (u16 "Unauthorized")) 401)))
  /\ List.length (user_updates steps) <= 1
  /\ (forall uid data, In (uid, data) (user_updates steps) ->
        MeGeo.session_user_id (MeGeo.auth req) = Some uid
        /\ uid <> []
        /\ (exists found, o _ (user_findUnique_country uid) = inr found
                          /\ (found = None \/ found = Some None \/ found = Some (Some [])))
        /\ exists g,
             o _ (geoip_lookup (MeGeo.client_ip req)) = inr (Some g)
             /\ geo_country g <> []
             /\ data = user_geo (geo_country g) (or_null (geo_city g)))
  /\ (forall ip, In ip (geo_lookups steps) ->
        ip = MeGeo.client_ip req
        /\ ip <> [] /\ ip <> u16 "127.0.0.1" /\ ip <> u16 "::1").
Proof.
  intros steps. unfold steps, MeGeo.POST. clear steps.
  destruct (MeGeo.session_user_id (MeGeo.auth req)) as [[|c uid]|] eqn:Hid;
    cbn [truthy_opt truthy];
    try (split; [reflexivity|]; split; [cbn; lia|]; split; intros ? ? []).
  try (intros ? []).
  all: try (split; [intros _; reflexivity|]; split; [cbn; lia|];
            split; [intros ? ? []|intros ? []]).
  set (me := c :: uid).
  cbn [exec]. destruct (o _ (user_findUnique_country me)) as [e|found] eqn:Hfound.
  { split; [discriminate|]. split; [cbn; lia|]. split; [intros ? ? []|intros ? []]. }
  assert (Hcases : truthy_opt (match found with Some country => country | None => None end)
                   = false ->
                   found = None \/ found = Some None \/ found = Some (Some [])).
  { destruct found as [[[|? ?]|]|]; cbn; intros H; try discriminate H; tauto. }
  destruct (truthy_opt (match found with Some country => country | None => None end)) eqn:Hset.
  { split; [discriminate|]. split; [cbn; lia|]. split; [intros ? ? []|intros ? []]. }
  specialize (Hcases eq_refl).
  unfold MeGeo.lookupGeo.
  destruct (truthy (MeGeo.client_ip req)) eqn:Hip; cbn [negb orb].
  2:{ split; [discriminate|]. split; [cbn; lia|]. split; [intros ? ? []|intros ? []]. }
  destruct (strict_eq (MeGeo.client_ip req) (u16 "127.0.0.1")) eqn:H4; cbn [orb].
  { split; [discriminate|]. split; [cbn; lia|]. split; [intros ? ? []|intros ? []]. }
  destruct (strict_eq (MeGeo.client_ip req) (u16 "::1")) eqn:H6.
  { split; [discriminate|]. split; [cbn; lia|]. split; [intros ? ? []|intros ? []]. }
  assert (Hgood : forall ip, ip = MeGeo.client_ip req ->
            ip = MeGeo.client_ip req
            /\ ip <> [] /\ ip <> u16 "127.0.0.1" /\ ip <> u16 "::1").
  { intros ip ->. split; [reflexivity|]. repeat split.
    - intros C. rewrite C in Hip. discriminate Hip.
    - intros C. rewrite C, strict_eq_refl in H4. discriminate H4.
    - intros C. rewrite C, strict_eq_refl in H6. discriminate H6. }
  cbn [bindR exec].
  destruct (o _ (geoip_lookup (MeGeo.client_ip req))) as [e|[g|]] eqn:Hgeo.
  - split; [discriminate|]. split; [cbn; lia|]. split; [intros ? ? []|].
    intros ip [<-|[]]. apply Hgood. reflexivity.
  - cbn [bindR]. destruct (or_null (geo_country g)) as [country|] eqn:Hc.
    + apply or_null_some in Hc. destruct Hc as [<- Hne].
      cbn [exec]. destruct (o _ (user_update me _)) as [e|r];
        (split; [discriminate|]; split; [cbn; lia|]; split;
         [|intros ip [<-|[]]; apply Hgood; reflexivity]);
        intros u data [E|[]]; injection E as <- <-;
        (split; [reflexivity|]); (split; [discriminate|]);
        (split; [exists found; split; [exact Hfound|exact Hcases]|]);
        exists g; repeat split; assumption.
    + split; [discriminate|]. split; [cbn; lia|]. split; [intros ? ? []|].
      intros ip [<-|[]]. apply Hgood. reflexivity.
  - split; [discriminate|]. split; [cbn; lia|]. split; [intros ? ? []|].
    intros ip [<-|[]]. apply Hgood. reflexivity.
Qed.

Lemma geo_route_guards_witness :
  exec WebSample.obliging
       (MeGeo.POST {| MeGeo.auth := None;
                      MeGeo.x_forwarded_for := Some (u16 "203.0.113.7");
                      MeGeo.x_real_ip := None |})
  = ([], inr (json (error_body (u16 "Unauthorized")) 401)).
Proof.
  apply (proj1 (geo_route_guards WebSample.obliging
                  {| MeGeo.auth := None;
                     MeGeo.x_forwarded_for := Some (u16 "203.0.113.7");
                     MeGeo.x_real_ip := None |})).
  reflexivity.
Defined.

(* --------------------------------------------------------------------- *)
(** ** The caller's address *)

Section Trimming.

Lemma trimStart_suffix (s : jsstring) : exists p, s = p ++ trimStart s.
Proof.
  induction s as [|c s [p IH]].
  - exists []. reflexivity.
  - cbn [trimStart]. destruct (is_white_space c).
    + exists (c :: p). cbn. rewrite <- IH. reflexivity.
    + exists []. reflexivity.
Qed.

Lemma trimStart_head (s : jsstring) (c : char16) (rest : jsstring) :
  trimStart s = c :: rest -> is_white_space c = false.
Proof.
  induction s as [|d s IH]; cbn [trimStart]; [discriminate|].
  destruct (is_white_space d) eqn:E; [exact IH|].
  intros H. injection H as <- _. exact E.
Qed.

(** A trimmed string begins and ends with a code unit that is not white
    space, and is a piece of the string it was cut from. *)
Lemma trim_spec (s : jsstring) :
  (exists before after, s = before ++ trim s ++ after)
  /\ (forall c rest, trim s = c :: rest -> is_white_space c = false)
  /\ (forall init c, trim s = init ++ [c] -> is_white_space c = false).
Proof.
  unfold trim, trimEnd.
  destruct (trimStart_suffix s) as [before Hb].
  destruct (trimStart_suffix (rev (trimStart s))) as [q Hq].
  assert (Hcut : trimStart s = rev (trimStart (rev (trimStart s))) ++ rev q).
  { rewrite <- rev_app_distr, <- Hq, rev_involutive. reflexivity. }
  split; [|split].
  - exists before, (rev q). rewrite <- Hcut. exact Hb.
  - intros c rest H. rewrite H in Hcut. cbn in Hcut.
    apply (trimStart_head s c _ Hcut).
  - intros init c H.
    apply (f_equal (@rev char16)) in H. rewrite rev_involutive, rev_app_distr in H.
    cbn in H. apply (trimStart_head _ _ _ H).
Qed.

Lemma split_first (first rest : jsstring) :
  ~ In 44%N first ->
  nth_error (split 44%N first) 0 = Some first
  /\ nth_error (split 44%N (first ++ 44%N :: rest)) 0 = Some first.
Proof.
  induction first as [|c f IH]; intros H.
  - split; reflexivity.
  - assert (c <> 44%N) as Hc by (intros ->; apply H; left; reflexivity).
    assert (~ In 44%N f) as Hf by (intros C; apply H; right; exact C).
    destruct (IH Hf) as [I1 I2]. apply N.eqb_neq in Hc.
    cbn [split app]. rewrite Hc.
    destruct (split 44%N f) as [|p ps]; [discriminate I1|].
    destruct (split 44%N (f ++ 44%N :: rest)) as [|p' ps']; [discriminate I2|].
    cbn in I1, I2 |- *. injection I1 as ->. injection I2 as ->. split; reflexivity.
Qed.

End Trimming.

(** X13: the address the geo route looks up.  When the [x-forwarded-for]
    header's first entry (the text before the first comma, or the whole
    header) is not blank, the address is that entry trimmed: it begins and
    ends with a code unit that is not white space, and neither the later
    entries nor [x-real-ip] have any influence.  When the header is absent or
    its first entry is blank, the address is [x-real-ip] as it stands, or the
    empty string when that is absent or empty. *)
Theorem client_ip_first_forwarded (req : MeGeo.request) (first rest : jsstring) :
  ~ In 44%N first ->
  MeGeo.x_forwarded_for req = Some first
  \/ MeGeo.x_forwarded_for req = Some (first ++ 44%N :: rest) ->
  match trim first with
  | [] =>
      MeGeo.client_ip req
      = match MeGeo.x_real_ip req with Some real => real | None => [] end
  | c :: ip =>
      MeGeo.client_ip req = c :: ip
      /\ is_white_space c = false
      /\ is_white_space (last (c :: ip) c) = false
  end.
Proof.
  intros Hcomma Hheader. destruct (split_first first rest Hcomma) as [S1 S2].
  assert (Hfirst : match MeGeo.x_forwarded_for req with
                   | Some forwarded => option_map trim (nth_error (split 44%N forwarded) 0)
                   | None => None
                   end = Some (trim first)).
  { destruct Hheader as [-> | ->]; [rewrite S1|rewrite S2]; reflexivity. }
  unfold MeGeo.client_ip. rewrite Hfirst. cbn [truthy_opt].
  destruct (trim_spec first) as (_ & Hhead & Hlast).
  destruct (trim first) as [|c ip] eqn:Et; cbn [truthy nullish_or].
  - destruct (MeGeo.x_real_ip req) as [[|d real]|]; reflexivity.
  - split; [reflexivity|]. split; [apply (Hhead c ip eq_refl)|].
    destruct (exists_last (l := c :: ip)) as (init & z & E); [discriminate|].
    rewrite E, last_last. apply (Hlast init z E).
Qed.

Lemma client_ip_first_forwarded_witness :
  MeGeo.client_ip (WebSample.geo_request (Some (u16 " 203.0.113.7 , 10.0.0.1"))
                                         (Some (u16 "10.0.0.2")))
  = u16 "203.0.113.7".
Proof.
  apply (client_ip_first_forwarded
           (WebSample.geo_request (Some (u16 " 203.0.113.7 , 10.0.0.1")) (Some (u16 "10.0.0.2")))
           (u16 " 203.0.113.7 ") (u16 " 10.0.0.1")).
  - cbn. intuition discriminate.
  - right. reflexivity.
Defined.

(* --------------------------------------------------------------------- *)
(** ** lib/logger.ts *)

(** X14: [appLog] never rejects, whatever the database does, and does
    exactly this.  When [JSON.stringify(meta)] throws, it makes no call and
    prints the line ["[AppLog:<level>] <source>: <message>"] on the console.
    Otherwise it makes exactly one call, [appLog.create], with the level,
    the source and the message as given, the text of [meta] (null when there
    is no [meta]) and the [userId] (null when it is absent or empty); when
    that call succeeds nothing is printed, and when it fails the same line
    is printed, once.  In every case the function resolves. *)
Theorem appLog_never_rejects (o : Outside) (level : LogLevel) (source : LogSource)
    (message : jsstring) (meta : option (Error + jsstring)) (userId : option jsstring) :
  let line := u16 "[AppLog:" ++ Logger.level_name level ++ u16 "] " ++
              Logger.source_name source ++ u16 ": " ++ message in
  let data (meta_json : option jsstring) :=
    {| al_level := level;
       al_source := source;
       al_message := message;
       al_meta := meta_json;
       al_userId := match userId with Some (c :: u) => Some (c :: u) | _ => None end |} in
  let stored (meta_json : option jsstring) : list Step * (Error + unit) :=
    (called (appLog_create (data meta_json))
       :: match o _ (appLog_create (data meta_json)) with
          | inr _ => []
          | inl _ => [printed line]
          end,
     inr tt) in
  exec o (Logger.appLog level source message meta userId)
  = match meta with
    | Some (inl _) => ([printed line], inr tt)
    | Some (inr text) => stored (Some text)
    | None => stored None
    end.
Proof.
  intros line data stored. unfold stored, data, line, Logger.appLog.
  assert ((if truthy_opt userId then userId else None)
          = match userId with Some (c :: u) => Some (c :: u) | _ => None end) as ->.
  { destruct userId as [[|c u]|]; reflexivity. }
  destruct meta as [[e|text]|]; cbn [exec]; [reflexivity| |];
    destruct (o _ (appLog_create _)); reflexivity.
Qed.

Lemma appLog_never_rejects_witness :
  exec WebSample.broken (Logger.appLog warn mcp (u16 "slow query") None (Some []))
  = ([called (appLog_create
                {| al_level := warn; al_source := mcp; al_message := u16 "slow query";
                   al_meta := None; al_userId := None |});
      printed (u16 "[AppLog:warn] mcp: slow query")],
     inr tt)
  /\ exec WebSample.obliging
          (Logger.appLog error api (u16 "boom")
             (Some (inl (Rejected (u16 "TypeError: Converting circular structure to JSON"))))
             (Some (u16 "u1")))
     = ([printed (u16 "[AppLog:error] api: boom")], inr tt).
Proof.
  split.
  - exact (appLog_never_rejects WebSample.broken warn mcp (u16 "slow query") None (Some [])).
  - exact (appLog_never_rejects WebSample.obliging error api (u16 "boom")
             (Some (inl (Rejected (u16 "TypeError: Converting circular structure to JSON"))))
             (Some (u16 "u1"))).
Defined.

(* --------------------------------------------------------------------- *)
(** ** components/dashboard/GeoCapture.tsx *)

Section GeoCaptureFacts.

Import GeoCapture.

Lemma getItem_setItem (s : Storage) (k v : jsstring) : getItem (setItem s k v) k = Some v.
Proof.
  induction s as [|[k' v'] s IH]; cbn [setItem getItem].
  - rewrite strict_eq_refl. reflexivity.
  - destruct (strict_eq k' k) eqn:E; cbn [getItem].
    + rewrite strict_eq_refl. reflexivity.
    + rewrite E. exact IH.
Qed.

Lemma effect_idempotent (b : Browser) : effect (effect b) = effect b.
Proof.
  destruct (truthy_opt (getItem (sessionStorage b) key)) eqn:E.
  - assert (effect b = b) as H by (unfold effect; rewrite E; reflexivity).
    rewrite !H. reflexivity.
  - assert (effect b
            = {| sessionStorage := setItem (sessionStorage b) key (u16 "1");
                 fetched := fetched b ++ [(u16 "POST", u16 "/api/me/geo")] |}) as ->
      by (unfold effect; rewrite E; reflexivity).
    unfold effect. cbn [sessionStorage]. rewrite getItem_setItem. reflexivity.
Qed.

Lemma mounts_effect (n : nat) (b : Browser) : mounts n (effect b) = effect b.
Proof.
  induction n as [|n IH]; [reflexivity|].
  cbn [mounts]. rewrite effect_idempotent. exact IH.
Qed.

(** X15: however often the component mounts in one tab, it posts to
    /api/me/geo at most once: the first mount that finds no truthy
    ["geo_captured"] entry in the session storage sends the request and sets
    the entry to ["1"], and every later mount does nothing.  With the entry
    already set, no request is sent at all. *)
Theorem geo_capture_at_most_once (n : nat) (b : Browser) :
  (n = 0 -> mounts n b = b)
  /\ (0 < n -> mounts n b = effect b)
  /\ (truthy_opt (getItem (sessionStorage b) key) = true -> mounts n b = b)
  /\ (truthy_opt (getItem (sessionStorage b) key) = false -> 0 < n ->
      fetched (mounts n b) = fetched b ++ [(u16 "POST", u16 "/api/me/geo")]
      /\ getItem (sessionStorage (mounts n b)) key = Some (u16 "1"))
  /\ List.length (fetched (mounts n b)) <= List.length (fetched b) + 1.
Proof.
  assert (H1 : 0 < n -> mounts n b = effect b).
  { destruct n as [|n]; [lia|]. intros _. cbn [mounts]. apply mounts_effect. }
  assert (H2 : truthy_opt (getItem (sessionStorage b) key) = true -> effect b = b).
  { intros H. unfold effect. rewrite H. reflexivity. }
  split; [intros ->; reflexivity|]. split; [exact H1|]. split; [|split].
  - intros H. destruct n as [|n]; [reflexivity|].
    rewrite H1 by lia. apply H2, H.
  - intros H Hn. rewrite (H1 Hn). unfold effect. rewrite H. cbn [fetched sessionStorage].
    split; [reflexivity|apply getItem_setItem].
  - destruct n as [|n]; [cbn; lia|]. rewrite H1 by lia. unfold effect.
    destruct (truthy_opt (getItem (sessionStorage b) key)); cbn [fetched]; [lia|].
    rewrite length_app. cbn. lia.
Qed.

Lemma geo_capture_at_most_once_witness :
  fetched (mounts 3 {| sessionStorage := []; fetched := [] |})
  = [(u16 "POST", u16 "/api/me/geo")]
  /\ getItem (sessionStorage (mounts 3 {| sessionStorage := []; fetched := [] |})) key
     = Some (u16 "1").
Proof.
  apply (proj1 (proj2 (proj2 (proj2
           (geo_capture_at_most_once 3 {| sessionStorage := []; fetched := [] |}))))).
  - reflexivity.
  - lia.
Defined.

End GeoCaptureFacts.

(* --------------------------------------------------------------------- *)
(** ** components/admin/AdminTabs.tsx *)

Section AdminTabsFacts.

Import AdminTabs.

Lemma starts_with_spec (prefix s : jsstring) :
  starts_with prefix s = true <-> exists rest, s = prefix ++ rest.
Proof.
  revert s. induction prefix as [|a p IH]; intros s.
  - split; [intros _; exists s; reflexivity|reflexivity].
  - destruct s as [|c s]; cbn [starts_with].
    + split; [discriminate|]. intros [rest C]. discriminate C.
    + rewrite andb_true_iff, N.eqb_eq, IH. split.
      * intros [-> [rest ->]]. exists rest. reflexivity.
      * intros [rest E]. injection E as -> ->. split; [reflexivity|]. exists rest. reflexivity.
Qed.

(** X16: for every path, at most one admin tab is highlighted.  "Overview"
    is highlighted only on ["/admin"] itself; each of "Users", "Payments" and
    "Logs" is highlighted on every path that begins with its own address
    (sub-pages included, and also a path that merely continues the address,
    such as ["/admin/logs-old"]). *)
Theorem at_most_one_active_tab (pathname : jsstring) :
  List.length (filter (active pathname) tabs) <= 1
  /\ (forall tab, In tab tabs -> exact tab = true ->
        (active pathname tab = true <-> pathname = u16 "/admin"))
  /\ (forall tab, In tab tabs -> exact tab = false ->
        (active pathname tab = true <-> exists rest, pathname = href tab ++ rest)).
Proof.
  split; [|split].
  - unfold tabs. cbn [filter active exact href].
    destruct (strict_eq pathname (u16 "/admin")) eqn:E0;
    destruct (starts_with (u16 "/admin/users") pathname) eqn:E1;
    destruct (starts_with (u16 "/admin/payments") pathname) eqn:E2;
    destruct (starts_with (u16 "/admin/logs") pathname) eqn:E3;
    cbn [List.length]; try lia; exfalso;
    try (apply strict_eq_spec in E0);
    try (apply starts_with_spec in E1; destruct E1 as [r1 E1]);
    try (apply starts_with_spec in E2; destruct E2 as [r2 E2]);
    try (apply starts_with_spec in E3; destruct E3 as [r3 E3]);
    subst pathname; cbn in *; congruence.
  - intros tab Hin Hexact. unfold active. rewrite Hexact.
    cbn in Hin. destruct Hin as [<-|[<-|[<-|[<-|[]]]]]; try discriminate Hexact.
    apply strict_eq_spec.
  - intros tab Hin Hexact. unfold active. rewrite Hexact. apply starts_with_spec.
Qed.

Lemma at_most_one_active_tab_witness :
  active (u16 "/admin/users/42")
         {| href := u16 "/admin/users"; label := u16 "Users"; exact := false |} = true
  <-> exists rest, u16 "/admin/users/42" = u16 "/admin/users" ++ rest.
Proof.
  apply (proj2 (proj2 (at_most_one_active_tab (u16 "/admin/users/42")))
           {| href := u16 "/admin/users"; label := u16 "Users"; exact := false |}).
  - right. left. reflexivity.
  - reflexivity.
Defined.

End AdminTabsFacts.

(* --------------------------------------------------------------------- *)
(** ** The expanded rows of the log viewer *)

Section LogViewerFacts.

Import LogViewer.

Lemma has_delete (s : list jsstring) (id x : jsstring) :
  has (delete s id) x = has s x && negb (strict_eq x id).
Proof.
  unfold has, delete. induction s as [|y s IH]; [reflexivity|].
  cbn [filter existsb]. destruct (strict_eq y id) eqn:Ey; cbn [negb existsb].
  - rewrite IH. apply strict_eq_spec in Ey. subst y.
    destruct (strict_eq x id); cbn; [rewrite andb_false_r|rewrite andb_true_r]; reflexivity.
  - rewrite IH. destruct (strict_eq x y) eqn:Ex; cbn [orb]; [|reflexivity].
    apply strict_eq_spec in Ex. subst y. rewrite Ey. reflexivity.
Qed.

Lemma has_add (s : list jsstring) (id x : jsstring) :
  has (add s id) x = has s x || strict_eq x id.
Proof.
  unfold add. destruct (has s id) eqn:E.
  - destruct (strict_eq x id) eqn:Ex; [|rewrite orb_false_r; reflexivity].
    apply strict_eq_spec in Ex. subst x. rewrite E. reflexivity.
  - unfold has. rewrite existsb_app. cbn. rewrite orb_false_r. reflexivity.
Qed.

(** X17: [toggleExpand(id)] flips whether [id] is expanded and leaves every
    other row as it was; so toggling the same row twice restores, for every
    row, whether it is expanded. *)
Theorem toggleExpand_flips_one (id : jsstring) (expanded : list jsstring) :
  has (toggleExpand id expanded) id = negb (has expanded id)
  /\ (forall x, x <> id -> has (toggleExpand id expanded) x = has expanded x)
  /\ (forall x, has (toggleExpand id (toggleExpand id expanded)) x = has expanded x).
Proof.
  assert (A : forall s x, has (toggleExpand id s) x
                          = if strict_eq x id then negb (has s id) else has s x).
  { intros s x. unfold toggleExpand. destruct (has s id) eqn:E.
    - rewrite has_delete. destruct (strict_eq x id) eqn:Ex; cbn.
      + apply andb_false_r.
      + apply andb_true_r.
    - rewrite has_add. destruct (strict_eq x id) eqn:Ex; cbn.
      + apply orb_true_r.
      + apply orb_false_r. }
  split; [|split].
  - rewrite A, strict_eq_refl. reflexivity.
  - intros x Hx. rewrite A, (strict_eq_neq _ _ Hx). reflexivity.
  - intros x. rewrite !A, strict_eq_refl.
    destruct (strict_eq x id) eqn:Ex.
    + apply strict_eq_spec in Ex. subst x. apply negb_involutive.
    + reflexivity.
Qed.

Lemma toggleExpand_flips_one_witness :
  has (toggleExpand (u16 "log2") [u16 "log1"; u16 "log2"]) (u16 "log1")
  = has [u16 "log1"; u16 "log2"] (u16 "log1").
Proof.
  apply (proj1 (proj2 (toggleExpand_flips_one (u16 "log2") [u16 "log1"; u16 "log2"]))).
  discriminate.
Defined.

End LogViewerFacts.

(* --------------------------------------------------------------------- *)
(** ** GET /api/admin/logs *)

(** [parseInt] and [Math.min] on inputs whose results are well known. *)
Example parseInt_known :
  map (fun s => toString (parseInt (u16 s)))
    [ "50"; "500"; ""; "abc"; "-5"; "  42px"; "0x1f"; "1e3"; "+7"; "-";
      "9007199254740993"; "12345678901234567890123" ]%string
  = map u16 [ "50"; "500"; "NaN"; "NaN"; "-5"; "42"; "31"; "1"; "7"; "NaN";
              "9007199254740992"; "1.2345678901234568e+22" ]%string
  /\ map (fun s => toString (Math_min (parseInt (u16 s)) (of_N 200)))
       [ "50"; "200"; "201"; "99999999999999999999999"; "-5"; "" ]%string
     = map u16 [ "50"; "200"; "200"; "200"; "-5"; "NaN" ]%string.
Proof. split; vm_compute; reflexivity. Qed.

Lemma Math_min_200 (a : number) :
  Math_min a (of_N 200) = NaN \/ number_lt (of_N 200) (Math_min a (of_N 200)) = false.
Proof.
  destruct a as [|neg|neg m e]; [left; reflexivity| |]; right;
    unfold Math_min; cbv iota; change (of_N 200) with (Finite false 200 0).
  - destruct (number_lt (Finite false 200 0) (Infinity neg)) eqn:E1; [reflexivity|].
    destruct (number_lt (Infinity neg) (Finite false 200 0)); [exact E1|].
    destruct (sign_bit (Finite false 200 0) && negb (sign_bit (Infinity neg)));
      [reflexivity|exact E1].
  - destruct (number_lt (Finite false 200 0) (Finite neg m e)) eqn:E1; [reflexivity|].
    destruct (number_lt (Finite neg m e) (Finite false 200 0)); [exact E1|].
    destruct (sign_bit (Finite false 200 0) && negb (sign_bit (Finite neg m e)));
      [reflexivity|exact E1].
Qed.

(** X19: GET /api/admin/logs, for an admin, starts exactly one page query
    and one count, both with the same filter.  The page never asks for more
    than 200 rows: [take] is at most 200, or NaN when [limit] has no number
    in front (the empty string, for instance); it is 50 when [limit] is
    absent.  A filter on level, source or message is set only for a
    non-empty parameter. *)
Theorem logs_page_size (o : Outside) (req : AdminLogs.request) :
  not_admin (AdminLogs.auth req) = false ->
  let steps := fst (exec o (AdminLogs.GET req)) in
  (exists take skip,
     steps = [called (appLog_findMany (AdminLogs.where_of req) take skip);
              called (appLog_count (AdminLogs.where_of req))]
     /\ take = AdminLogs.page_size req
     /\ (take = NaN \/ number_lt (of_N 200) take = false))
  /\ (AdminLogs.limit req = None -> AdminLogs.page_size req = of_N 50)
  /\ (AdminLogs.limit req = Some [] -> AdminLogs.page_size req = NaN)
  /\ (forall given kept,
        In (given, kept)
           [ (AdminLogs.level req, w_level (AdminLogs.where_of req));
             (AdminLogs.source req, w_source (AdminLogs.where_of req));
             (AdminLogs.search req, w_message_contains (AdminLogs.where_of req)) ] ->
        match given with
        | Some (c :: text) => kept = Some (c :: text)
        | Some [] | None => kept = None
        end).
Proof.
  intros Hadmin steps. unfold steps, AdminLogs.GET. rewrite Hadmin. clear steps.
  split; [|split; [|split]].
  - exists (AdminLogs.page_size req), (parseInt (nullish_or (AdminLogs.offset req) (u16 "0"))).
    split; [|split; [reflexivity|apply Math_min_200]].
    cbn [exec]. destruct (o _ (appLog_findMany _ _ _)); [reflexivity|].
    destruct (o _ (appLog_count _)); reflexivity.
  - intros H. unfold AdminLogs.page_size. rewrite H. vm_compute. reflexivity.
  - intros H. unfold AdminLogs.page_size. rewrite H. vm_compute. reflexivity.
  - intros given kept Hin. cbn in Hin.
    destruct Hin as [E|[E|[E|[]]]]; injection E as <- <-; unfold AdminLogs.filled;
      match goal with |- context [truthy_opt ?x] => destruct x as [[|c text]|] end;
      reflexivity.
Qed.

Lemma logs_page_size_witness :
  exists take skip,
    fst (exec WebSample.obliging
           (AdminLogs.GET (WebSample.logs_request (Some (u16 "5000")))))
    = [called (appLog_findMany
                 (AdminLogs.where_of (WebSample.logs_request (Some (u16 "5000")))) take skip);
       called (appLog_count
                 (AdminLogs.where_of (WebSample.logs_request (Some (u16 "5000")))))]
    /\ take = AdminLogs.page_size (WebSample.logs_request (Some (u16 "5000")))
    /\ (take = NaN \/ number_lt (of_N 200) take = false).
Proof.
  apply (proj1 (logs_page_size WebSample.obliging
                  (WebSample.logs_request (Some (u16 "5000"))) eq_refl)).
Defined.

End WebFacts.

(* ===================================================================== *)
(** * The start-up script on a machine that can fail it *)
(* ===================================================================== *)

Module CloudRunFacts.

Import CloudStart StartupFacts StartupMore Trace CloudRun.
Local Open Scope string_scope.

Section Machine.

Variable m : Machine.

Local Notation "'w'" := (world m).

(** The loop when probe [k] is the first to succeed and no probe before it
    got stuck. *)
Lemma poll_ready (before after : list nat) (k : nat) :
  (forall j, In j before -> stuck m j = false /\ health w j = false /\ j <> 30) ->
  stuck m k = false ->
  health w k = true ->
  poll m (before ++ k :: after)
  = ((failed w before ++ [HealthProbe k (health_url w) true; Echo "Backend ready!"])%list,
     None).
Proof.
  intros Hbefore Hs Hk. induction before as [|i before IH].
  - cbn [app poll failed flat_map]. rewrite Hs, Hk. reflexivity.
  - destruct (Hbefore i (or_introl eq_refl)) as (Si & Hi & Hi30).
    apply Nat.eqb_neq in Hi30.
    cbn [app poll]. rewrite Si, Hi, Hi30, IH.
    + reflexivity.
    + intros j Hj. apply Hbefore. right. exact Hj.
Qed.

(** The loop when the thirtieth probe fails as all before it did. *)
Lemma poll_failed (before : list nat) :
  (forall j, In j before -> stuck m j = false /\ health w j = false /\ j <> 30) ->
  stuck m 30 = false ->
  health w 30 = false ->
  poll m (before ++ [30])
  = ((failed w before ++
      [HealthProbe 30 (health_url w) false;
       Echo "ERROR: Backend failed to start within 30 seconds";
       Exit 1])%list, Some (Exits 1)).
Proof.
  intros Hbefore Hs Hk. induction before as [|i before IH].
  - cbn [app poll failed flat_map]. rewrite Hs, Hk. reflexivity.
  - destruct (Hbefore i (or_introl eq_refl)) as (Si & Hi & Hi30).
    apply Nat.eqb_neq in Hi30.
    cbn [app poll]. rewrite Si, Hi, Hi30, IH.
    + reflexivity.
    + intros j Hj. apply Hbefore. right. exact Hj.
Qed.

(** The loop when probe [k] is made and never returns. *)
Lemma poll_blocked (before after : list nat) (k : nat) :
  (forall j, In j before -> stuck m j = false /\ health w j = false /\ j <> 30) ->
  stuck m k = true ->
  poll m (before ++ k :: after) = (failed w before, Some (Blocks k)).
Proof.
  intros Hbefore Hs. induction before as [|i before IH].
  - cbn [app poll failed flat_map]. rewrite Hs. reflexivity.
  - destruct (Hbefore i (or_introl eq_refl)) as (Si & Hi & Hi30).
    apply Nat.eqb_neq in Hi30.
    cbn [app poll]. rewrite Si, Hi, Hi30, IH.
    + reflexivity.
    + intros j Hj. apply Hbefore. right. exact Hj.
Qed.

Lemma seq_split_at (k : nat) :
  1 <= k <= 30 -> seq 1 30 = (seq 1 (k - 1) ++ k :: seq (S k) (30 - k))%list.
Proof.
  intros Hk. transitivity (seq 1 ((k - 1) + S (30 - k))); [f_equal; lia|].
  rewrite seq_app. cbn [seq]. replace (1 + (k - 1)) with k by lia. reflexivity.
Qed.

Lemma before_reached (k : nat) :
  reached m k ->
  forall j, In j (seq 1 (k - 1)) -> stuck m j = false /\ health w j = false /\ j <> 30.
Proof.
  intros [Hk Hf] j Hj. apply in_seq in Hj.
  destruct (Hf j) as [S H]; [lia|]. repeat split; [exact S|exact H|lia].
Qed.

(** The run when probe [k] is the first to succeed. *)
Lemma run_ready (k : nat) :
  reached m k -> stuck m k = false -> health w k = true ->
  run m
  = ((startup w ++ waiting w (k - 1) ++
      [HealthProbe k (health_url w) true; Echo "Backend ready!"] ++
      fst (launch m))%list, snd (launch m)).
Proof.
  intros Hr Hs Hh. unfold run. rewrite (seq_split_at k (proj1 Hr)).
  rewrite (poll_ready _ _ _ (before_reached k Hr) Hs Hh).
  destruct (launch m) as [steps e]. cbn [fst snd].
  rewrite <- app_assoc. reflexivity.
Qed.

(** The run when every probe returns and none succeeds. *)
Lemma run_failed :
  (forall j, 1 <= j <= 30 -> stuck m j = false /\ health w j = false) ->
  run m
  = ((startup w ++ waiting w 29 ++
      [HealthProbe 30 (health_url w) false;
       Echo "ERROR: Backend failed to start within 30 seconds";
       Exit 1])%list, Exits 1).
Proof.
  intros Hf. unfold run. change (seq 1 30) with (seq 1 29 ++ [30])%list.
  rewrite poll_failed.
  - reflexivity.
  - intros j Hj. apply in_seq in Hj.
    destruct (Hf j) as [S H]; [lia|]. repeat split; [exact S|exact H|lia].
  - apply Hf. lia.
  - apply Hf. lia.
Qed.

(** The run when probe [k] is made and never returns. *)
Lemma run_blocked (k : nat) :
  reached m k -> stuck m k = true ->
  run m = ((startup w ++ waiting w (k - 1))%list, Blocks k).
Proof.
  intros Hr Hs. unfold run. rewrite (seq_split_at k (proj1 Hr)).
  rewrite (poll_blocked _ _ _ (before_reached k Hr) Hs). reflexivity.
Qed.

(** Every run has one of these three shapes. *)
Lemma run_shapes :
  (forall j, 1 <= j <= 30 -> stuck m j = false /\ health w j = false)
  \/ (exists k, reached m k /\ stuck m k = true)
  \/ (exists k, reached m k /\ stuck m k = false /\ health w k = true).
Proof.
  destruct (first_healthy
              {| PORT := PORT w; BACKEND_PORT := BACKEND_PORT w;
                 health := fun i => stuck m i || health w i |} 30)
    as [Hnever|(k & Hk & Hh & Hf)]; cbn [health] in *.
  - left. intros j Hj. apply orb_false_iff. apply Hnever. exact Hj.
  - assert (reached m k) as Hr.
    { split; [exact Hk|]. intros j Hj. apply orb_false_iff. apply Hf. exact Hj. }
    destruct (stuck m k) eqn:S.
    + right; left. exists k. split; [exact Hr|exact S].
    + right; right. exists k. split; [exact Hr|]. split; [exact S|exact Hh].
Qed.

Lemma launch_steps :
  exists tail,
    fst (launch m) = (announce w ++ tail)%list
    /\ tail <> []
    /\ attempts tail = 0 /\ sleeps tail = 0
    /\ outcome tail = match snd (launch m) with
                      | Launches c => Launched c
                      | Exits s => Exited s
                      | Blocks _ => Running
                      end.
Proof.
  unfold launch. destruct (cd_ok m); [destruct (node m)|];
    eexists; (split; [reflexivity|]); repeat split; discriminate.
Qed.

Lemma launch_plain :
  Forall (fun e => e <> Echo "ERROR: Backend failed to start within 30 seconds"
                   /\ forall s, e = Sleep s -> s = 1) (fst (launch m)).
Proof.
  unfold launch. destruct (cd_ok m); [destruct (node m)|];
    cbn [fst announce app]; repeat constructor; discriminate.
Qed.

Lemma launch_ending :
  (cd_ok m = true -> node m = Replaced ->
   snd (launch m) = Launches "node dist/server-http.js")
  /\ (cd_ok m = false \/ node m <> Replaced ->
      exists s, snd (launch m) = Exits s /\ (s = 1 \/ s = 126 \/ s = 127)).
Proof.
  unfold launch. split.
  - intros -> ->. reflexivity.
  - intros H. destruct (cd_ok m); [destruct (node m)|]; cbn.
    + destruct H as [H|H]; [discriminate|contradiction].
    + exists 127. auto.
    + exists 126. auto.
    + exists 1. auto.
Qed.

Lemma launches_only_complete (c : string) :
  snd (launch m) = Launches c ->
  c = "node dist/server-http.js" /\ cd_ok m = true /\ node m = Replaced.
Proof.
  unfold launch. destruct (cd_ok m); [destruct (node m)|]; cbn [snd]; intros E;
    try discriminate E.
  injection E as <-. repeat split.
Qed.

(** The probe that ends the waiting, if any, is the same however it is
    found. *)
Lemma decisive_unique (k k' : nat) :
  reached m k -> reached m k' ->
  stuck m k = true \/ health w k = true ->
  stuck m k' = true \/ health w k' = true ->
  k = k'.
Proof.
  intros [Hk Hf] [Hk' Hf'] D D'.
  destruct (Nat.lt_trichotomy k k') as [L|[E|L]]; [|exact E|].
  - destruct (Hf' k) as [S H]; [lia|]. rewrite S, H in D.
    destruct D; discriminate.
  - destruct (Hf k') as [S H]; [lia|]. rewrite S, H in D'.
    destruct D'; discriminate.
Qed.

(** Every run is of one of three kinds. *)
Lemma run_cases :
  ((forall j, 1 <= j <= 30 -> stuck m j = false /\ health w j = false)
   /\ run m
      = ((startup w ++ waiting w 29 ++
          [HealthProbe 30 (health_url w) false;
           Echo "ERROR: Backend failed to start within 30 seconds";
           Exit 1])%list, Exits 1))
  \/ (exists k, reached m k /\ stuck m k = true
                /\ run m = ((startup w ++ waiting w (k - 1))%list, Blocks k))
  \/ (exists k, reached m k /\ stuck m k = false /\ health w k = true
                /\ run m
                   = ((startup w ++ waiting w (k - 1) ++
                       [HealthProbe k (health_url w) true; Echo "Backend ready!"] ++
                       fst (launch m))%list, snd (launch m))).
Proof.
  destruct run_shapes as [Hf|[(k & Hr & S)|(k & Hr & S & H)]].
  - left. split; [exact Hf|apply run_failed; exact Hf].
  - right; left. exists k. split; [exact Hr|]. split; [exact S|].
    apply run_blocked; assumption.
  - right; right. exists k. split; [exact Hr|]. split; [exact S|]. split; [exact H|].
    apply run_ready; assumption.
Qed.

Lemma waiting_quiet (n : nat) (e : Event) :
  In e (waiting w n) ->
  e <> Echo "ERROR: Backend failed to start within 30 seconds"
  /\ is_gateway_step e = false.
Proof.
  intros He. apply failed_events in He.
  destruct He as [->|(i & _ & ->)]; split; (discriminate || reflexivity).
Qed.

Lemma startup_quiet (e : Event) :
  In e (startup w) ->
  e <> Echo "ERROR: Backend failed to start within 30 seconds"
  /\ is_gateway_step e = false.
Proof.
  cbn. intros [<-|[<-|[<-|[<-|[<-|[<-|[]]]]]]]; split; (discriminate || reflexivity).
Qed.

Lemma outcome_waiting (n : nat) : outcome (startup w ++ waiting w n) = Running.
Proof.
  destruct n as [|n].
  - reflexivity.
  - unfold waiting. rewrite seq_S. unfold failed. rewrite flat_map_app.
    cbn [flat_map app]. rewrite !app_assoc. rewrite outcome_app; [reflexivity|discriminate].
Qed.

End Machine.

(** In the complete image the run is the one of [CloudStart]. *)
Lemma poll_in_image (w : World) (l : list nat) :
  poll (in_image w) l
  = (fst (CloudStart.poll w l), option_map Exits (snd (CloudStart.poll w l))).
Proof.
  induction l as [|i l IH]; [reflexivity|].
  cbn [poll CloudStart.poll stuck world in_image].
  destruct (health w i); [reflexivity|].
  destruct (Nat.eqb i 30); [reflexivity|].
  cbn [poll stuck world in_image] in IH. rewrite IH.
  destruct (CloudStart.poll w l) as [events status]. reflexivity.
Qed.

Lemma run_in_image (w : World) :
  fst (run (in_image w)) = cloud_start w
  /\ outcome (cloud_start w)
     = match snd (run (in_image w)) with
       | Launches c => Launched c
       | Exits s => Exited s
       | Blocks _ => Running
       end.
Proof.
  assert (fst (run (in_image w)) = cloud_start w) as E.
  { unfold run, cloud_start. rewrite poll_in_image.
    destruct (CloudStart.poll w (seq 1 30)) as [events [status|]]; cbn.
    - rewrite app_nil_r. reflexivity.
    - reflexivity. }
  split; [exact E|]. rewrite <- E.
  destruct (run_cases (in_image w)) as [[_ ->]|[(k & _ & S & _)|(k & _ & _ & _ & ->)]].
  - cbn [fst snd]. rewrite !app_assoc. apply outcome_app. discriminate.
  - discriminate S.
  - cbn [fst snd launch cd_ok node in_image]. rewrite !app_assoc.
    apply outcome_app. discriminate.
Qed.

(* --------------------------------------------------------------------- *)
(** ** Bounded polling (C4) *)

(** C4, as stated, fails: the probe has no timeout, so a probe that never
    returns keeps the loop from ending.  On a machine whose backend is never
    healthy and whose first probe never returns, the run completes the six
    opening steps and then waits for ever: it makes no second attempt and
    never exits.  And a healthy backend does not always lead to the gateway:
    where [/app/mcp-server] cannot be entered, the run exits with status 1
    after the first, successful probe. *)
Lemma health_poll_can_block :
  (forall j, health (world Sample.blocked_at_first) j = false)
  /\ run Sample.blocked_at_first = (startup Sample.never_ready, Blocks 1)
  /\ (forall s, snd (run Sample.blocked_at_first) <> Exits s)
  /\ health (world Sample.no_directory) 1 = true
  /\ snd (run Sample.no_directory) = Exits 1.
Proof.
  split; [intros j; reflexivity|].
  split; [reflexivity|].
  split; [intros s; discriminate|].
  split; reflexivity.
Qed.

(** C4 (amended): the loop starts at most 30 probes, and every pause between
    probes is [sleep 1].  Provided the probes made return: when probe [k]
    (for some [k] from 1 to 30) is the first to succeed, the script has made
    exactly [k] probes and [k - 1] pauses and goes on to the launch steps,
    which start the gateway when [cd] and [exec] succeed and otherwise end
    the script with a status that is not zero; when none of the thirty
    probes succeeds, the script stops after exactly 30 probes (29 pauses)
    and exits with status 1, which is not zero. *)
Theorem health_poll_bounded_when_probes_return (m : Machine) :
  probes_started m <= 30
  /\ Forall (fun e => forall s, e = Sleep s -> s = 1) (fst (run m))
  /\ (forall k, 1 <= k <= 30 -> health (world m) k = true ->
        (forall j, 1 <= j < k -> health (world m) j = false) ->
        (forall j, 1 <= j <= k -> stuck m j = false) ->
        attempts (fst (run m)) = k
        /\ sleeps (fst (run m)) = k - 1
        /\ (exists steps,
              fst (run m)
              = (startup (world m) ++ waiting (world m) (k - 1) ++
                 [HealthProbe k (health_url (world m)) true; Echo "Backend ready!"] ++
                 announce (world m) ++ steps)%list)
        /\ (cd_ok m = true -> node m = Replaced ->
            snd (run m) = Launches "node dist/server-http.js")
        /\ (cd_ok m = false \/ node m <> Replaced ->
            exists s, snd (run m) = Exits s /\ s <> 0))
  /\ ((forall j, 1 <= j <= 30 -> health (world m) j = false) ->
      (forall j, 1 <= j <= 30 -> stuck m j = false) ->
        attempts (fst (run m)) = 30
        /\ sleeps (fst (run m)) = 29
        /\ snd (run m) = Exits 1
        /\ 1 <> 0).
Proof.
  assert (Quiet : forall n,
            Forall (fun e => forall s, e = Sleep s -> s = 1)
                   (startup (world m) ++ waiting (world m) n)).
  { intros n. rewrite Forall_app. split.
    - eapply Forall_impl; [|apply startup_plain]. cbn. tauto.
    - eapply Forall_impl; [|apply waiting_plain]. cbn. tauto. }
  split; [|split; [|split]].
  - unfold probes_started.
    destruct (run_cases m) as [[_ ->]|[(k & Hr & _ & ->)|(k & Hr & _ & _ & ->)]];
      cbn [fst snd].
    + destruct (waiting_counts (world m) 29) as [A _].
      rewrite !attempts_app, A. cbn. lia.
    + destruct (waiting_counts (world m) (k - 1)) as [A _].
      rewrite !attempts_app, A. destruct Hr as [Hk _]. cbn. lia.
    + destruct (waiting_counts (world m) (k - 1)) as [A _].
      destruct (launch_steps m) as (tail & -> & _ & At & _ & _).
      destruct (snd (launch m)) eqn:E.
      * rewrite !attempts_app, A, At. destruct Hr as [Hk _]. cbn. lia.
      * rewrite !attempts_app, A, At. destruct Hr as [Hk _]. cbn. lia.
      * exfalso. revert E. unfold launch.
        destruct (cd_ok m); [destruct (node m)|]; discriminate.
  - destruct (run_cases m) as [[_ ->]|[(k & Hr & _ & ->)|(k & Hr & _ & _ & ->)]];
      cbn [fst snd].
    + rewrite app_assoc. apply Forall_app. split; [apply Quiet|].
      repeat constructor; discriminate.
    + apply Quiet.
    + rewrite app_assoc. apply Forall_app. split; [apply Quiet|].
      apply Forall_app. split.
      * repeat constructor; discriminate.
      * eapply Forall_impl; [|apply launch_plain]. cbn. tauto.
  - intros k Hk Hh Hf Hs.
    assert (reached m k) as Hr.
    { split; [exact Hk|]. intros j Hj. split; [apply Hs|apply Hf]; lia. }
    rewrite (run_ready m k Hr (Hs k ltac:(lia)) Hh). cbn [fst snd].
    destruct (waiting_counts (world m) (k - 1)) as [A S].
    destruct (launch_steps m) as (tail & E & _ & At & St & _). rewrite E.
    rewrite !attempts_app, !sleeps_app, A, S, At, St.
    split; [cbn; lia|]. split; [cbn; lia|]. split; [exists tail; reflexivity|].
    split.
    + apply (proj1 (launch_ending m)).
    + intros H. destruct (proj2 (launch_ending m) H) as (s & Es & Hs1).
      exists s. split; [exact Es|lia].
  - intros Hf Hs.
    rewrite (run_failed m (fun j Hj => conj (Hs j Hj) (Hf j Hj))). cbn [fst snd].
    destruct (waiting_counts (world m) 29) as [A S].
    rewrite !attempts_app, !sleeps_app, A, S. repeat split. discriminate.
Qed.

Lemma health_poll_bounded_when_probes_return_witness :
  (attempts (fst (run (in_image Sample.ready_at_fifth))) = 5
   /\ sleeps (fst (run (in_image Sample.ready_at_fifth))) = 4
   /\ snd (run (in_image Sample.ready_at_fifth)) = Launches "node dist/server-http.js")
  /\ (attempts (fst (run Sample.no_node)) = 5
      /\ exists s, snd (run Sample.no_node) = Exits s /\ s <> 0)
  /\ (attempts (fst (run (in_image Sample.never_ready))) = 30
      /\ sleeps (fst (run (in_image Sample.never_ready))) = 29
      /\ snd (run (in_image Sample.never_ready)) = Exits 1
      /\ 1 <> 0).
Proof.
  assert (forall j, 1 <= j < 5 -> Nat.leb 5 j = false) as Early.
  { intros j Hj. apply (proj2 (Nat.leb_gt 5 j)). lia. }
  split; [|split].
  - destruct (proj1 (proj2 (proj2
               (health_poll_bounded_when_probes_return (in_image Sample.ready_at_fifth))))
               5 ltac:(lia) eq_refl Early (fun _ _ => eq_refl))
      as (A & S & _ & L & _).
    split; [exact A|]. split; [exact S|]. apply L; reflexivity.
  - destruct (proj1 (proj2 (proj2
               (health_poll_bounded_when_probes_return Sample.no_node)))
               5 ltac:(lia) eq_refl Early (fun _ _ => eq_refl))
      as (A & _ & _ & _ & X).
    split; [exact A|]. apply X. right. discriminate.
  - apply (proj2 (proj2 (proj2
             (health_poll_bounded_when_probes_return (in_image Sample.never_ready))))).
    + intros j Hj. reflexivity.
    + intros j Hj. reflexivity.
Defined.

(* --------------------------------------------------------------------- *)
(** ** How a run ends *)

(** X5: a run of the script ends in exactly one of three ways.  It replaces
    itself by [node dist/server-http.js], exactly when some probe is reached,
    returns and succeeds, and [cd] and [exec] then succeed.  It waits for
    ever on probe [k], exactly when probe [k] is reached and never returns.
    Or it exits, and then with status 1, 126 or 127, never 0.  The error line
    is printed exactly when all thirty probes return and fail; the run then
    exits with status 1 and has done none of the gateway steps (no [export],
    no [cd], no [exec]).  The last completed step agrees with the ending. *)
Theorem script_endings (m : Machine) :
  (forall c, snd (run m) = Launches c <->
     c = "node dist/server-http.js" /\ cd_ok m = true /\ node m = Replaced
     /\ exists k, reached m k /\ stuck m k = false /\ health (world m) k = true)
  /\ (forall k, snd (run m) = Blocks k <-> reached m k /\ stuck m k = true)
  /\ (forall s, snd (run m) = Exits s -> s = 1 \/ s = 126 \/ s = 127)
  /\ (In (Echo "ERROR: Backend failed to start within 30 seconds") (fst (run m))
      <-> forall j, 1 <= j <= 30 -> stuck m j = false /\ health (world m) j = false)
  /\ (In (Echo "ERROR: Backend failed to start within 30 seconds") (fst (run m)) ->
      snd (run m) = Exits 1
      /\ forall e, In e (fst (run m)) -> is_gateway_step e = false)
  /\ outcome (fst (run m))
     = match snd (run m) with
       | Launches c => Launched c
       | Exits s => Exited s
       | Blocks _ => Running
       end.
Proof.
  destruct (run_cases m) as [[Hf E]|[(k & Hr & S & E)|(k & Hr & S & H & E)]];
    rewrite E; cbn [fst snd].
  - (* thirty probes returned and failed *)
    split; [|split; [|split; [|split; [|split]]]].
    + intros c. split; [discriminate|].
      intros (_ & _ & _ & k & [Hk _] & _ & Hh).
      rewrite (proj2 (Hf k Hk)) in Hh. discriminate Hh.
    + intros k. split; [discriminate|]. intros [[Hk _] Hs].
      rewrite (proj1 (Hf k Hk)) in Hs. discriminate Hs.
    + intros s Es. injection Es as <-. auto.
    + split; [intros _; exact Hf|]. intros _.
      apply in_or_app; right. apply in_or_app; right. cbn. tauto.
    + intros _. split; [reflexivity|]. intros e He.
      apply in_app_or in He. destruct He as [He|He]; [apply (startup_quiet m e He)|].
      apply in_app_or in He. destruct He as [He|He]; [apply (waiting_quiet m _ e He)|].
      cbn in He. intuition (subst; reflexivity).
    + rewrite !app_assoc. apply outcome_app. discriminate.
  - (* probe k never returns *)
    assert (~ In (Echo "ERROR: Backend failed to start within 30 seconds")
                 (startup (world m) ++ waiting (world m) (k - 1))) as Hno.
    { intros He. apply in_app_or in He. destruct He as [He|He].
      - apply (proj1 (startup_quiet m _ He)). reflexivity.
      - apply (proj1 (waiting_quiet m _ _ He)). reflexivity. }
    split; [|split; [|split; [|split; [|split]]]].
    + intros c. split; [discriminate|].
      intros (_ & _ & _ & k' & Hr' & Hs' & Hh').
      assert (k = k') as <- by (apply (decisive_unique m); auto).
      rewrite S in Hs'. discriminate Hs'.
    + intros k'. split.
      * intros Ek. injection Ek as <-. split; assumption.
      * intros [Hr' Hs']. f_equal. apply (decisive_unique m); auto.
    + discriminate.
    + split; [intros He; contradiction|]. intros Hf.
      rewrite (proj1 (Hf k (proj1 Hr))) in S. discriminate S.
    + intros He. contradiction.
    + apply outcome_waiting.
  - (* probe k is the first to succeed *)
    assert (~ In (Echo "ERROR: Backend failed to start within 30 seconds")
                 (startup (world m) ++ waiting (world m) (k - 1) ++
                  [HealthProbe k (health_url (world m)) true; Echo "Backend ready!"] ++
                  fst (launch m))) as Hno.
    { intros He. apply in_app_or in He. destruct He as [He|He].
      { apply (proj1 (startup_quiet m _ He)). reflexivity. }
      apply in_app_or in He. destruct He as [He|He].
      { apply (proj1 (waiting_quiet m _ _ He)). reflexivity. }
      apply in_app_or in He. destruct He as [He|He].
      { cbn in He. intuition discriminate. }
      pose proof (launch_plain m) as P. rewrite Forall_forall in P.
      apply (proj1 (P _ He)). reflexivity. }
    split; [|split; [|split; [|split; [|split]]]].
    + intros c. split.
      * intros Ec. destruct (launches_only_complete m c Ec) as (-> & C & N).
        split; [reflexivity|]. split; [exact C|]. split; [exact N|].
        exists k. split; [exact Hr|]. split; assumption.
      * intros (-> & C & N & _). apply (proj1 (launch_ending m)); assumption.
    + intros k'. split.
      * unfold launch. destruct (cd_ok m); [destruct (node m)|]; discriminate.
      * intros [Hr' Hs'].
        assert (k = k') as <- by (apply (decisive_unique m); auto).
        rewrite S in Hs'. discriminate Hs'.
    + intros s. unfold launch.
      destruct (cd_ok m); [destruct (node m)|]; cbn [snd]; intros Es;
        try discriminate Es; injection Es as <-; auto.
    + split; [intros He; contradiction|]. intros Hf.
      rewrite (proj2 (Hf k (proj1 Hr))) in H. discriminate H.
    + intros He. contradiction.
    + destruct (launch_steps m) as (tail & -> & Hne & _ & _ & O).
      rewrite !app_assoc. rewrite outcome_app; [exact O|exact Hne].
Qed.

Lemma script_endings_witness :
  snd (run Sample.blocked_at_first) = Blocks 1
  /\ (In (Echo "ERROR: Backend failed to start within 30 seconds")
         (fst (run (in_image Sample.never_ready)))
      /\ snd (run (in_image Sample.never_ready)) = Exits 1)
  /\ snd (run (in_image Sample.ready_at_fifth)) = Launches "node dist/server-http.js".
Proof.
  split; [|split].
  - apply (proj2 (proj1 (proj2 (script_endings Sample.blocked_at_first)) 1)).
    split; [|reflexivity]. split; [lia|]. intros j Hj. lia.
  - assert (In (Echo "ERROR: Backend failed to start within 30 seconds")
               (fst (run (in_image Sample.never_ready)))) as He.
    { apply (proj2 (proj1 (proj2 (proj2 (proj2
               (script_endings (in_image Sample.never_ready))))))).
      intros j Hj. split; reflexivity. }
    split; [exact He|].
    apply (proj1 (proj2 (proj2 (proj2 (proj2
             (script_endings (in_image Sample.never_ready))))))). exact He.
  - apply (proj2 (proj1 (script_endings (in_image Sample.ready_at_fifth))
                    "node dist/server-http.js")).
    repeat split. exists 5. split; [split; [lia|]|split; reflexivity].
    intros j Hj. split; [reflexivity|]. apply (proj2 (Nat.leb_gt 5 j)). lia.
Defined.

End CloudRunFacts.
